(** * Signature decorator: a shallow embedding of
      [src/utils/signature-decorator.js]

    The module overlays two curves and two labels on signature annotations
    and, after a signature has been placed, removes the widget annotation and
    the form field the host leaves behind.

    Conventions of the embedding:
    - a JavaScript number is a rational ([Q]): the IEEE rounding, the
      infinities and NaN are left out (the configuration invariant of the
      module is that every ratio and offset is finite);
    - a JavaScript string is a [string];
    - a property that may be missing is an [option];
    - the host SDK ([instance]) is a record of state-passing operations that
      either return or throw;
    - what is thrown is [null], [undefined], or a value whose [message] may
      be any JavaScript value, or an array of these;
    - [console] is a list of entries, oldest first.

    The second part embeds the import of documents of the viewer component
    ([PdfViewerComponent]) in the same way. *)

From Stdlib Require Import Bool List String Ascii ZArith QArith Qminmax Lia Lqa.
Import ListNotations.

Set Implicit Arguments.

#[local] Open Scope string_scope.
#[local] Open Scope Q_scope.

(** ** JavaScript primitives used by the module *)

Module Js.

(** [a < b] on numbers. *)
Definition lt (a b : Q) : bool :=
  (Qnum a * QDen b <? Qnum b * QDen a)%Z.

(** [a > b] on numbers: the language defines it as [b < a]. *)
Definition gt (a b : Q) : bool := lt b a.

(** [Math.min(a, b)] and [Math.max(a, b)]. *)
Definition Math_min (a b : Q) : Q := if lt b a then b else a.
Definition Math_max (a b : Q) : Q := if lt a b then b else a.

(** [s.startsWith(pat)]. *)
Fixpoint startsWith (s pat : string) : bool :=
  match pat, s with
  | EmptyString, _ => true
  | String _ _, EmptyString => false
  | String c pat', String d s' => Ascii.eqb c d && startsWith s' pat'
  end.

(** [s.includes(pat)]: [pat] occurs in [s] at some position. *)
Fixpoint includes (s pat : string) : bool :=
  startsWith s pat ||
  match s with
  | EmptyString => false
  | String _ s' => includes s' pat
  end.

(** Truthiness of an optional string: [undefined], [null] and the empty
    string are falsy. *)
Definition truthy (s : option string) : bool :=
  match s with
  | Some (String _ _) => true
  | _ => false
  end.

(** [a || b] on optional strings: the left operand when it is truthy, the
    right one otherwise. *)
Definition or (a b : option string) : option string :=
  if truthy a then a else b.

(** [a || ""] for a string-valued property. *)
Definition orEmpty (a : option string) : string :=
  match a with
  | Some s => s
  | None => ""
  end.

(** [a === b] on optional strings. *)
Definition strictEq (a b : option string) : bool :=
  match a, b with
  | Some x, Some y => String.eqb x y
  | None, None => true
  | _, _ => false
  end.

(** A value converted to a string, as a template or [includes] does to
    its argument: a missing value reads ["undefined"]. *)
Definition toString (v : option string) : string :=
  match v with
  | Some s => s
  | None => "undefined"
  end.

(** [arr.find(p)] and [arr.some(p)]. *)
Definition find {A} (p : A -> bool) (arr : list A) : option A :=
  List.find p arr.
Definition some {A} (p : A -> bool) (arr : list A) : bool :=
  List.existsb p arr.

End Js.

(** ** Geometry *)

Record BoundingBox := mkBoundingBox {
  left : Q;
  top : Q;
  width : Q;
  height : Q
}.

(** [checkBoundingBoxOverlap] (lines 104-111). *)
Definition checkBoundingBoxOverlap (bbox1 bbox2 : BoundingBox) : bool :=
  negb (
    Js.gt (left bbox1) (left bbox2 + width bbox2) ||
    Js.lt (left bbox1 + width bbox1) (left bbox2) ||
    Js.gt (top bbox1) (top bbox2 + height bbox2) ||
    Js.lt (top bbox1 + height bbox1) (top bbox2)
  ).

(** The projection of a box on an axis is the closed interval from its
    origin to its origin plus its extent. *)
Record Interval := mkInterval { lo : Q; hi : Q }.

Definition projX (b : BoundingBox) : Interval :=
  mkInterval (left b) (left b + width b).
Definition projY (b : BoundingBox) : Interval :=
  mkInterval (top b) (top b + height b).

Definition inInterval (x : Q) (i : Interval) : Prop := lo i <= x /\ x <= hi i.

(** Two closed intervals intersect when neither lies strictly beyond the
    other; for intervals that are not reversed this is having a common
    point ([intersects_iff_common_point] below). *)
Definition intersects (i j : Interval) : Prop := lo i <= hi j /\ lo j <= hi i.

(** Two boxes touch only at a vertical edge: the right edge of the first is
    the left edge of the second. *)
Definition touchRightEdge (a b : BoundingBox) : Prop :=
  left a + width a == left b.
Definition touchBottomEdge (a b : BoundingBox) : Prop :=
  top a + height a == top b.

(** ** Configuration

    One record per nesting level of [DEFAULT_CONFIG].  Each record is
    parametrised by what holds a property:
    [Full] for an object in which the property is there, [option] for an
    object in which it may be missing. *)

Definition Full (T : Type) : Type := T.

Module Curve.
Record t (F : Type -> Type) := mk {
  color : F string;
  strokeWidth : F string;
  topLengthRatio : F Q;
  topLengthMax : F Q;
  bottomLengthRatio : F Q;
  bottomLengthMax : F Q
}.
End Curve.

Module FontSize.
Record t (F : Type -> Type) := mk {
  top : F Q;
  bottom : F Q
}.
End FontSize.

Module Text.
Record t (F : Type -> Type) := mk {
  color : F string;
  fontFamily : F string;
  fontSize : F (FontSize.t F);
  gap : F Q
}.
End Text.

Module Position.
Record t (F : Type -> Type) := mk {
  svgTopOffset : F Q;
  svgLeftOffset : F Q;
  topLabelOffset : F Q;
  bottomLabelOffset : F Q
}.
End Position.

Module SignatureIdentifiers.
Record t (F : Type -> Type) := mk {
  typeCode : F string;
  namePattern : F string
}.
End SignatureIdentifiers.

Module Defaults.
Record t (F : Type -> Type) := mk {
  signerName : F string
}.
End Defaults.

(** The options of [Date.prototype.toLocaleString]: each one is optional by
    the interface itself (a component whose option is missing is not
    printed). *)
Module DateTimeFormat.
Record t := mk {
  year : option string;
  month : option string;
  day : option string;
  hour : option string;
  minute : option string;
  second : option string;
  hour12 : option bool
}.
End DateTimeFormat.

Module Config.
(** [T] holds the six top-level properties, [F] the properties below. *)
Record t (T F : Type -> Type) := mk {
  curve : T (Curve.t F);
  text : T (Text.t F);
  position : T (Position.t F);
  signatureIdentifiers : T (SignatureIdentifiers.t F);
  defaults : T (Defaults.t F);
  dateTimeFormat : T DateTimeFormat.t
}.
End Config.

(** A configuration whose properties are all there, the date and time
    options apart ([DEFAULT_CONFIG] is one, with all of those too). *)
Definition CompleteConfig : Type := Config.t Full Full.
(** What a caller passes as [options.config]: any subtree and any property
    may be missing. *)
Definition ConfigOverride : Type := Config.t option option.
(** What an object spread over [DEFAULT_CONFIG] yields in general: the six
    top-level properties are there, the ones below may be missing. *)
Definition MergedConfig : Type := Config.t Full option.

(** [DEFAULT_CONFIG] (lines 14-66). *)
Definition DEFAULT_CONFIG : CompleteConfig :=
  Config.mk Full Full
    (Curve.mk Full "#0078D4" "1.5" 0.25 50 0.35 70)
    (Text.mk Full "#008000"
       "-apple-system, BlinkMacSystemFont, 'Segoe UI', Roboto, sans-serif"
       (FontSize.mk Full 9 8)
       3)
    (Position.mk Full (-25) (-5) (-27) (-24))
    (SignatureIdentifiers.mk Full "S" "SIGNATURE")
    (Defaults.mk Full "Nutrient")
    (DateTimeFormat.mk
       (Some "numeric") (Some "2-digit") (Some "2-digit")
       (Some "2-digit") (Some "2-digit") (Some "2-digit") (Some true)).

(** *** Object spread

    [{ ...d, ...o }] property by property: the property of [o] when [o] has
    it, the one of [d] otherwise.  Spreading [undefined] adds nothing. *)

Definition fill {A} (d : A) (o : option A) : A :=
  match o with
  | Some v => v
  | None => d
  end.

(** [o?.p]: the property [p] of an object that may itself be missing. *)
Definition opt {A B} (o : option A) (p : A -> option B) : option B :=
  match o with
  | Some a => p a
  | None => None
  end.

(** [{ ...DEFAULT_CONFIG.curve, ...customConfig.curve }]. *)
Definition spreadCurve (d : Curve.t Full) (o : option (Curve.t option))
  : Curve.t Full :=
  Curve.mk Full
    (fill (Curve.color d) (opt o (@Curve.color _)))
    (fill (Curve.strokeWidth d) (opt o (@Curve.strokeWidth _)))
    (fill (Curve.topLengthRatio d) (opt o (@Curve.topLengthRatio _)))
    (fill (Curve.topLengthMax d) (opt o (@Curve.topLengthMax _)))
    (fill (Curve.bottomLengthRatio d) (opt o (@Curve.bottomLengthRatio _)))
    (fill (Curve.bottomLengthMax d) (opt o (@Curve.bottomLengthMax _))).

(** [{ ...DEFAULT_CONFIG.text.fontSize, ...customConfig.text?.fontSize }]. *)
Definition spreadFontSize (d : FontSize.t Full) (o : option (FontSize.t option))
  : FontSize.t Full :=
  FontSize.mk Full
    (fill (FontSize.top d) (opt o (@FontSize.top _)))
    (fill (FontSize.bottom d) (opt o (@FontSize.bottom _))).

(** [{ ...DEFAULT_CONFIG.text, ...customConfig.text, fontSize: {...} }]:
    the [fontSize] written last replaces whatever the two spreads put
    there. *)
Definition spreadText (d : Text.t Full) (o : option (Text.t option))
  : Text.t Full :=
  Text.mk Full
    (fill (Text.color d) (opt o (@Text.color _)))
    (fill (Text.fontFamily d) (opt o (@Text.fontFamily _)))
    (spreadFontSize (Text.fontSize d) (opt o (@Text.fontSize _)))
    (fill (Text.gap d) (opt o (@Text.gap _))).

Definition spreadPosition (d : Position.t Full) (o : option (Position.t option))
  : Position.t Full :=
  Position.mk Full
    (fill (Position.svgTopOffset d) (opt o (@Position.svgTopOffset _)))
    (fill (Position.svgLeftOffset d) (opt o (@Position.svgLeftOffset _)))
    (fill (Position.topLabelOffset d) (opt o (@Position.topLabelOffset _)))
    (fill (Position.bottomLabelOffset d) (opt o (@Position.bottomLabelOffset _))).

Definition spreadSignatureIdentifiers
  (d : SignatureIdentifiers.t Full) (o : option (SignatureIdentifiers.t option))
  : SignatureIdentifiers.t Full :=
  SignatureIdentifiers.mk Full
    (fill (SignatureIdentifiers.typeCode d)
       (opt o (@SignatureIdentifiers.typeCode _)))
    (fill (SignatureIdentifiers.namePattern d)
       (opt o (@SignatureIdentifiers.namePattern _))).

Definition spreadDefaults (d : Defaults.t Full) (o : option (Defaults.t option))
  : Defaults.t Full :=
  Defaults.mk Full
    (fill (Defaults.signerName d) (opt o (@Defaults.signerName _))).

(** *** An object of [Full] properties seen as one of optional ones *)

Definition curveProps (c : Curve.t Full) : Curve.t option :=
  Curve.mk option
    (Some (Curve.color c)) (Some (Curve.strokeWidth c))
    (Some (Curve.topLengthRatio c)) (Some (Curve.topLengthMax c))
    (Some (Curve.bottomLengthRatio c)) (Some (Curve.bottomLengthMax c)).

Definition fontSizeProps (f : FontSize.t Full) : FontSize.t option :=
  FontSize.mk option (Some (FontSize.top f)) (Some (FontSize.bottom f)).

Definition textProps (t : Text.t Full) : Text.t option :=
  Text.mk option
    (Some (Text.color t)) (Some (Text.fontFamily t))
    (Some (fontSizeProps (Text.fontSize t))) (Some (Text.gap t)).

Definition positionProps (p : Position.t Full) : Position.t option :=
  Position.mk option
    (Some (Position.svgTopOffset p)) (Some (Position.svgLeftOffset p))
    (Some (Position.topLabelOffset p)) (Some (Position.bottomLabelOffset p)).

Definition signatureIdentifiersProps (s : SignatureIdentifiers.t Full)
  : SignatureIdentifiers.t option :=
  SignatureIdentifiers.mk option
    (Some (SignatureIdentifiers.typeCode s))
    (Some (SignatureIdentifiers.namePattern s)).

Definition defaultsProps (d : Defaults.t Full) : Defaults.t option :=
  Defaults.mk option (Some (Defaults.signerName d)).

Definition configProps (c : CompleteConfig) : MergedConfig :=
  Config.mk Full option
    (curveProps (Config.curve c))
    (textProps (Config.text c))
    (positionProps (Config.position c))
    (signatureIdentifiersProps (Config.signatureIdentifiers c))
    (defaultsProps (Config.defaults c))
    (Config.dateTimeFormat c).

(** *** Every leaf defined *)

Definition isSome {A} (o : option A) : bool :=
  match o with
  | Some _ => true
  | None => false
  end.

Definition curveDefined (c : Curve.t option) : bool :=
  isSome (Curve.color c) && isSome (Curve.strokeWidth c) &&
  isSome (Curve.topLengthRatio c) && isSome (Curve.topLengthMax c) &&
  isSome (Curve.bottomLengthRatio c) && isSome (Curve.bottomLengthMax c).

Definition fontSizeDefined (f : FontSize.t option) : bool :=
  isSome (FontSize.top f) && isSome (FontSize.bottom f).

Definition textDefined (t : Text.t option) : bool :=
  isSome (Text.color t) && isSome (Text.fontFamily t) &&
  match Text.fontSize t with
  | Some f => fontSizeDefined f
  | None => false
  end &&
  isSome (Text.gap t).

Definition positionDefined (p : Position.t option) : bool :=
  isSome (Position.svgTopOffset p) && isSome (Position.svgLeftOffset p) &&
  isSome (Position.topLabelOffset p) && isSome (Position.bottomLabelOffset p).

Definition signatureIdentifiersDefined (s : SignatureIdentifiers.t option)
  : bool :=
  isSome (SignatureIdentifiers.typeCode s) &&
  isSome (SignatureIdentifiers.namePattern s).

Definition defaultsDefined (d : Defaults.t option) : bool :=
  isSome (Defaults.signerName d).

Definition dateTimeFormatDefined (f : DateTimeFormat.t) : bool :=
  isSome (DateTimeFormat.year f) && isSome (DateTimeFormat.month f) &&
  isSome (DateTimeFormat.day f) && isSome (DateTimeFormat.hour f) &&
  isSome (DateTimeFormat.minute f) && isSome (DateTimeFormat.second f) &&
  isSome (DateTimeFormat.hour12 f).

(** Every leaf of [DEFAULT_CONFIG] has a value in [c], at every nesting
    level. *)
Definition everyLeafDefined (c : MergedConfig) : bool :=
  curveDefined (Config.curve c) &&
  textDefined (Config.text c) &&
  positionDefined (Config.position c) &&
  signatureIdentifiersDefined (Config.signatureIdentifiers c) &&
  defaultsDefined (Config.defaults c) &&
  dateTimeFormatDefined (Config.dateTimeFormat c).

(** *** The two places that merge a caller's configuration *)

Module Options.
(** The [options] argument of [createSignatureRenderer] and of
    [initializeSignatureDecorator]. *)
Record t := mk {
  loggedInUser : option string;
  config : option ConfigOverride
}.
End Options.

(** [{}] as a configuration override. *)
Definition emptyOverride : ConfigOverride :=
  Config.mk option option None None None None None None.

(** The configuration built by [createSignatureRenderer] (lines 256-277):
    [customConfig] is [options.config], or [{}] when that is missing; the
    five subtrees written after the two top-level spreads are merged
    property by property; [dateTimeFormat] is only reached by the top-level
    spreads, so the caller's object, when there is one, replaces the default
    one whole. *)
Definition createSignatureRenderer_config (options : Options.t)
  : CompleteConfig :=
  let customConfig := fill emptyOverride (Options.config options) in
  Config.mk Full Full
    (spreadCurve (Config.curve DEFAULT_CONFIG) (Config.curve customConfig))
    (spreadText (Config.text DEFAULT_CONFIG) (Config.text customConfig))
    (spreadPosition (Config.position DEFAULT_CONFIG)
       (Config.position customConfig))
    (spreadSignatureIdentifiers (Config.signatureIdentifiers DEFAULT_CONFIG)
       (Config.signatureIdentifiers customConfig))
    (spreadDefaults (Config.defaults DEFAULT_CONFIG)
       (Config.defaults customConfig))
    (fill (Config.dateTimeFormat DEFAULT_CONFIG)
       (Config.dateTimeFormat customConfig)).

(** The configuration built by [initializeSignatureDecorator] (line 523):
    [{ ...DEFAULT_CONFIG, ...options.config }], one level deep. *)
Definition initializeSignatureDecorator_config (options : Options.t)
  : MergedConfig :=
  let d := configProps DEFAULT_CONFIG in
  let o := Options.config options in
  Config.mk Full option
    (fill (Config.curve d) (opt o (@Config.curve _ _)))
    (fill (Config.text d) (opt o (@Config.text _ _)))
    (fill (Config.position d) (opt o (@Config.position _ _)))
    (fill (Config.signatureIdentifiers d)
       (opt o (@Config.signatureIdentifiers _ _)))
    (fill (Config.defaults d) (opt o (@Config.defaults _ _)))
    (fill (Config.dateTimeFormat d) (opt o (@Config.dateTimeFormat _ _))).

(** ** Host data: form fields, annotations, errors *)

Module FormField.
Record t := mk {
  constructor_name : option string;   (* formField.constructor?.name *)
  name : option string
}.
End FormField.

Inductive AnnotationKind :=
| InkAnnotation
| ImageAnnotation
| WidgetAnnotation
| OtherAnnotation.

Module CustomData.
Record t := mk {
  isSignature : option bool;
  signerName : option string
}.
End CustomData.

Module Annotation.
Record t := mk {
  kind : AnnotationKind;               (* what [instanceof] tells *)
  constructor_name : string;           (* annotation.constructor.name *)
  id : string;
  pageIndex : Z;
  boundingBox : BoundingBox;
  customData : option CustomData.t;
  isSignature : option bool;
  formFieldName : option string
}.
End Annotation.

Definition isKind (k : AnnotationKind) (a : Annotation.t) : bool :=
  match k, Annotation.kind a with
  | InkAnnotation, InkAnnotation
  | ImageAnnotation, ImageAnnotation
  | WidgetAnnotation, WidgetAnnotation
  | OtherAnnotation, OtherAnnotation => true
  | _, _ => false
  end.

(** A JavaScript value, as the [message] of a thrown object can be any.
    [JsNumber] has the finite numbers ([NaN] is falsy as [0] is, the
    infinities are truthy as [1] is); [JsObject] stands for the values that
    are truthy and have no [includes] method: a plain object, a function,
    a symbol.  Objects that bring an [includes] method of their own are
    left out. *)
#[warnings="-register-all"] Inductive JsValue :=
| JsUndefined
| JsNull
| JsBoolean (b : bool)
| JsNumber (n : Q)
| JsString (s : string)
| JsArray (items : list JsValue)
| JsObject.

(** One error value: [null], [undefined], or any other value, with what
    reading its [message] gives ([JsUndefined] when it has none, as for a
    thrown string or number). *)
Inductive ErrorValue :=
| ErrNull
| ErrUndefined
| ErrObject (message : JsValue).

(** What a rejected host call carries: one error value or an array of
    them. *)
Inductive Thrown :=
| OneError (e : ErrorValue)
| ErrorArray (es : list ErrorValue).

(** The outcome of an evaluation: a value, or an exception. *)
Inductive Result (A : Type) :=
| Returned (a : A)
| Thrown_ (e : Thrown).
Arguments Returned {A} a.
Arguments Thrown_ {A} e.

(** [err?.message]. *)
Definition message_of (err : ErrorValue) : JsValue :=
  match err with
  | ErrObject m => m
  | ErrNull | ErrUndefined => JsUndefined
  end.

(** Truthiness of a value. *)
Definition truthyValue (v : JsValue) : bool :=
  match v with
  | JsUndefined | JsNull => false
  | JsBoolean b => b
  | JsNumber n => negb (Qeq_bool n 0)
  | JsString EmptyString => false
  | JsString (String _ _) => true
  | JsArray _ | JsObject => true
  end.

(** [v || ""]. *)
Definition valueOrEmpty (v : JsValue) : JsValue :=
  if truthyValue v then v else JsString "".

(** The [TypeError] of calling [includes] on a value that has no such
    method. *)
Definition includesTypeError : Thrown :=
  OneError (ErrObject (JsString "errorMsg.includes is not a function")).

(** [v.includes(search)] for a string [search]: a substring test on a
    string, a membership test on an array, a [TypeError] on the values
    without the method. *)
Definition valueIncludes (v : JsValue) (search : string) : Result bool :=
  match v with
  | JsString s => Returned (Js.includes s search)
  | JsArray items =>
      Returned
        (List.existsb
           (fun item =>
              match item with
              | JsString s => String.eqb s search
              | _ => false
              end)
           items)
  | JsUndefined | JsNull | JsBoolean _ | JsNumber _ | JsObject =>
      Thrown_ includesTypeError
  end.

(** [a || b] where evaluating [a] may throw; [b] is evaluated only when [a]
    is [false]. *)
Definition orElse (a b : Result bool) : Result bool :=
  match a with
  | Returned true => Returned true
  | Returned false => b
  | Thrown_ e => Thrown_ e
  end.

(** [arr.some(p)] where [p] may throw: stops at the first element on which
    [p] is [true] or throws. *)
Fixpoint someOrThrow {A} (p : A -> Result bool) (arr : list A) : Result bool :=
  match arr with
  | [] => Returned false
  | x :: rest =>
      match p x with
      | Returned true => Returned true
      | Returned false => someOrThrow p rest
      | Thrown_ e => Thrown_ e
      end
  end.

(** ** Classification helpers *)

(** [isSignatureField] (lines 85-96). *)
Definition isSignatureField (formField : option FormField.t)
                            (config : MergedConfig) : bool :=
  match formField with
  | None => false
  | Some formField =>
      let typeName := Js.orEmpty (FormField.constructor_name formField) in
      let fieldName := Js.orEmpty (FormField.name formField) in
      Js.includes typeName "Signature" ||
      Js.strictEq (Some typeName)
        (SignatureIdentifiers.typeCode (Config.signatureIdentifiers config)) ||
      Js.includes fieldName
        (Js.toString
           (SignatureIdentifiers.namePattern
              (Config.signatureIdentifiers config)))
  end.

(** [isFormFieldNotFoundError] (lines 118-127): it returns, or throws the
    [TypeError] of line 123. *)
Definition isFormFieldNotFoundError (error : Thrown) : Result bool :=
  let errors :=
    match error with
    | ErrorArray es => es
    | OneError e => [e]
    end in
  someOrThrow
    (fun err =>
       let errorMsg := valueOrEmpty (message_of err) in
       orElse (valueIncludes errorMsg "no form field")
              (valueIncludes errorMsg "There is no form field"))
    errors.

(** [pat] occurs in [s]. *)
Definition contains (s pat : string) : Prop :=
  exists pre post : string, s = pre ++ pat ++ post.

(** The elements an error stands for. *)
Definition elements (error : Thrown) : list ErrorValue :=
  match error with
  | ErrorArray es => es
  | OneError e => [e]
  end.

(** The message of an error value is a string, or is missing or falsy, as
    the message of an [Error] is. *)
Definition plainMessage (err : ErrorValue) : bool :=
  match message_of err with
  | JsString _ => true
  | v => negb (truthyValue v)
  end.

(** [isFormFieldNotFoundError] returns on [error]. *)
Definition classifiable (error : Thrown) : Prop :=
  exists isNotFound : bool,
    isFormFieldNotFoundError error = Returned isNotFound.

(** ** The overlay

    The DOM nodes the renderer builds, as data: an SVG path is its list of
    commands and its attributes, a label its text and the numbers written
    into its style. *)

Inductive PathCommand :=
| MoveTo (x y : Q)
| LineTo (x y : Q)
| CurveTo (x1 y1 x2 y2 x y : Q).

Module Path.
Record t := mk {
  d : list PathCommand;
  stroke : string;
  stroke_width : string;
  fill : string
}.
End Path.

Module CurveResult.
(** What [createTopCurve] and [createBottomCurve] return. *)
Record t := mk {
  path : Path.t;
  length : Q
}.
End CurveResult.

Inductive VerticalAnchor :=
| CssTop (px : Q)
| CssBottom (px : Q).

Module Label.
Record t := mk {
  textContent : string;
  vertical : VerticalAnchor;
  left : Q;
  font_size : Q;
  color : string
}.
End Label.

Module Svg.
Record t := mk {
  width : Q;
  height : Q;
  top : Q;
  left : Q;
  children : list Path.t
}.
End Svg.

Inductive Node :=
| SvgNode (svg : Svg.t)
| LabelNode (label : Label.t).

Module Wrapper.
Record t := mk {
  className : string;
  font_family : string;
  pointer_events : string;
  children : list Node
}.
End Wrapper.

Module Overlay.
(** What the renderer hands back to the host. *)
Record t := mk {
  node : Wrapper.t;
  append : bool;
  noZoom : bool
}.
End Overlay.

(** [createTopCurve] (lines 143-156). *)
Definition createTopCurve (width : Q) (config : CompleteConfig)
  : CurveResult.t :=
  let curveLength :=
    Js.Math_min
      (width * Curve.topLengthRatio (Config.curve config))
      (Curve.topLengthMax (Config.curve config)) in
  CurveResult.mk
    (Path.mk
       [MoveTo 0 25; LineTo 0 15; CurveTo 0 10 2 8 7 8; LineTo curveLength 8]
       (Curve.color (Config.curve config))
       (Curve.strokeWidth (Config.curve config))
       "none")
    curveLength.

(** [createBottomCurve] (lines 165-182). *)
Definition createBottomCurve (height width : Q) (config : CompleteConfig)
  : CurveResult.t :=
  let bottomY := height + 25 in
  let curveLength :=
    Js.Math_min
      (width * Curve.bottomLengthRatio (Config.curve config))
      (Curve.bottomLengthMax (Config.curve config)) in
  CurveResult.mk
    (Path.mk
       [MoveTo 0 bottomY; LineTo 0 (bottomY + 8);
        CurveTo 0 (bottomY + 13) 2 (bottomY + 15) 7 (bottomY + 15);
        LineTo curveLength (bottomY + 15)]
       (Curve.color (Config.curve config))
       (Curve.strokeWidth (Config.curve config))
       "none")
    curveLength.

(** [createTopLabel] (lines 204-219); [signerName] is whatever the chain of
    [||] gave, and the template prints a missing value as ["undefined"]. *)
Definition createTopLabel (signerName : option string) (curveLength : Q)
                          (config : CompleteConfig) : Label.t :=
  Label.mk
    ("By " ++ Js.toString signerName)
    (CssTop (Position.topLabelOffset (Config.position config)))
    (curveLength + Text.gap (Config.text config))
    (FontSize.top (Text.fontSize (Config.text config)))
    (Text.color (Config.text config)).

Section Rendering.

(** [new Date().toLocaleString("en-US", formatOptions)]: the current date
    and time printed under the given options, read from the
    environment. *)
Variable toLocaleString : DateTimeFormat.t -> string.

(** [getCurrentDateTime] (lines 73-77). *)
Definition getCurrentDateTime (formatOptions : DateTimeFormat.t) : string :=
  toLocaleString formatOptions.

(** [createBottomLabel] (lines 228-244). *)
Definition createBottomLabel (curveLength width : Q)
                             (config : CompleteConfig) : Label.t :=
  let formattedDateTime :=
    getCurrentDateTime (Config.dateTimeFormat config) in
  Label.mk
    formattedDateTime
    (CssBottom (Position.bottomLabelOffset (Config.position config)))
    (curveLength + Text.gap (Config.text config))
    (FontSize.bottom (Text.fontSize (Config.text config)))
    (Text.color (Config.text config)).

(** [{}] as custom data. *)
Definition emptyCustomData : CustomData.t := CustomData.mk None None.

(** Truthiness of an optional flag. *)
Definition truthyFlag (b : option bool) : bool :=
  match b with
  | Some true => true
  | _ => false
  end.

(** [createSignatureRenderer] (lines 255-349): the function it returns,
    applied to an annotation; [None] is the [null] of line 290. *)
Definition createSignatureRenderer (options : Options.t)
                                   (annotation : Annotation.t)
  : option Overlay.t :=
  let loggedInUser := Options.loggedInUser options in
  let config := createSignatureRenderer_config options in
  let isInkAnnotation := isKind InkAnnotation annotation in
  let isImageAnnotation := isKind ImageAnnotation annotation in
  let customData := fill emptyCustomData (Annotation.customData annotation) in
  let isSignature :=
    truthyFlag (CustomData.isSignature customData) ||
    truthyFlag (Annotation.isSignature annotation) in
  if negb isInkAnnotation && negb isImageAnnotation && negb isSignature
  then None
  else
    let signerName :=
      Js.or (Js.or (CustomData.signerName customData) loggedInUser)
            (Some (Defaults.signerName (Config.defaults config))) in
    let bbox := Annotation.boundingBox annotation in
    let width := width bbox in
    let height := height bbox in
    let svgWidth := Js.Math_max (width * 0.4) 80 in
    let svgHeight := height + 50 in
    let top := createTopCurve width config in
    let bottom := createBottomCurve height width config in
    let svg :=
      Svg.mk svgWidth svgHeight
        (Position.svgTopOffset (Config.position config))
        (Position.svgLeftOffset (Config.position config))
        [CurveResult.path top; CurveResult.path bottom] in
    let topLabel :=
      createTopLabel signerName (CurveResult.length top) config in
    let bottomLabel :=
      createBottomLabel (CurveResult.length bottom) width config in
    Some (Overlay.mk
            (Wrapper.mk "signature-metadata-wrapper"
               (Text.fontFamily (Config.text config))
               "none"
               [SvgNode svg; LabelNode topLabel; LabelNode bottomLabel])
            true false).

End Rendering.

(** ** The cleanup coordinator

    The host calls are asynchronous and may reject; an [await]ed rejection
    is an exception at the [await].  A computation takes the world (the host
    state and the console) and either returns a value or throws, with the
    world it leaves. *)

Inductive ConsoleEntry :=
| console_log (args : list string)
| console_warn (args : list string)
| console_error (args : list string) (error : Thrown).

(** What [instance.delete] is given. *)
Inductive Entity :=
| AnnotationEntity (a : Annotation.t)
| FormFieldEntity (f : FormField.t).

Module Instance.
(** The part of the SDK instance the coordinator calls, over a host state
    [H]; [elapse ms] is what becomes of the host while the coordinator
    waits [ms] milliseconds. *)
Record t (H : Type) := mk {
  getAnnotations : Z -> H -> Result (list Annotation.t) * H;
  getFormFields : H -> Result (list FormField.t) * H;
  delete : Entity -> H -> Result unit * H;
  elapse : Z -> H -> H
}.
End Instance.

Module World.
Record t (H : Type) := mk {
  host : H;
  console : list ConsoleEntry
}.
End World.

Definition M (H A : Type) : Type := World.t H -> Result A * World.t H.

Definition ret {H A} (a : A) : M H A := fun w => (Returned a, w).

Definition bind {H A B} (m : M H A) (k : A -> M H B) : M H B :=
  fun w =>
    match m w with
    | (Returned a, w') => k a w'
    | (Thrown_ e, w') => (Thrown_ e, w')
    end.

Definition throw {H A} (e : Thrown) : M H A := fun w => (Thrown_ e, w).

(** [try { m } catch (e) { handler e }]. *)
Definition tryCatch {H A} (m : M H A) (handler : Thrown -> M H A) : M H A :=
  fun w =>
    match m w with
    | (Returned a, w') => (Returned a, w')
    | (Thrown_ e, w') => handler e w'
    end.

(** The outcome of an evaluation that does not touch the world. *)
Definition evaluate {H A} (r : Result A) : M H A := fun w => (r, w).

(** [await call]: run a host operation on the host state. *)
Definition await {H A} (call : H -> Result A * H) : M H A :=
  fun w =>
    let (r, h) := call (World.host w) in
    (r, World.mk h (World.console w)).

Definition emit {H} (entry : ConsoleEntry) : M H unit :=
  fun w => (Returned tt, World.mk (World.host w) (World.console w ++ [entry])).

Declare Scope js_scope.
Delimit Scope js_scope with js.
Notation "x <- m ;; k" := (bind m (fun x => k))
  (at level 61, m at next level, right associativity) : js_scope.
Notation "m ;; k" := (bind m (fun _ => k))
  (at level 61, right associativity) : js_scope.

(** A number printed in a template. *)
Fixpoint digits (fuel n : nat) (acc : string) : string :=
  match fuel with
  | O => acc
  | S fuel' =>
      let acc' := String (ascii_of_nat (48 + n mod 10)) acc in
      match (n / 10)%nat with
      | O => acc'
      | m => digits fuel' m acc'
      end
  end.
Definition natToString (n : nat) : string := digits (S n) n "".

#[local] Open Scope js_scope.

Section Coordinator.

Variable H : Type.
Variable instance : Instance.t H.

(** [new Promise((resolve) => setTimeout(resolve, ms))], awaited: the
    handler resumes on the host as it is [ms] milliseconds later. *)
Definition settle (ms : Z) : M H unit :=
  fun w =>
    (Returned tt,
     World.mk (Instance.elapse instance ms (World.host w)) (World.console w)).

(** Strategy 1 (lines 382-394). *)
Definition strategy1 (annotation : Annotation.t)
                     (widgetAnnotations : list Annotation.t)
                     (formFields : list FormField.t)
  : M H (option Annotation.t * option FormField.t) :=
  if Js.truthy (Annotation.formFieldName annotation) then
    let widgetToDelete :=
      Js.find
        (fun widget =>
           Js.strictEq (Annotation.formFieldName widget)
                       (Annotation.formFieldName annotation))
        widgetAnnotations in
    let formFieldToDelete :=
      Js.find
        (fun ff =>
           Js.strictEq (FormField.name ff)
                       (Annotation.formFieldName annotation))
        formFields in
    (if isSome widgetToDelete
     then emit (console_log ["Strategy 1: Found widget by formFieldName"])
     else ret tt) ;;
    ret (widgetToDelete, formFieldToDelete)
  else ret (None, None).

(** The loop of strategy 2 (lines 400-416): the first widget that
    overlaps, has a form field name, and whose form field is a signature
    field. *)
Fixpoint firstOverlappingSignatureWidget
    (signatureBBox : BoundingBox) (formFields : list FormField.t)
    (config : MergedConfig) (widgetAnnotations : list Annotation.t)
  : option (Annotation.t * option FormField.t) :=
  match widgetAnnotations with
  | [] => None
  | widget :: rest =>
      let widgetBBox := Annotation.boundingBox widget in
      let overlaps := checkBoundingBoxOverlap signatureBBox widgetBBox in
      if overlaps && Js.truthy (Annotation.formFieldName widget) then
        let ff :=
          Js.find
            (fun f =>
               Js.strictEq (FormField.name f)
                           (Annotation.formFieldName widget))
            formFields in
        if isSignatureField ff config
        then Some (widget, ff)
        else firstOverlappingSignatureWidget signatureBBox formFields
               config rest
      else firstOverlappingSignatureWidget signatureBBox formFields
             config rest
  end.

(** Strategy 2 (lines 396-417), entered with what strategy 1 left in
    [widgetToDelete] and [formFieldToDelete]. *)
Definition strategy2 (annotation : Annotation.t)
                     (widgetAnnotations : list Annotation.t)
                     (formFields : list FormField.t)
                     (config : MergedConfig)
                     (found : option Annotation.t * option FormField.t)
  : M H (option Annotation.t * option FormField.t) :=
  if negb (isSome (fst found)) then
    let signatureBBox := Annotation.boundingBox annotation in
    match firstOverlappingSignatureWidget signatureBBox formFields config
            widgetAnnotations with
    | Some (widget, ff) =>
        emit (console_log
                ["Strategy 2: Found widget by overlap and signature field type"]) ;;
        ret (Some widget, ff)
    | None => ret found
    end
  else ret found.

(** Deleting the form field (lines 427-439). *)
Definition deleteFormField (formFieldToDelete : option FormField.t)
  : M H unit :=
  match formFieldToDelete with
  | Some ff =>
      tryCatch
        (await (Instance.delete instance (FormFieldEntity ff)) ;;
         emit (console_log ["✓ Deleted form field"]))
        (fun formFieldError =>
           isNotFound <- evaluate (isFormFieldNotFoundError formFieldError) ;;
           if isNotFound : bool
           then emit (console_log
                        ["ℹ Form field already deleted (cleaned up with widget)"])
           else throw formFieldError)
  | None => ret tt
  end.

(** Deleting the widget (lines 419-425). *)
Definition deleteWidget (widgetToDelete : option Annotation.t) : M H unit :=
  match widgetToDelete with
  | Some widget =>
      await (Instance.delete instance (AnnotationEntity widget)) ;;
      emit (console_log ["✓ Deleted widget annotation"])
  | None =>
      emit (console_warn ["Could not find widget annotation to delete"])
  end.

(** The body of the [try] of [handleSignatureCreation] (lines 371-439). *)
Definition cleanup (annotation : Annotation.t) (config : MergedConfig)
  : M H unit :=
  allAnnotations <-
    await (Instance.getAnnotations instance (Annotation.pageIndex annotation)) ;;
  formFields <- await (Instance.getFormFields instance) ;;
  let widgetAnnotations :=
    List.filter (isKind WidgetAnnotation) allAnnotations in
  emit (console_log
          ["Found " ++ natToString (List.length widgetAnnotations)
             ++ " widget(s) on page"]) ;;
  found <- strategy1 annotation widgetAnnotations formFields ;;
  found <- strategy2 annotation widgetAnnotations formFields config found ;;
  deleteWidget (fst found) ;;
  deleteFormField (snd found).

(** The [catch] of [handleSignatureCreation] (lines 440-446). *)
Definition reportFailure (error : Thrown) : M H unit :=
  isNotFound <- evaluate (isFormFieldNotFoundError error) ;;
  if isNotFound : bool
  then emit (console_log
               ["ℹ Form field already deleted (cleaned up with widget)"])
  else emit (console_error ["Error deleting widget/form field:"] error).

(** [handleSignatureCreation] (lines 360-447). *)
Definition handleSignatureCreation (annotation : Annotation.t)
                                   (config : MergedConfig) : M H unit :=
  emit (console_log
          ["Signature detected:"; Annotation.constructor_name annotation]) ;;
  settle 100 ;;
  tryCatch (cleanup annotation config) reportFailure.

(** [createAnnotationHandler] (lines 457-479): the handler it returns,
    applied to a batch of created annotations. *)
Fixpoint createAnnotationHandler (config : MergedConfig)
                                 (annotations : list Annotation.t)
  : M H unit :=
  match annotations with
  | [] => ret tt
  | annotation :: rest =>
      let isInkAnnotation := isKind InkAnnotation annotation in
      let isImageAnnotation := isKind ImageAnnotation annotation in
      (if isInkAnnotation || isImageAnnotation
       then handleSignatureCreation annotation config
       else ret tt) ;;
      createAnnotationHandler config rest
  end.

(** [initializeSignatureDecorator] (lines 518-536): the handler it
    registers for ["annotations.create"], built on the configuration of
    line 523. *)
Definition initializeSignatureDecorator (options : Options.t)
  : list Annotation.t -> M H unit :=
  createAnnotationHandler (initializeSignatureDecorator_config options).

(** *** Vocabulary of the statements about the coordinator *)

(** The world after one more console entry. *)
Definition logged (w : World.t H) (entries : list ConsoleEntry) : World.t H :=
  World.mk (World.host w) (World.console w ++ entries).

(** The world when the wait of line 368 is over. *)
Definition settled (w : World.t H) : World.t H :=
  World.mk (Instance.elapse instance 100 (World.host w)) (World.console w).

(** The entry of line 366. *)
Definition detected (annotation : Annotation.t) : ConsoleEntry :=
  console_log ["Signature detected:"; Annotation.constructor_name annotation].

Definition alreadyDeleted : ConsoleEntry :=
  console_log ["ℹ Form field already deleted (cleaned up with widget)"].

Definition failureReport (error : Thrown) : ConsoleEntry :=
  console_error ["Error deleting widget/form field:"] error.

(** Whatever a fetch or the deletion of a widget is rejected with, the test
    of line 441 returns on it. *)
Definition classifiableRejections : Prop :=
  (forall (pageIndex : Z) (h h' : H) (e : Thrown),
      Instance.getAnnotations instance pageIndex h = (Thrown_ e, h') ->
      classifiable e) /\
  (forall (h h' : H) (e : Thrown),
      Instance.getFormFields instance h = (Thrown_ e, h') ->
      classifiable e) /\
  (forall (widget : Annotation.t) (h h' : H) (e : Thrown),
      Instance.delete instance (AnnotationEntity widget) h = (Thrown_ e, h') ->
      classifiable e).

(** What the handler does with one annotation of a batch. *)
Definition processOne (config : MergedConfig) (w : World.t H)
                      (annotation : Annotation.t) : World.t H :=
  if isKind InkAnnotation annotation || isKind ImageAnnotation annotation
  then snd (handleSignatureCreation annotation config w)
  else w.

Definition byName (name : option string) (widget : Annotation.t) : bool :=
  Js.strictEq (Annotation.formFieldName widget) name.

Definition fieldByName (name : option string) (ff : FormField.t) : bool :=
  Js.strictEq (FormField.name ff) name.

Definition strategy1Entry : ConsoleEntry :=
  console_log ["Strategy 1: Found widget by formFieldName"].

Definition strategy2Entry : ConsoleEntry :=
  console_log ["Strategy 2: Found widget by overlap and signature field type"].

Definition foundEntry (widgetAnnotations : list Annotation.t) : ConsoleEntry :=
  console_log
    ["Found " ++ natToString (List.length widgetAnnotations)
       ++ " widget(s) on page"].

(** The targets and the console entries the two strategies leave. *)
Definition selection (annotation : Annotation.t)
                     (widgetAnnotations : list Annotation.t)
                     (formFields : list FormField.t) (config : MergedConfig)
  : (option Annotation.t * option FormField.t) * list ConsoleEntry :=
  let name := Annotation.formFieldName annotation in
  let first :=
    if Js.truthy name
    then (Js.find (byName name) widgetAnnotations,
          Js.find (fieldByName name) formFields)
    else (None, None) in
  match fst first with
  | Some _ => (first, [strategy1Entry])
  | None =>
      match firstOverlappingSignatureWidget
              (Annotation.boundingBox annotation) formFields config
              widgetAnnotations with
      | Some (widget, ff) => ((Some widget, ff), [strategy2Entry])
      | None => (first, [])
      end
  end.

End Coordinator.

(** ** Vocabulary of the statements about the renderer *)

(** A name is provided when it is there and is not the empty string (the
    code tests it with [||]). *)
Definition provided (o : option string) (s : string) : Prop :=
  o = Some s /\ s <> "".
Definition notProvided (o : option string) : Prop :=
  o = None \/ o = Some "".

(** The text of the top label of an overlay: the second child of the
    wrapper. *)
Definition topLabelText (overlay : Overlay.t) : option string :=
  match Wrapper.children (Overlay.node overlay) with
  | [SvgNode _; LabelNode topLabel; LabelNode _] =>
      Some (Label.textContent topLabel)
  | _ => None
  end.

(** The annotation is an ink annotation, an image annotation, or is marked
    as a signature by its custom data or by its own flag. *)
Definition isSignatureAnnotation (annotation : Annotation.t) : Prop :=
  Annotation.kind annotation = InkAnnotation \/
  Annotation.kind annotation = ImageAnnotation \/
  opt (Annotation.customData annotation) CustomData.isSignature = Some true \/
  Annotation.isSignature annotation = Some true.

(** ** A host in memory, to run the coordinator on examples

    The page's annotations and the document's form fields are two lists.
    Deleting a widget also removes the form field it names when [cascade]
    is set; deleting a form field that is not there is rejected with a
    not-found error; deleting one that is there is rejected with [refusal]
    when there is one. *)

Module MemoryHost.

Record t := mk {
  annotations : list Annotation.t;
  formFields : list FormField.t;
  cascade : bool;
  refusal : option Thrown
}.

Definition named (name : option string) (ff : FormField.t) : bool :=
  Js.strictEq (FormField.name ff) name.

Definition notFound : Thrown :=
  OneError (ErrObject (JsString "There is no form field with the provided name")).

Definition getAnnotations (pageIndex : Z) (h : t)
  : Result (list Annotation.t) * t :=
  (Returned
     (List.filter (fun a => Z.eqb (Annotation.pageIndex a) pageIndex)
        (annotations h)),
   h).

Definition getFormFields (h : t) : Result (list FormField.t) * t :=
  (Returned (formFields h), h).

Definition delete (entity : Entity) (h : t) : Result unit * t :=
  match entity with
  | AnnotationEntity a =>
      (Returned tt,
       mk (List.filter
             (fun b => negb (String.eqb (Annotation.id b) (Annotation.id a)))
             (annotations h))
          (if cascade h
           then List.filter
                  (fun ff => negb (named (Annotation.formFieldName a) ff))
                  (formFields h)
           else formFields h)
          (cascade h) (refusal h))
  | FormFieldEntity f =>
      if List.existsb (named (FormField.name f)) (formFields h) then
        match refusal h with
        | Some e => (Thrown_ e, h)
        | None =>
            (Returned tt,
             mk (annotations h)
                (List.filter
                   (fun ff => negb (named (FormField.name f) ff))
                   (formFields h))
                (cascade h) (refusal h))
        end
      else (Thrown_ notFound, h)
  end.

(** Nothing else touches the document while the coordinator waits. *)
Definition elapse (ms : Z) (h : t) : t := h.

Definition instance : Instance.t t :=
  Instance.mk getAnnotations getFormFields delete elapse.

End MemoryHost.

(** *** A page with two signature widgets, and the signatures of the
    scenarios *)

Definition box (l t w h : Q) : BoundingBox := mkBoundingBox l t w h.

(** The widget named ["Sig1"], away from the signature. *)
Definition widgetSig1 : Annotation.t :=
  Annotation.mk WidgetAnnotation "WidgetAnnotation" "w1" 0
    (box 400 600 150 50) None None (Some "Sig1").

(** A widget under the signature, whose form field is named
    ["SIGNATURE_2"]. *)
Definition widgetSig2 : Annotation.t :=
  Annotation.mk WidgetAnnotation "WidgetAnnotation" "w2" 0
    (box 120 110 150 50) None None (Some "SIGNATURE_2").

Definition fieldSig1 : FormField.t :=
  FormField.mk (Some "SignatureFormField") (Some "Sig1").
Definition fieldSig2 : FormField.t :=
  FormField.mk (Some "SignatureFormField") (Some "SIGNATURE_2").

(** The signature of scenario D: an ink annotation that carries the form
    field name ["Sig1"]. *)
Definition inkSig1 : Annotation.t :=
  Annotation.mk InkAnnotation "InkAnnotation" "ink1" 0
    (box 100 100 150 50) None None (Some "Sig1").

(** The signature of scenario E: an image annotation without a form field
    name. *)
Definition imageNoName : Annotation.t :=
  Annotation.mk ImageAnnotation "ImageAnnotation" "img1" 0
    (box 100 100 150 50) None None None.

(** The signature of scenarios A and B. *)
Definition inkPlain : Annotation.t :=
  Annotation.mk InkAnnotation "InkAnnotation" "ink0" 0
    (box 100 100 150 50) None None None.
Definition inkBob : Annotation.t :=
  Annotation.mk InkAnnotation "InkAnnotation" "ink0" 0
    (box 100 100 150 50) (Some (CustomData.mk None (Some "Bob"))) None None.

Definition optionsAlice : Options.t := Options.mk (Some "Alice") None.

Definition page (cascade : bool) (refusal : option Thrown) : MemoryHost.t :=
  MemoryHost.mk [widgetSig2; widgetSig1; inkSig1] [fieldSig1; fieldSig2]
    cascade refusal.

Definition startIn (h : MemoryHost.t) : World.t MemoryHost.t := World.mk h [].

Definition permissionDenied : Thrown :=
  OneError (ErrObject (JsString "Permission denied")).

(** A thrown object whose [message] is the number 42. *)
Definition numberMessage : Thrown := OneError (ErrObject (JsNumber 42)).


(** The clock of the examples. *)
Definition fixedClock (_ : DateTimeFormat.t) : string :=
  "11/02/2026, 09:30:00 AM".

(** *** Overrides a caller may pass *)

(** [{ config: { curve: { topLengthRatio: -1 } } }]. *)
Definition negativeRatioOptions : Options.t :=
  Options.mk None
    (Some (Config.mk option option
             (Some (Curve.mk option None None (Some (-1)) None None None))
             None None None None None)).

(** [{ config: { signatureIdentifiers: { typeCode: "Sig" } } }]. *)
Definition partialIdentifiersOptions : Options.t :=
  Options.mk None
    (Some (Config.mk option option None None None
             (Some (SignatureIdentifiers.mk option (Some "Sig") None))
             None None)).

(** [{ config: { dateTimeFormat: { year: "2-digit" } } }]. *)
Definition partialDateOptions : Options.t :=
  Options.mk None
    (Some (Config.mk option option None None None None None
             (Some (DateTimeFormat.mk (Some "2-digit")
                      None None None None None None)))).

(** ** Vocabulary of the further statements about the decorator *)

(** The box [a] lies inside the box [b]. *)
Definition inside (a b : BoundingBox) : Prop :=
  left b <= left a /\ left a + width a <= left b + width b /\
  top b <= top a /\ top a + height a <= top b + height b.

(** The three tests a widget passes to be taken by the loop of strategy 2
    (lines 402-407). *)
Definition passesStrategy2 (signatureBBox : BoundingBox)
                           (formFields : list FormField.t)
                           (config : MergedConfig)
                           (widget : Annotation.t) : bool :=
  checkBoundingBoxOverlap signatureBBox (Annotation.boundingBox widget) &&
  Js.truthy (Annotation.formFieldName widget) &&
  isSignatureField
    (Js.find
       (fun f => Js.strictEq (FormField.name f) (Annotation.formFieldName widget))
       formFields)
    config.

(** The entry of line 424. *)
Definition widgetNotFoundEntry : ConsoleEntry :=
  console_warn ["Could not find widget annotation to delete"].

(** The entry of line 431. *)
Definition fieldDeletedEntry : ConsoleEntry :=
  console_log ["✓ Deleted form field"].

(** The points an SVG path names: the end point of each command and the
    control points of a curve. *)
Definition commandPoints (c : PathCommand) : list (Q * Q) :=
  match c with
  | MoveTo x y => [(x, y)]
  | LineTo x y => [(x, y)]
  | CurveTo x1 y1 x2 y2 x y => [(x1, y1); (x2, y2); (x, y)]
  end.
Definition pathPoints (p : Path.t) : list (Q * Q) :=
  List.flat_map commandPoints (Path.d p).

(** A complete configuration written as an override: every subtree and
    every leaf given. *)
Definition asOverride (c : CompleteConfig) : ConfigOverride :=
  Config.mk option option
    (Some (curveProps (Config.curve c)))
    (Some (textProps (Config.text c)))
    (Some (positionProps (Config.position c)))
    (Some (signatureIdentifiersProps (Config.signatureIdentifiers c)))
    (Some (defaultsProps (Config.defaults c)))
    (Some (Config.dateTimeFormat c)).

(** [p] holds of the subtree when the override gives one. *)
Definition whenGiven {A} (p : A -> bool) (o : option A) : bool :=
  match o with
  | Some a => p a
  | None => true
  end.

(** Each of the five subtrees the override gives has all its leaves. *)
Definition givenSubtreesComplete (o : ConfigOverride) : bool :=
  whenGiven curveDefined (Config.curve o) &&
  whenGiven textDefined (Config.text o) &&
  whenGiven positionDefined (Config.position o) &&
  whenGiven signatureIdentifiersDefined (Config.signatureIdentifiers o) &&
  whenGiven defaultsDefined (Config.defaults o).

(** An entry of line 366, whatever the annotation. *)
Definition isDetectedEntry (e : ConsoleEntry) : bool :=
  match e with
  | console_log (first :: _) => String.eqb first "Signature detected:"
  | _ => false
  end.

(** The handler takes the annotation (line 469). *)
Definition isInkOrImage (annotation : Annotation.t) : bool :=
  isKind InkAnnotation annotation || isKind ImageAnnotation annotation.

(** A computation that only appends to the console, and none of the
    entries of line 366. *)
Definition quiet {H A} (m : M H A) : Prop :=
  forall w : World.t H,
  exists l : list ConsoleEntry,
    World.console (snd (m w)) = (World.console w ++ l)%list /\
    List.filter isDetectedEntry l = [].

(** A host as [MemoryHost], except that it rejects every fetch of the
    annotations of a page with [e]. *)
Definition rejectingAnnotations (e : Thrown) : Instance.t MemoryHost.t :=
  Instance.mk (fun _ h => (Thrown_ e, h)) MemoryHost.getFormFields
    MemoryHost.delete MemoryHost.elapse.

(** *** Pages for the runs without a target *)

(** A page whose only widget is away from the signature. *)
Definition pageFarWidget : MemoryHost.t :=
  MemoryHost.mk [widgetSig1] [fieldSig1] false None.

(** A page without widgets that still has the form field ["Sig1"]. *)
Definition pageOrphanField : MemoryHost.t :=
  MemoryHost.mk [inkSig1] [fieldSig1] false None.

(** The nodes of an overlay, when it is made as the renderer makes it. *)
Definition overlayParts (overlay : Overlay.t)
  : option (Svg.t * Label.t * Label.t) :=
  match Wrapper.children (Overlay.node overlay) with
  | [SvgNode svg; LabelNode topLabel; LabelNode bottomLabel] =>
      Some (svg, topLabel, bottomLabel)
  | _ => None
  end.

(** The point lies in the viewport of the SVG element. *)
Definition inViewport (svg : Svg.t) (p : Q * Q) : Prop :=
  0 <= fst p /\ fst p <= Svg.width svg /\
  0 <= snd p /\ snd p <= Svg.height svg.

(** * The viewer component ([PdfViewerComponent]): importing documents

    The part of the component that is its own logic: which files are
    converted, the toolbar with the import button, the state of that
    button, and the import itself with its loading overlay.  The SDK calls
    it awaits are a record of operations that return or reject; the
    toolbar items, the loading overlay, the children of [document.body],
    the alerts and the pending timers are the state of the page. *)

(** ** More JavaScript primitives *)

Module JsText.

(** [s.split(".")], for a separator of one character: never empty. *)
Fixpoint split (sep : ascii) (s : string) : list string :=
  match s with
  | EmptyString => [""]
  | String c rest =>
      let parts := split sep rest in
      if Ascii.eqb c sep then "" :: parts
      else
        match parts with
        | first :: others => String c first :: others
        | [] => [String c ""]
        end
  end.

(** [arr.pop()]: the last element, [undefined] on an empty array. *)
Fixpoint pop (arr : list string) : option string :=
  match arr with
  | [] => None
  | [x] => Some x
  | _ :: rest => pop rest
  end.

(** [c] in lower case: the letters [A] to [Z] move to [a] to [z]. *)
Definition lowerChar (c : ascii) : ascii :=
  let n := nat_of_ascii c in
  if (65 <=? n)%nat && (n <=? 90)%nat then ascii_of_nat (n + 32) else c.

(** [s.toLowerCase()] on the letters of ASCII; the other bytes stay.  The
    component only asks whether the result is one of six words of ASCII
    letters without a [k]; for that question this is [toLowerCase]: a
    character outside ASCII has a lower case outside ASCII, the Kelvin
    sign apart, whose lower case is [k]. *)
Fixpoint toLowerCase (s : string) : string :=
  match s with
  | EmptyString => EmptyString
  | String c rest => String (lowerChar c) (toLowerCase rest)
  end.

(** [arr.includes(x)] on strings. *)
Definition arrayIncludes (arr : list string) (x : string) : bool :=
  List.existsb (String.eqb x) arr.

End JsText.

(** ** Constants of the component (lines 20-24) *)

Definition LOGGED_IN_USER : string := "Nutrient".
Definition IMPORT_BUTTON_ID : string := "custom-import-documents".
Definition SUPPORTED_FILE_TYPES : string :=
  ".pdf,.docx,.tiff,.tif,.png,.jpg,.jpeg".
Definition CONVERTIBLE_EXTENSIONS : list string :=
  ["docx"; "tiff"; "tif"; "png"; "jpg"; "jpeg"].
Definition BUTTON_RE_ENABLE_DELAY : Z := 200.

(** [requiresConversion] (lines 105-108); [None] is the [TypeError] of
    calling [toLowerCase] on [undefined]. *)
Definition requiresConversion (filename : string) : option bool :=
  match JsText.pop (JsText.split "." filename) with
  | Some last =>
      let extension := JsText.toLowerCase last in
      Some (JsText.arrayIncludes CONVERTIBLE_EXTENSIONS extension)
  | None => None
  end.

(** The string has no dot. *)
Fixpoint dotFree (s : string) : bool :=
  match s with
  | EmptyString => true
  | String c rest => negb (Ascii.eqb c ".") && dotFree rest
  end.

(** ** The toolbar *)

(** What pressing a custom item does. *)
Inductive PressAction :=
| OpenFilePicker.   (* () => createFileInput().click() *)

Module ToolbarItem.
Record t := mk {
  type : string;
  id : option string;
  title : option string;
  icon : option string;
  disabled : option bool;
  onPress : option PressAction
}.
End ToolbarItem.

(** The button of lines 188-194. *)
Definition customImportButton : ToolbarItem.t :=
  ToolbarItem.mk "custom" (Some IMPORT_BUTTON_ID) (Some "Import Documents")
    (Some "<svg xmlns='http://www.w3.org/2000/svg' width='20' height='20' fill='currentColor' viewBox='0 0 20 20' style='color:%20var(--bui-color-icon-primary);'><path fill-rule='evenodd' d='M10%2020c5.523%200%2010-4.477%2010-10S15.523%200%2010%200%200%204.477%200%2010s4.477%2010%2010%2010m0-15.56L5.97%208.47a.75.75%200%201%200%201.06%201.06l2.22-2.22v7.19a.75.75%200%200%200%201.5%200V7.31l2.22%202.22a.75.75%200%200%200%201.06-1.06z'%20clip-rule='evenodd'></path></svg>")
    None (Some OpenFilePicker).

(** [item.type !== "import-document"]. *)
Definition notImportDocument (item : ToolbarItem.t) : bool :=
  negb (String.eqb (ToolbarItem.type item) "import-document").

(** [createCustomDocumentEditorToolbarItems] (lines 182-202), on the
    default items of the SDK. *)
Definition createCustomDocumentEditorToolbarItems
    (defaultDocumentEditorToolbarItems : list ToolbarItem.t)
  : list ToolbarItem.t :=
  let filteredItems :=
    List.filter notImportDocument defaultDocumentEditorToolbarItems in
  let middleIndex := (List.length filteredItems / 2)%nat in
  (List.firstn middleIndex filteredItems
   ++ [customImportButton]
   ++ List.skipn middleIndex filteredItems)%list.

(** [item.id === IMPORT_BUTTON_ID]. *)
Definition isImportButton (item : ToolbarItem.t) : bool :=
  Js.strictEq (ToolbarItem.id item) (Some IMPORT_BUTTON_ID).

(** The function [updateImportButtonState] (lines 90-98) hands to
    [setDocumentEditorToolbarItems]. *)
Definition updateImportButtonItems (isDisabled : bool) (title : string)
                                   (items : list ToolbarItem.t)
  : list ToolbarItem.t :=
  List.map
    (fun item =>
       if isImportButton item
       then ToolbarItem.mk (ToolbarItem.type item) (ToolbarItem.id item)
              (Some title) (ToolbarItem.icon item) (Some isDisabled)
              (ToolbarItem.onPress item)
       else item)
    items.

(** ** The page and the SDK *)

Module File.
Record t := mk {
  name : string;
  type : string;
  content : string     (* the bytes *)
}.
End File.

Module DomNode.
Record t := mk {
  id : nat;            (* which node it is *)
  display : string
}.
End DomNode.

Module LoadingOverlay.
Record t := mk {
  display : string;
  message : string     (* the text of [.loading-message] *)
}.
End LoadingOverlay.

Inductive TimerCallback :=
| ReEnableImportButton.   (* () => updateImportButtonState(false, "Import Documents") *)

Module Timer.
Record t := mk {
  delay : Z;
  callback : TimerCallback
}.
End Timer.

Module Ui.
Record t := mk {
  toolbarItems : list ToolbarItem.t;
  overlay : option LoadingOverlay.t;     (* loadingOverlayRef.current *)
  body : list DomNode.t;                 (* children of document.body *)
  created : nat;                         (* nodes created so far *)
  alerts : list string;
  timers : list Timer.t;
  interactionMode : option string
}.
End Ui.

Module LoadConfiguration.
(** The argument of [NutrientViewer.load] in [convertToPDF]. *)
Record t := mk {
  headless : bool;
  container : DomNode.t;
  document : string;
  licenseKey : option string
}.
End LoadConfiguration.

Module ImportOperation.
Record t := mk {
  type : string;
  afterPageIndex : Z;
  treatImportedDocumentAsOnePage : bool;
  document : File.t
}.
End ImportOperation.

Module Sdk.
(** The calls the import awaits, over a state [S] of the SDK and of the
    document; [Headless] is a headless instance. *)
Record t (S Headless : Type) := mk {
  arrayBuffer : File.t -> S -> Result string * S;
  load : LoadConfiguration.t -> S -> Result Headless * S;
  exportPDF : Headless -> S -> Result string * S;
  unload : DomNode.t -> S -> Result unit * S;
  applyOperations : list ImportOperation.t -> S -> Result unit * S;
  totalPageCount : S -> Z
}.
End Sdk.

Module Page.
Record t (S : Type) := mk {
  sdk : S;
  ui : Ui.t
}.
End Page.

(** A computation on the page: returns or throws. *)
Definition Task (S A : Type) : Type := Page.t S -> Result A * Page.t S.

Definition taskRet {S A} (a : A) : Task S A := fun p => (Returned a, p).

Definition taskBind {S A B} (m : Task S A) (k : A -> Task S B) : Task S B :=
  fun p =>
    match m p with
    | (Returned a, p') => k a p'
    | (Thrown_ e, p') => (Thrown_ e, p')
    end.

Definition taskThrow {S A} (e : Thrown) : Task S A := fun p => (Thrown_ e, p).

(** [try { m } catch { handler }]: the error is not looked at. *)
Definition taskCatch {S A} (m : Task S A) (handler : Task S A) : Task S A :=
  fun p =>
    match m p with
    | (Returned a, p') => (Returned a, p')
    | (Thrown_ _, p') => handler p'
    end.

(** [try { m } finally { cleanup }]: [cleanup] runs either way; if it
    throws, that is the outcome, otherwise the outcome of [m] is. *)
Definition taskFinally {S A} (m : Task S A) (cleanup : Task S unit)
  : Task S A :=
  fun p =>
    let (r, p') := m p in
    match cleanup p' with
    | (Returned _, p'') => (r, p'')
    | (Thrown_ e, p'') => (Thrown_ e, p'')
    end.

(** [await call] on the SDK. *)
Definition taskAwait {S A} (call : S -> Result A * S) : Task S A :=
  fun p =>
    let (r, s) := call (Page.sdk p) in
    (r, Page.mk s (Page.ui p)).

(** A change of the page's own state. *)
Definition onUi {S} (f : Ui.t -> Ui.t) : Task S unit :=
  fun p => (Returned tt, Page.mk (Page.sdk p) (f (Page.ui p))).

Declare Scope task_scope.
Delimit Scope task_scope with task.
Notation "x <- m ;; k" := (taskBind m (fun x => k))
  (at level 61, m at next level, right associativity) : task_scope.
Notation "m ;; k" := (taskBind m (fun _ => k))
  (at level 61, right associativity) : task_scope.

(** The [TypeError] of a call on [undefined], and the [NotFoundError] of
    [removeChild] on a node that is not a child. *)
Definition typeError : Thrown :=
  OneError (ErrObject (JsString "Cannot read properties of undefined")).
Definition notAChild : Thrown :=
  OneError
    (ErrObject (JsString "The node to be removed is not a child of this node")).

(** [toggleLoadingOverlay] (lines 41-50), on the page's state. *)
Definition toggleLoadingOverlay (show : bool) (message : option string)
                                (ui : Ui.t) : Ui.t :=
  let message := fill "Loading..." message in
  match Ui.overlay ui with
  | Some overlay =>
      Ui.mk (Ui.toolbarItems ui)
        (Some (if show
               then LoadingOverlay.mk "flex" message
               else LoadingOverlay.mk "none" (LoadingOverlay.message overlay)))
        (Ui.body ui) (Ui.created ui) (Ui.alerts ui) (Ui.timers ui)
        (Ui.interactionMode ui)
  | None => ui
  end.

(** [updateImportButtonState] (lines 90-98), on the page's state. *)
Definition updateImportButtonState (isDisabled : bool) (title : string)
                                   (ui : Ui.t) : Ui.t :=
  Ui.mk (updateImportButtonItems isDisabled title (Ui.toolbarItems ui))
    (Ui.overlay ui) (Ui.body ui) (Ui.created ui) (Ui.alerts ui)
    (Ui.timers ui) (Ui.interactionMode ui).

(** [document.createElement("div")] with [style.display = "none"], then
    [document.body.appendChild]. *)
Definition appendHiddenDiv (ui : Ui.t) : DomNode.t * Ui.t :=
  let node := DomNode.mk (Ui.created ui) "none" in
  (node,
   Ui.mk (Ui.toolbarItems ui) (Ui.overlay ui) (Ui.body ui ++ [node])
     (S (Ui.created ui)) (Ui.alerts ui) (Ui.timers ui)
     (Ui.interactionMode ui)).

Definition sameNode (a b : DomNode.t) : bool :=
  Nat.eqb (DomNode.id a) (DomNode.id b).

(** [window.alert(message)]. *)
Definition alert (message : string) (ui : Ui.t) : Ui.t :=
  Ui.mk (Ui.toolbarItems ui) (Ui.overlay ui) (Ui.body ui) (Ui.created ui)
    (Ui.alerts ui ++ [message]) (Ui.timers ui) (Ui.interactionMode ui).

(** [setTimeout(callback, delay)]. *)
Definition setTimeout (callback : TimerCallback) (delay : Z) (ui : Ui.t) : Ui.t :=
  Ui.mk (Ui.toolbarItems ui) (Ui.overlay ui) (Ui.body ui) (Ui.created ui)
    (Ui.alerts ui) (Ui.timers ui ++ [Timer.mk delay callback])
    (Ui.interactionMode ui).

(** [instance.setViewState(viewState => viewState.set("interactionMode",
    NutrientViewer.InteractionMode.DOCUMENT_EDITOR))]. *)
Definition enterDocumentEditor (ui : Ui.t) : Ui.t :=
  Ui.mk (Ui.toolbarItems ui) (Ui.overlay ui) (Ui.body ui) (Ui.created ui)
    (Ui.alerts ui) (Ui.timers ui) (Some "DOCUMENT_EDITOR").

(** What a timer does when it fires. *)
Definition runCallback (callback : TimerCallback) (ui : Ui.t) : Ui.t :=
  match callback with
  | ReEnableImportButton => updateImportButtonState false "Import Documents" ui
  end.

#[local] Close Scope js_scope.
#[local] Open Scope task_scope.

Section DocumentImport.

Variable S : Type.
Variable Headless : Type.
Variable NutrientViewer : Sdk.t S Headless.
(** [import.meta.env.VITE_lkey]. *)
Variable VITE_lkey : option string.

(** [document.body.removeChild(node)]. *)
Definition removeChild (node : DomNode.t) : Task S unit :=
  fun p =>
    let ui := Page.ui p in
    if List.existsb (sameNode node) (Ui.body ui) then
      (Returned tt,
       Page.mk (Page.sdk p)
         (Ui.mk (Ui.toolbarItems ui) (Ui.overlay ui)
            (List.filter (fun n => negb (sameNode node n)) (Ui.body ui))
            (Ui.created ui) (Ui.alerts ui) (Ui.timers ui)
            (Ui.interactionMode ui)))
    else (Thrown_ notAChild, p).

(** [convertToPDF] (lines 57-83). *)
Definition convertToPDF (file : File.t) : Task S File.t :=
  arrayBuffer <- taskAwait (Sdk.arrayBuffer NutrientViewer file) ;;
  fun p =>
    let (tempContainer, ui) := appendHiddenDiv (Page.ui p) in
    taskFinally
      (headlessInstance <-
         taskAwait
           (Sdk.load NutrientViewer
              (LoadConfiguration.mk true tempContainer arrayBuffer VITE_lkey)) ;;
       pdfArrayBuffer <-
         taskAwait (Sdk.exportPDF NutrientViewer headlessInstance) ;;
       taskAwait (Sdk.unload NutrientViewer tempContainer) ;;
       taskRet
         (File.mk ("converted-" ++ File.name file ++ ".pdf")
            "application/pdf" pdfArrayBuffer))
      (removeChild tempContainer)
      (Page.mk (Page.sdk p) ui).

(** The operation of lines 132-137. *)
Definition importAfterLastPage (totalPages : Z) (documentToImport : File.t)
  : ImportOperation.t :=
  ImportOperation.mk "importDocument" (totalPages - 1) false documentToImport.

(** The end of the [try] body of [handleDocumentImport] (lines 129-150):
    the import itself and what follows it. *)
Definition importDocument (documentToImport : File.t) : Task S unit :=
  fun p =>
    let totalPages := Sdk.totalPageCount NutrientViewer (Page.sdk p) in
    (taskAwait
       (Sdk.applyOperations NutrientViewer
          [importAfterLastPage totalPages documentToImport]) ;;
     onUi enterDocumentEditor ;;
     onUi (toggleLoadingOverlay false None) ;;
     onUi (setTimeout ReEnableImportButton BUTTON_RE_ENABLE_DELAY)) p.

(** The [try] body of [handleDocumentImport] (lines 115-151). *)
Definition importBody (file : File.t) : Task S unit :=
  onUi (updateImportButtonState true "Converting & Importing...") ;;
  conversionNeeded <-
    match requiresConversion (File.name file) with
    | Some b => taskRet b
    | None => taskThrow typeError
    end ;;
  onUi (toggleLoadingOverlay true
          (Some (if conversionNeeded : bool
                 then "Converting document to PDF..."
                 else "Importing document..."))) ;;
  documentToImport <-
    (if conversionNeeded : bool then convertToPDF file else taskRet file) ;;
  importDocument documentToImport.

(** The [catch] of [handleDocumentImport] (lines 152-156). *)
Definition importFailed : Task S unit :=
  onUi (toggleLoadingOverlay false None) ;;
  onUi (alert "Failed to import document. Please try again.") ;;
  onUi (updateImportButtonState false "Import Documents").

(** [handleDocumentImport] (lines 114-157). *)
Definition handleDocumentImport (file : File.t) : Task S unit :=
  taskCatch (importBody file) importFailed.

(** The [onchange] handler of the file input (lines 168-173), on the files
    the user picked. *)
Definition onchange (files : list File.t) : Task S unit :=
  match files with
  | file :: _ => handleDocumentImport file
  | [] => taskRet tt
  end.

End DocumentImport.

#[local] Close Scope task_scope.
#[local] Open Scope js_scope.

(** ** Vocabulary of the statements about the import *)

(** Every child of the body was created before: a node made next is none
    of them. *)
Definition bodyKnown (ui : Ui.t) : Prop :=
  Forall (fun n => (DomNode.id n < Ui.created ui)%nat) (Ui.body ui).

(** The page's state with another count of created nodes. *)
Definition withCreated (c : nat) (ui : Ui.t) : Ui.t :=
  Ui.mk (Ui.toolbarItems ui) (Ui.overlay ui) (Ui.body ui) c (Ui.alerts ui)
    (Ui.timers ui) (Ui.interactionMode ui).

(** The loading overlay, if the page has one, is hidden. *)
Definition overlayHidden (ui : Ui.t) : Prop :=
  match Ui.overlay ui with
  | Some overlay => LoadingOverlay.display overlay = "none"
  | None => True
  end.

(** The state an import that went through leaves, from [before]. *)
Definition importedFrom (before after : Ui.t) : Prop :=
  Ui.toolbarItems after =
    updateImportButtonItems true "Converting & Importing..."
      (Ui.toolbarItems before) /\
  Ui.timers after =
    (Ui.timers before ++ [Timer.mk 200 ReEnableImportButton])%list /\
  Ui.alerts after = Ui.alerts before /\
  Ui.interactionMode after = Some "DOCUMENT_EDITOR".

(** The state a failed import leaves, from [before]. *)
Definition importFailedFrom (before after : Ui.t) : Prop :=
  Ui.toolbarItems after =
    updateImportButtonItems false "Import Documents" (Ui.toolbarItems before) /\
  Ui.timers after = Ui.timers before /\
  Ui.alerts after =
    (Ui.alerts before ++ ["Failed to import document. Please try again."])%list /\
  Ui.interactionMode after = Ui.interactionMode before.

(** The import button as [updateImportButtonState] leaves it. *)
Definition importButtonIn (isDisabled : bool) (title : string) : ToolbarItem.t :=
  ToolbarItem.mk "custom" (Some IMPORT_BUTTON_ID) (Some title)
    (ToolbarItem.icon customImportButton) (Some isDisabled)
    (Some OpenFilePicker).

(** *** A page and an SDK for the examples *)

Definition cropItem : ToolbarItem.t :=
  ToolbarItem.mk "crop" None None None None None.
Definition importDocumentItem : ToolbarItem.t :=
  ToolbarItem.mk "import-document" None None None None None.
Definition rotateItem : ToolbarItem.t :=
  ToolbarItem.mk "rotate-left" None None None None None.
Definition removeItem : ToolbarItem.t :=
  ToolbarItem.mk "remove" None None None None None.

Definition defaultItemsExample : list ToolbarItem.t :=
  [cropItem; importDocumentItem; rotateItem; removeItem].

(** The page as the component renders it: the toolbar built from the
    default items, the overlay hidden, nothing else. *)
Definition freshUi : Ui.t :=
  Ui.mk (createCustomDocumentEditorToolbarItems defaultItemsExample)
    (Some (LoadingOverlay.mk "none" "Loading..."))
    [DomNode.mk 0 "block"] 1 [] [] None.

(** An SDK over a page count: every call returns, but the export of a
    document whose bytes are empty is rejected; an import adds one page. *)
Definition countingSdk : Sdk.t Z string :=
  Sdk.mk
    (fun file s => (Returned (File.content file), s))
    (fun configuration s =>
       (Returned (LoadConfiguration.document configuration), s))
    (fun headless s =>
       match headless with
       | EmptyString => (Thrown_ permissionDenied, s)
       | _ => (Returned ("%PDF" ++ headless), s)
       end)
    (fun _ s => (Returned tt, s))
    (fun _ s => (Returned tt, (s + 1)%Z))
    (fun s => s).

Definition scanTiff : File.t := File.mk "scan.TIFF" "image/tiff" "II*".
Definition emptyPng : File.t := File.mk "empty.png" "image/png" "".

(** The page's state when the [catch] of [handleDocumentImport] is
    over. *)
Definition afterFailure (ui : Ui.t) : Ui.t :=
  updateImportButtonState false "Import Documents"
    (alert "Failed to import document. Please try again."
       (toggleLoadingOverlay false None ui)).

(** The page's state when the last line of the [try] is over. *)
Definition afterSuccess (ui : Ui.t) : Ui.t :=
  setTimeout ReEnableImportButton BUTTON_RE_ENABLE_DELAY
    (toggleLoadingOverlay false None (enterDocumentEditor ui)).

(** The page's state when the import starts waiting. *)
Definition whileImporting (conversionNeeded : bool) (ui : Ui.t) : Ui.t :=
  toggleLoadingOverlay true
    (Some (if conversionNeeded
           then "Converting document to PDF..."
           else "Importing document..."))
    (updateImportButtonState true "Converting & Importing..." ui).


(** * Properties *)

Lemma lt_spec (a b : Q) : Js.lt a b = true <-> a < b.
Proof. unfold Js.lt, Qlt. apply Z.ltb_lt. Qed.

Lemma lt_false (a b : Q) : Js.lt a b = false <-> b <= a.
Proof.
  unfold Js.lt, Qle. rewrite Z.ltb_ge. reflexivity.
Qed.

Lemma intersects_iff_common_point (i j : Interval) :
  lo i <= hi i -> lo j <= hi j ->
  (intersects i j <-> exists x, inInterval x i /\ inInterval x j).
Proof.
  unfold intersects, inInterval. intros Hi Hj. split.
  - intros [H1 H2]. destruct (Qlt_le_dec (lo i) (lo j)) as [L | L].
    + exists (lo j). repeat split; try lra.
    + exists (lo i). repeat split; try lra.
  - intros [x [[A B] [C D]]]. split; lra.
Qed.

Lemma overlap_true_iff (a b : BoundingBox) :
  checkBoundingBoxOverlap a b = true <->
  intersects (projX a) (projX b) /\ intersects (projY a) (projY b).
Proof.
  unfold checkBoundingBoxOverlap, intersects, projX, projY, Js.gt; simpl.
  rewrite negb_true_iff, !orb_false_iff, !lt_false. tauto.
Qed.

(** C2: two boxes are reported overlapping exactly when their projections
    intersect on the horizontal and on the vertical axis; the convention is
    inclusive, so two boxes that share only an edge (the right edge of one
    is the left edge of the other, or the bottom edge of one is the top edge
    of the other, extents being non-negative) are reported overlapping as
    soon as their projections on the other axis intersect. *)
Theorem checkBoundingBoxOverlap_spec :
  (forall a b : BoundingBox,
      checkBoundingBoxOverlap a b = true <->
      intersects (projX a) (projX b) /\ intersects (projY a) (projY b)) /\
  (forall a b : BoundingBox,
      0 <= width a -> 0 <= width b -> 0 <= height a -> 0 <= height b ->
      (checkBoundingBoxOverlap a b = true <->
       (exists x, inInterval x (projX a) /\ inInterval x (projX b)) /\
       (exists y, inInterval y (projY a) /\ inInterval y (projY b)))) /\
  (forall a b : BoundingBox,
      0 <= width a -> 0 <= width b ->
      touchRightEdge a b -> intersects (projY a) (projY b) ->
      checkBoundingBoxOverlap a b = true) /\
  (forall a b : BoundingBox,
      0 <= height a -> 0 <= height b ->
      touchBottomEdge a b -> intersects (projX a) (projX b) ->
      checkBoundingBoxOverlap a b = true).
Proof.
  split; [exact overlap_true_iff | split; [| split]].
  - intros a b Wa Wb Ha Hb. rewrite overlap_true_iff.
    rewrite (@intersects_iff_common_point (projX a) (projX b)),
            (@intersects_iff_common_point (projY a) (projY b));
      simpl; try lra. reflexivity.
  - intros a b Wa Wb T Y. apply overlap_true_iff. split; [| exact Y].
    unfold touchRightEdge in T. unfold intersects; simpl. lra.
  - intros a b Ha Hb T X. apply overlap_true_iff. split; [exact X |].
    unfold touchBottomEdge in T. unfold intersects; simpl. lra.
Qed.

(** Two boxes that share one edge: the right edge of the first, at 10, is
    the left edge of the second. *)
Lemma checkBoundingBoxOverlap_touching_edge :
  checkBoundingBoxOverlap (mkBoundingBox 0 0 10 10) (mkBoundingBox 10 0 5 5)
  = true.
Proof.
  destruct checkBoundingBoxOverlap_spec as [_ [_ [T _]]].
  apply T; unfold touchRightEdge, intersects; simpl;
    try (split; discriminate); try discriminate; reflexivity.
Defined.

Example disjoint_boxes_do_not_overlap :
  checkBoundingBoxOverlap (mkBoundingBox 0 0 10 10) (mkBoundingBox 11 0 5 5)
  = false.
Proof. reflexivity. Qed.

(** C9: the overlap test does not depend on the order of its arguments. *)
Theorem checkBoundingBoxOverlap_sym (a b : BoundingBox) :
  checkBoundingBoxOverlap a b = checkBoundingBoxOverlap b a.
Proof.
  unfold checkBoundingBoxOverlap, Js.gt. f_equal.
  destruct (Js.lt (left b + width b) (left a)),
           (Js.lt (left a + width a) (left b)),
           (Js.lt (top b + height b) (top a)),
           (Js.lt (top a + height a) (top b)); reflexivity.
Qed.

(** ** Strings *)

Lemma append_assoc (a b c : string) : (a ++ b) ++ c = a ++ (b ++ c).
Proof. induction a as [| x a IH]; simpl; [reflexivity | now rewrite IH]. Qed.

Lemma startsWith_spec (pat s : string) :
  Js.startsWith s pat = true <-> exists post, s = pat ++ post.
Proof.
  revert s. induction pat as [| c pat IH]; intros s.
  - split; [intros _; exists s; reflexivity | intros _; destruct s; reflexivity].
  - destruct s as [| d s]; cbn [Js.startsWith].
    + split; [discriminate | intros [post E]; discriminate].
    + rewrite andb_true_iff, Ascii.eqb_eq, IH. split.
      * intros [-> [post ->]]. exists post. reflexivity.
      * intros [post E]. injection E as -> ->. split; [reflexivity | eauto].
Qed.

Lemma includes_spec (s pat : string) :
  Js.includes s pat = true <-> contains s pat.
Proof.
  unfold contains. induction s as [| c s IH].
  - cbn [Js.includes]. rewrite orb_false_r, startsWith_spec. split.
    + intros [post E]. exists "", post. exact E.
    + intros [pre [post E]]. destruct pre; [eauto | discriminate].
  - cbn [Js.includes]. rewrite orb_true_iff, startsWith_spec, IH. split.
    + intros [[post E] | [pre [post E]]].
      * exists "", post. exact E.
      * exists (String c pre), post. simpl. now rewrite E.
    + intros [pre [post E]]. destruct pre as [| c' pre].
      * left. exists post. exact E.
      * right. simpl in E. injection E as _ E. eauto.
Qed.

Lemma includes_false (s pat : string) :
  Js.includes s pat = false <-> ~ contains s pat.
Proof.
  rewrite <- includes_spec. destruct (Js.includes s pat); split; congruence.
Qed.

(** ** Classifying form fields *)

Lemma strictEq_Some (a b : string) :
  Js.strictEq (Some a) (Some b) = true <-> a = b.
Proof. simpl. apply String.eqb_eq. Qed.

(** What [isSignatureField] computes, for any configuration. *)
Lemma isSignatureField_true_iff (ff : FormField.t) (config : MergedConfig) :
  isSignatureField (Some ff) config = true <->
  contains (Js.orEmpty (FormField.constructor_name ff)) "Signature" \/
  SignatureIdentifiers.typeCode (Config.signatureIdentifiers config)
    = Some (Js.orEmpty (FormField.constructor_name ff)) \/
  contains (Js.orEmpty (FormField.name ff))
    (Js.toString
       (SignatureIdentifiers.namePattern (Config.signatureIdentifiers config))).
Proof.
  unfold isSignatureField.
  rewrite !orb_true_iff, !includes_spec.
  destruct (SignatureIdentifiers.typeCode (Config.signatureIdentifiers config))
    as [code |]; simpl.
  - rewrite String.eqb_eq. split.
    + intros [[A | ->] | C]; auto.
    + intros [A | [B | C]]; auto. injection B as ->. auto.
  - split.
    + intros [[A | B] | C]; auto; discriminate.
    + intros [A | [B | C]]; auto; discriminate.
Qed.

(** C6 (amended): with a configured type code [code] and marker [pat], a
    form field is a signature field exactly when the name of its type
    contains ["Signature"], or is [code], or its name contains [pat]; a
    missing form field is not a signature field. *)
Theorem isSignatureField_spec
    (config : MergedConfig) (code pat : string)
    (Hcode : SignatureIdentifiers.typeCode (Config.signatureIdentifiers config)
             = Some code)
    (Hpat : SignatureIdentifiers.namePattern (Config.signatureIdentifiers config)
            = Some pat) :
  (forall ff : FormField.t,
      isSignatureField (Some ff) config = true <->
      contains (Js.orEmpty (FormField.constructor_name ff)) "Signature" \/
      Js.orEmpty (FormField.constructor_name ff) = code \/
      contains (Js.orEmpty (FormField.name ff)) pat) /\
  isSignatureField None config = false.
Proof.
  split; [| reflexivity].
  intros ff. rewrite isSignatureField_true_iff, Hcode, Hpat. simpl.
  split; intros [A | [B | C]]; auto.
  - injection B as ->. auto.
  - subst code. auto.
Qed.

Lemma isSignatureField_spec_default :
  (forall ff : FormField.t,
      isSignatureField (Some ff) (configProps DEFAULT_CONFIG) = true <->
      contains (Js.orEmpty (FormField.constructor_name ff)) "Signature" \/
      Js.orEmpty (FormField.constructor_name ff) = "S" \/
      contains (Js.orEmpty (FormField.name ff)) "SIGNATURE") /\
  isSignatureField None (configProps DEFAULT_CONFIG) = false.
Proof.
  apply (@isSignatureField_spec (configProps DEFAULT_CONFIG) "S" "SIGNATURE");
    reflexivity.
Defined.

(** C6 as stated fails: a field whose type is named ["SignatureFormField"]
    and whose name is ["Approval"] is classified as a signature field under
    the default configuration, although its type name is not the type code
    ["S"] and its name does not contain the marker ["SIGNATURE"]. *)
Lemma isSignatureField_type_name_counterexample :
  isSignatureField
    (Some (FormField.mk (Some "SignatureFormField") (Some "Approval")))
    (configProps DEFAULT_CONFIG) = true /\
  "SignatureFormField" <> "S" /\
  ~ contains "Approval" "SIGNATURE".
Proof.
  split; [reflexivity | split; [discriminate |]].
  apply includes_false. reflexivity.
Qed.

(** ** Classifying errors *)

Lemma notFoundText_subsumed (m : string) :
  contains m "There is no form field" -> contains m "no form field".
Proof.
  intros [pre [post E]]. exists (pre ++ "There is "), post.
  rewrite E, append_assoc. reflexivity.
Qed.

Lemma orElse_returned (a b : bool) :
  orElse (Returned a) (Returned b) = Returned (a || b).
Proof. destruct a; reflexivity. Qed.

Lemma someOrThrow_returned {A} (p : A -> Result bool) (q : A -> bool)
                           (arr : list A) :
  Forall (fun x => p x = Returned (q x)) arr ->
  someOrThrow p arr = Returned (List.existsb q arr).
Proof.
  induction 1 as [| x rest E _ IH]; [reflexivity |].
  cbn [someOrThrow List.existsb]. rewrite E.
  destruct (q x); [reflexivity | exact IH].
Qed.

(** The test of lines 121-125 on one element. *)
Lemma element_test_plain (err : ErrorValue) :
  plainMessage err = true ->
  orElse (valueIncludes (valueOrEmpty (message_of err)) "no form field")
         (valueIncludes (valueOrEmpty (message_of err))
            "There is no form field")
  = Returned
      match message_of err with
      | JsString m =>
          Js.includes m "no form field" ||
          Js.includes m "There is no form field"
      | _ => false
      end.
Proof.
  unfold plainMessage, valueOrEmpty.
  destruct (message_of err) as [| | b | n | m | items |]; cbn [truthyValue];
    intros P; try discriminate; try reflexivity.
  - destruct b; [discriminate | reflexivity].
  - destruct (Qeq_bool n 0); [reflexivity | discriminate].
  - destruct m as [| c m]; cbn [valueIncludes]; apply orElse_returned.
Qed.

Lemma element_test_throws (err : ErrorValue) (t : Thrown) :
  orElse (valueIncludes (valueOrEmpty (message_of err)) "no form field")
         (valueIncludes (valueOrEmpty (message_of err))
            "There is no form field")
  = Thrown_ t ->
  t = includesTypeError /\ plainMessage err = false.
Proof.
  destruct (plainMessage err) eqn:P.
  - rewrite (element_test_plain err P). discriminate.
  - unfold valueOrEmpty.
    destruct (message_of err) as [| | b | n | m | items |].
    + discriminate.
    + discriminate.
    + destruct b; cbn [truthyValue valueIncludes orElse]; [| discriminate].
      intros E. injection E as <-. auto.
    + cbn [truthyValue].
      destruct (negb (Qeq_bool n 0)); cbn [valueIncludes orElse];
        [| discriminate].
      intros E. injection E as <-. auto.
    + destruct m; cbn [truthyValue valueIncludes];
        rewrite orElse_returned; discriminate.
    + cbn [truthyValue valueIncludes]. rewrite orElse_returned. discriminate.
    + intros E. injection E as <-. auto.
Qed.

Lemma element_test_falsy (err : ErrorValue) :
  truthyValue (message_of err) = false ->
  orElse (valueIncludes (valueOrEmpty (message_of err)) "no form field")
         (valueIncludes (valueOrEmpty (message_of err))
            "There is no form field")
  = Returned false.
Proof. unfold valueOrEmpty. intros ->. reflexivity. Qed.

(** When the test throws, it throws the [TypeError] of line 123. *)
Lemma isFormFieldNotFoundError_throws (error t : Thrown) :
  isFormFieldNotFoundError error = Thrown_ t ->
  t = includesTypeError /\
  exists err, In err (elements error) /\ plainMessage err = false.
Proof.
  unfold isFormFieldNotFoundError. fold (elements error).
  induction (elements error) as [| err rest IH]; cbn [someOrThrow].
  - discriminate.
  - destruct (orElse _ _) as [[|] | t'] eqn:E.
    + discriminate.
    + intros R. destruct (IH R) as [T [err' [I P]]].
      split; [exact T |]. exists err'. split; [now right | exact P].
    + intros R. injection R as ->.
      destruct (element_test_throws err E) as [T P].
      split; [exact T |]. exists err. split; [now left | exact P].
Qed.

Lemma plainMessages_classified (error : Thrown) :
  Forall (fun err => plainMessage err = true) (elements error) ->
  isFormFieldNotFoundError error =
  Returned
    (List.existsb
       (fun err =>
          match message_of err with
          | JsString m =>
              Js.includes m "no form field" ||
              Js.includes m "There is no form field"
          | _ => false
          end)
       (elements error)).
Proof.
  intros P. unfold isFormFieldNotFoundError. fold (elements error).
  apply someOrThrow_returned.
  apply Forall_forall. intros err I.
  apply element_test_plain. revert err I. now apply Forall_forall.
Qed.

Lemma plainMessages_classifiable (error : Thrown) :
  Forall (fun err => plainMessage err = true) (elements error) ->
  classifiable error.
Proof.
  intros P. eexists. now apply plainMessages_classified.
Qed.

(** C10 (amended): for one error value as for an array of them whose
    messages are strings or are missing, the test returns, and answers
    [true] exactly when some element has a message that contains the
    not-found text; an element that is [null], [undefined] or has no
    message gives [false] alone and changes nothing in an array; the only
    exception the test throws is the [TypeError] of line 123, on an element
    whose message is neither. *)
Theorem isFormFieldNotFoundError_spec :
  (forall error : Thrown,
      Forall (fun err => plainMessage err = true) (elements error) ->
      exists isNotFound : bool,
        isFormFieldNotFoundError error = Returned isNotFound /\
        (isNotFound = true <->
         exists err m,
           In err (elements error) /\ message_of err = JsString m /\
           contains m "no form field")) /\
  isFormFieldNotFoundError (OneError ErrNull) = Returned false /\
  isFormFieldNotFoundError (OneError ErrUndefined) = Returned false /\
  isFormFieldNotFoundError (OneError (ErrObject JsUndefined))
  = Returned false /\
  (forall (err : ErrorValue) (before after : list ErrorValue),
      truthyValue (message_of err) = false ->
      isFormFieldNotFoundError (ErrorArray (before ++ err :: after)) =
      isFormFieldNotFoundError (ErrorArray (before ++ after))) /\
  (forall error t : Thrown,
      isFormFieldNotFoundError error = Thrown_ t ->
      t = includesTypeError /\
      exists err, In err (elements error) /\ plainMessage err = false).
Proof.
  split; [| split; [| split; [| split; [| split]]]]; try reflexivity.
  - intros error P. eexists. split; [now apply plainMessages_classified |].
    rewrite existsb_exists. split.
    + intros [err [I T]].
      destruct (message_of err) as [| | b | n | m | items |] eqn:E;
        try discriminate.
      exists err, m. repeat split; auto.
      apply orb_true_iff in T.
      destruct T as [T | T]; apply includes_spec in T; auto.
      now apply notFoundText_subsumed.
    + intros [err [m [I [E C]]]]. exists err. split; [exact I |].
      rewrite E. apply orb_true_iff. left. now apply includes_spec.
  - intros err before after F. unfold isFormFieldNotFoundError.
    induction before as [| x before IH]; cbn [app someOrThrow].
    + now rewrite (element_test_falsy err F).
    + destruct (orElse _ _) as [[|] | t]; [reflexivity | exact IH | reflexivity].
  - apply isFormFieldNotFoundError_throws.
Qed.

Lemma isFormFieldNotFoundError_spec_array :
  exists isNotFound : bool,
    isFormFieldNotFoundError
      (ErrorArray
         [ErrNull; ErrObject (JsString "There is no form field named Sig1")])
    = Returned isNotFound /\
    (isNotFound = true <->
     exists err m,
       In err [ErrNull; ErrObject (JsString "There is no form field named Sig1")]
       /\ message_of err = JsString m /\ contains m "no form field").
Proof.
  destruct isFormFieldNotFoundError_spec as [S _].
  apply (S (ErrorArray
              [ErrNull;
               ErrObject (JsString "There is no form field named Sig1")])).
  repeat constructor.
Defined.

(** C10 as stated fails: on an error whose message is the number 42 the
    test does not return [false], it throws the [TypeError] of line 123;
    and in an array an element with such a message makes the test throw
    although a later element carries the not-found text. *)
Lemma isFormFieldNotFoundError_number_message_counterexample :
  isFormFieldNotFoundError (OneError (ErrObject (JsNumber 42)))
  = Thrown_ includesTypeError /\
  isFormFieldNotFoundError
    (ErrorArray
       [ErrObject (JsNumber 42);
        ErrObject (JsString "There is no form field named Sig1")])
  = Thrown_ includesTypeError.
Proof. split; reflexivity. Qed.

(** ** Curve lengths *)

Lemma Math_min_Qmin (a b : Q) : Js.Math_min a b = Qmin a b.
Proof.
  unfold Js.Math_min, Js.lt, Qmin, GenericMinMax.gmin, Qcompare, Z.ltb.
  rewrite (Z.compare_antisym (Qnum a * QDen b) (Qnum b * QDen a)).
  destruct (Qnum a * QDen b ?= Qnum b * QDen a)%Z; reflexivity.
Qed.

Lemma Math_min_le_l (a b : Q) : Js.Math_min a b <= a.
Proof. rewrite Math_min_Qmin. apply Q.le_min_l. Qed.

Lemma Math_min_le_r (a b : Q) : Js.Math_min a b <= b.
Proof. rewrite Math_min_Qmin. apply Q.le_min_r. Qed.

(** [Math.min(w * ratio, cap)] does not decrease with [w] when [ratio] is
    not negative, and stays at [cap] once [w * ratio] has reached it. *)
Lemma capped_length_monotone (ratio cap w1 w2 : Q) :
  0 <= ratio -> w1 <= w2 ->
  Js.Math_min (w1 * ratio) cap <= Js.Math_min (w2 * ratio) cap /\
  (cap <= w1 * ratio -> Js.Math_min (w2 * ratio) cap == cap).
Proof.
  intros R W.
  assert (S : w1 * ratio <= w2 * ratio) by (apply Qmult_le_compat_r; assumption).
  rewrite !Math_min_Qmin. split.
  - apply Q.min_le_compat_r. exact S.
  - intros C. apply Q.min_r. lra.
Qed.

(** C5 (amended): the top and the bottom curve lengths are
    [min(w * ratio, max)] for every width and configuration; when the ratio
    is not negative, the length does not decrease as the width grows and,
    from a width at which the cap is reached on, it is the cap. *)
Theorem curve_length_spec :
  (forall (config : CompleteConfig) (w : Q),
      CurveResult.length (createTopCurve w config) =
      Qmin (w * Curve.topLengthRatio (Config.curve config))
           (Curve.topLengthMax (Config.curve config))) /\
  (forall (config : CompleteConfig) (h w : Q),
      CurveResult.length (createBottomCurve h w config) =
      Qmin (w * Curve.bottomLengthRatio (Config.curve config))
           (Curve.bottomLengthMax (Config.curve config))) /\
  (forall (config : CompleteConfig) (w1 w2 : Q),
      0 <= Curve.topLengthRatio (Config.curve config) -> w1 <= w2 ->
      CurveResult.length (createTopCurve w1 config) <=
      CurveResult.length (createTopCurve w2 config) /\
      (Curve.topLengthMax (Config.curve config) <=
         w1 * Curve.topLengthRatio (Config.curve config) ->
       CurveResult.length (createTopCurve w2 config) ==
       Curve.topLengthMax (Config.curve config))) /\
  (forall (config : CompleteConfig) (h1 h2 w1 w2 : Q),
      0 <= Curve.bottomLengthRatio (Config.curve config) -> w1 <= w2 ->
      CurveResult.length (createBottomCurve h1 w1 config) <=
      CurveResult.length (createBottomCurve h2 w2 config) /\
      (Curve.bottomLengthMax (Config.curve config) <=
         w1 * Curve.bottomLengthRatio (Config.curve config) ->
       CurveResult.length (createBottomCurve h2 w2 config) ==
       Curve.bottomLengthMax (Config.curve config))).
Proof.
  repeat split; intros.
  - apply Math_min_Qmin.
  - apply Math_min_Qmin.
  - now apply capped_length_monotone.
  - eapply (capped_length_monotone _ H H0). assumption.
  - now apply capped_length_monotone.
  - eapply (capped_length_monotone _ H H0). assumption.
Qed.

(** The theorem at the default configuration: widths 100 and 200 give 25
    and the cap 50, and 300 still gives 50. *)
Lemma curve_length_spec_default :
  CurveResult.length (createTopCurve 100 DEFAULT_CONFIG) <=
  CurveResult.length (createTopCurve 200 DEFAULT_CONFIG) /\
  CurveResult.length (createTopCurve 300 DEFAULT_CONFIG) == 50.
Proof.
  destruct curve_length_spec as [_ [_ [T _]]]. split.
  - apply (T DEFAULT_CONFIG 100 200); [discriminate | discriminate].
  - apply (T DEFAULT_CONFIG 200 300); discriminate.
Defined.

(** C5 as stated fails: the configuration the renderer builds from the
    override above has ratio [-1]; widths [0 <= 10] then give lengths [0]
    and [-10], so the length decreases. *)
Lemma curve_length_negative_ratio_counterexample :
  0 <= 0 /\ 0 <= 10 /\
  CurveResult.length
    (createTopCurve 0 (createSignatureRenderer_config negativeRatioOptions)) == 0 /\
  CurveResult.length
    (createTopCurve 10 (createSignatureRenderer_config negativeRatioOptions)) == -10 /\
  ~ CurveResult.length
      (createTopCurve 0 (createSignatureRenderer_config negativeRatioOptions))
    <= CurveResult.length
         (createTopCurve 10 (createSignatureRenderer_config negativeRatioOptions)).
Proof.
  repeat split; try discriminate; try reflexivity.
  vm_compute. intros L. apply L. reflexivity.
Qed.

(** ** The renderer *)

Lemma truthy_provided (o : option string) :
  Js.truthy o = true <-> exists s, provided o s.
Proof.
  unfold provided. destruct o as [[| c s] |]; simpl; split;
    try discriminate; try (intros [s' [E N]]; congruence).
  intros _. exists (String c s). split; [reflexivity | discriminate].
Qed.

Lemma truthy_notProvided (o : option string) :
  Js.truthy o = false <-> notProvided o.
Proof.
  unfold notProvided. destruct o as [[| c s] |]; simpl; split; auto;
    try discriminate; intros [E | E]; discriminate.
Qed.

Lemma truthyFlag_true (b : option bool) : truthyFlag b = true <-> b = Some true.
Proof. destruct b as [[|] |]; simpl; split; congruence. Qed.

Lemma renderer_overlay_iff
    (toLocaleString : DateTimeFormat.t -> string)
    (options : Options.t) (annotation : Annotation.t) :
  (exists overlay,
      createSignatureRenderer toLocaleString options annotation = Some overlay)
  <-> isSignatureAnnotation annotation.
Proof.
  unfold isSignatureAnnotation, createSignatureRenderer, isKind.
  rewrite <- !truthyFlag_true.
  destruct (Annotation.customData annotation) as [cd |];
    destruct (Annotation.kind annotation); simpl;
    try (split; [intros _; auto | intros _; eauto]; fail).
  all: match goal with
       | |- context [truthyFlag ?a || truthyFlag ?b] =>
           destruct (truthyFlag a), (truthyFlag b); simpl
       | |- context [truthyFlag ?b] => destruct (truthyFlag b); simpl
       end.
  all: split;
    [ intros [o E]; try discriminate; auto 6
    | intros [A | [A | [A | A]]]; try discriminate; eauto ].
Qed.

(** C8: the renderer returns an overlay exactly when the annotation is an
    ink annotation, an image annotation, or is marked as a signature by its
    custom data or its own flag; otherwise it returns [null]. *)
Theorem createSignatureRenderer_overlay_iff_signature
    (toLocaleString : DateTimeFormat.t -> string)
    (options : Options.t) (annotation : Annotation.t) :
  ((exists overlay,
       createSignatureRenderer toLocaleString options annotation = Some overlay)
   <-> isSignatureAnnotation annotation) /\
  (createSignatureRenderer toLocaleString options annotation = None
   <-> ~ isSignatureAnnotation annotation).
Proof.
  split; [apply renderer_overlay_iff |].
  rewrite <- (renderer_overlay_iff toLocaleString options annotation).
  destruct (createSignatureRenderer toLocaleString options annotation) as [o |].
  - split; [discriminate | intros N; exfalso; apply N; eauto].
  - split; [intros _ [o E]; discriminate | reflexivity].
Qed.

(** C7: for an annotation the renderer decorates, the top label reads
    ["By "] followed by the signer name of the custom data when one is
    provided, else by the logged-in user when one is provided, else by the
    default signer name of the merged configuration. *)
Theorem createSignatureRenderer_signer_name
    (toLocaleString : DateTimeFormat.t -> string)
    (options : Options.t) (annotation : Annotation.t)
    (Hsig : isSignatureAnnotation annotation) :
  exists overlay label,
    createSignatureRenderer toLocaleString options annotation = Some overlay /\
    topLabelText overlay = Some label /\
    let fromCustomData :=
      opt (Annotation.customData annotation) CustomData.signerName in
    let loggedInUser := Options.loggedInUser options in
    let default :=
      Defaults.signerName
        (Config.defaults (createSignatureRenderer_config options)) in
    (forall s, provided fromCustomData s -> label = "By " ++ s) /\
    (forall s, notProvided fromCustomData -> provided loggedInUser s ->
               label = "By " ++ s) /\
    (notProvided fromCustomData -> notProvided loggedInUser ->
     label = "By " ++ default).
Proof.
  destruct (proj2 (renderer_overlay_iff toLocaleString options annotation) Hsig)
    as [overlay E].
  exists overlay. revert E. unfold createSignatureRenderer.
  match goal with |- context [if ?c then _ else _] => destruct c end;
    [discriminate |].
  intros E. injection E as <-. cbn [topLabelText Overlay.node Wrapper.children].
  eexists. split; [reflexivity | split; [reflexivity |]].
  cbn [createTopLabel Label.textContent]. cbv zeta.
  assert (CD : CustomData.signerName
                 (fill emptyCustomData (Annotation.customData annotation))
               = opt (Annotation.customData annotation) CustomData.signerName)
    by (destruct (Annotation.customData annotation); reflexivity).
  rewrite CD. clear CD.
  set (cd := opt (Annotation.customData annotation) CustomData.signerName).
  set (user := Options.loggedInUser options).
  unfold Js.or. repeat split.
  - intros s P. assert (T : Js.truthy cd = true) by (apply truthy_provided; eauto).
    rewrite T; cbv iota. rewrite T. destruct P as [-> _]. reflexivity.
  - intros s N P. apply truthy_notProvided in N.
    assert (T : Js.truthy user = true) by (apply truthy_provided; eauto).
    rewrite N; cbv iota. rewrite T. destruct P as [-> _]. reflexivity.
  - intros N1 N2. apply truthy_notProvided in N1, N2.
    rewrite N1; cbv iota. rewrite N2. reflexivity.
Qed.

(** ** The cleanup coordinator *)

Section CoordinatorProperties.

Variable H : Type.
Variable instance : Instance.t H.

Lemma emit_run (entry : ConsoleEntry) (w : World.t H) :
  emit entry w = (Returned tt, logged w [entry]).
Proof. reflexivity. Qed.

Lemma logged_logged (w : World.t H) (l1 l2 : list ConsoleEntry) :
  logged (logged w l1) l2 = logged w (l1 ++ l2).
Proof. unfold logged. simpl. now rewrite <- app_assoc. Qed.

Lemma reportFailure_run (error : Thrown) (w : World.t H) :
  reportFailure error w =
  match isFormFieldNotFoundError error with
  | Returned isNotFound =>
      (Returned tt,
       logged w [if isNotFound then alreadyDeleted else failureReport error])
  | Thrown_ typeError => (Thrown_ typeError, w)
  end.
Proof.
  unfold reportFailure, bind, evaluate.
  destruct (isFormFieldNotFoundError error) as [[|] | t]; reflexivity.
Qed.

(** [handleSignatureCreation] in terms of the outcome of the [try] body. *)
Lemma handleSignatureCreation_run
    (annotation : Annotation.t) (config : MergedConfig) (w : World.t H) :
  handleSignatureCreation instance annotation config w =
  match cleanup instance annotation config
          (settled instance (logged w [detected annotation])) with
  | (Returned tt, w') => (Returned tt, w')
  | (Thrown_ error, w') => reportFailure error w'
  end.
Proof.
  unfold handleSignatureCreation, bind, settle, tryCatch.
  rewrite emit_run. fold (detected annotation).
  fold (settled instance (logged w [detected annotation])).
  destruct (cleanup instance annotation config
              (settled instance (logged w [detected annotation])))
    as [[[] | error] w']; reflexivity.
Qed.


Lemma deleteFormField_run (ff : FormField.t) (w : World.t H) :
  deleteFormField instance (Some ff) w =
  match Instance.delete instance (FormFieldEntity ff) (World.host w) with
  | (Returned _, h') =>
      (Returned tt,
       logged (World.mk h' (World.console w))
              [console_log ["✓ Deleted form field"]])
  | (Thrown_ e, h') =>
      match isFormFieldNotFoundError e with
      | Returned true =>
          (Returned tt,
           logged (World.mk h' (World.console w)) [alreadyDeleted])
      | Returned false => (Thrown_ e, World.mk h' (World.console w))
      | Thrown_ typeError =>
          (Thrown_ typeError, World.mk h' (World.console w))
      end
  end.
Proof.
  unfold deleteFormField, tryCatch, bind, await, evaluate.
  destruct (Instance.delete instance (FormFieldEntity ff) (World.host w))
    as [[[] | e] h'].
  - reflexivity.
  - destruct (isFormFieldNotFoundError e) as [[|] | t]; reflexivity.
Qed.

(** What the deletion of the form field throws, the catch of line 440 can
    classify. *)
Lemma deleteFormField_throws_classifiable
    (formFieldToDelete : option FormField.t) (w w' : World.t H) (e : Thrown) :
  deleteFormField instance formFieldToDelete w = (Thrown_ e, w') ->
  isFormFieldNotFoundError e = Returned false.
Proof.
  destruct formFieldToDelete as [ff |]; [| discriminate].
  rewrite deleteFormField_run.
  destruct (Instance.delete instance (FormFieldEntity ff) (World.host w))
    as [[[] | e0] h']; [discriminate |].
  destruct (isFormFieldNotFoundError e0) as [[|] | t] eqn:N.
  - discriminate.
  - intros E. injection E as <- _. exact N.
  - intros E. injection E as <- _.
    destruct (isFormFieldNotFoundError_throws _ N) as [-> _]. reflexivity.
Qed.

Lemma deleteWidget_run (widget : Annotation.t) (w : World.t H) :
  deleteWidget instance (Some widget) w =
  match Instance.delete instance (AnnotationEntity widget) (World.host w) with
  | (Returned _, h') =>
      (Returned tt,
       logged (World.mk h' (World.console w))
              [console_log ["✓ Deleted widget annotation"]])
  | (Thrown_ e, h') => (Thrown_ e, World.mk h' (World.console w))
  end.
Proof.
  unfold deleteWidget, bind, await.
  destruct (Instance.delete instance (AnnotationEntity widget) (World.host w))
    as [[[] | e] h']; reflexivity.
Qed.

(** *** What the two strategies select

    The strategies only write to the console; their outcome is a function
    of the annotation, the widgets, the form fields and the
    configuration. *)

Lemma strategies_run
    (annotation : Annotation.t) (widgetAnnotations : list Annotation.t)
    (formFields : list FormField.t) (config : MergedConfig) (w : World.t H) :
  (found <- strategy1 annotation widgetAnnotations formFields ;;
   strategy2 annotation widgetAnnotations formFields config found) w =
  (Returned (fst (selection annotation widgetAnnotations formFields config)),
   logged w (snd (selection annotation widgetAnnotations formFields config))).
Proof.
  assert (W0 : logged w [] = w)
    by (destruct w; unfold logged; simpl; now rewrite app_nil_r).
  unfold selection, strategy1, strategy2, bind.
  fold (byName (Annotation.formFieldName annotation)).
  fold (fieldByName (Annotation.formFieldName annotation)).
  destruct (Js.truthy (Annotation.formFieldName annotation)).
  - destruct (Js.find (byName (Annotation.formFieldName annotation))
                widgetAnnotations) as [widget |]; simpl.
    + reflexivity.
    + destruct (firstOverlappingSignatureWidget
                  (Annotation.boundingBox annotation) formFields config
                  widgetAnnotations) as [[widget ff] |]; simpl.
      * reflexivity.
      * unfold ret. now rewrite W0.
  - simpl.
    destruct (firstOverlappingSignatureWidget
                (Annotation.boundingBox annotation) formFields config
                widgetAnnotations) as [[widget ff] |]; simpl.
    + reflexivity.
    + unfold ret. now rewrite W0.
Qed.

(** The [try] body, call by call. *)
Lemma cleanup_run
    (annotation : Annotation.t) (config : MergedConfig) (w : World.t H) :
  cleanup instance annotation config w =
  match Instance.getAnnotations instance (Annotation.pageIndex annotation)
          (World.host w) with
  | (Thrown_ e, h1) => (Thrown_ e, World.mk h1 (World.console w))
  | (Returned allAnnotations, h1) =>
      match Instance.getFormFields instance h1 with
      | (Thrown_ e, h2) => (Thrown_ e, World.mk h2 (World.console w))
      | (Returned formFields, h2) =>
          let widgetAnnotations :=
            List.filter (isKind WidgetAnnotation) allAnnotations in
          let sel := selection annotation widgetAnnotations formFields config in
          (deleteWidget instance (fst (fst sel)) ;;
           deleteFormField instance (snd (fst sel)))
            (World.mk h2
               (World.console w ++ foundEntry widgetAnnotations :: snd sel))
      end
  end.
Proof.
  unfold cleanup. unfold bind at 1. unfold await at 1.
  destruct (Instance.getAnnotations instance
              (Annotation.pageIndex annotation) (World.host w))
    as [[allAnnotations | e] h1]; [| reflexivity].
  unfold bind at 1. unfold await at 1. cbn [World.host World.console].
  destruct (Instance.getFormFields instance h1)
    as [[formFields | e] h2]; [| reflexivity].
  unfold bind at 1. rewrite emit_run.
  cbv zeta.
  set (widgets := List.filter (isKind WidgetAnnotation) allAnnotations).
  pose proof (strategies_run annotation widgets formFields config
                (logged (World.mk h2 (World.console w)) [foundEntry widgets]))
    as S.
  unfold bind at 1 in S. unfold bind at 1.
  fold (foundEntry widgets).
  destruct (strategy1 annotation widgets formFields
              (logged (World.mk h2 (World.console w)) [foundEntry widgets]))
    as [[found1 | e1] w1].
  - unfold bind at 1. rewrite S. rewrite logged_logged. reflexivity.
  - discriminate S.
Qed.

Lemma find_byName_widget
    (name : string) (allAnnotations : list Annotation.t) :
  (exists widget,
      In widget allAnnotations /\
      Annotation.kind widget = WidgetAnnotation /\
      Annotation.formFieldName widget = Some name) ->
  exists widget,
    Js.find (byName (Some name))
      (List.filter (isKind WidgetAnnotation) allAnnotations) = Some widget /\
    In widget allAnnotations /\
    Annotation.kind widget = WidgetAnnotation /\
    Annotation.formFieldName widget = Some name.
Proof.
  intros [widget [I [K N]]].
  destruct (Js.find (byName (Some name))
              (List.filter (isKind WidgetAnnotation) allAnnotations))
    as [found |] eqn:F.
  - exists found. apply find_some in F. destruct F as [I' B].
    apply filter_In in I'. destruct I' as [I' K'].
    repeat split; auto.
    + unfold isKind in K'. destruct (Annotation.kind found); congruence.
    + unfold byName in B. destruct (Annotation.formFieldName found) as [n |];
        simpl in B; [| discriminate]. apply String.eqb_eq in B. now subst.
  - exfalso. pose proof (find_none _ _ F widget) as N'.
    assert (I' : In widget (List.filter (isKind WidgetAnnotation) allAnnotations)).
    { apply filter_In. split; [exact I |]. unfold isKind. now rewrite K. }
    specialize (N' I'). unfold byName in N'. rewrite N in N'. simpl in N'.
    now rewrite String.eqb_refl in N'.
Qed.

(** C3: when the created annotation carries a form field name and a
    widget of the page has that name, strategy 1 selects the first such
    widget, with the form field of that name, and strategy 2 does
    nothing: the body of the handler goes on to delete exactly these two,
    having written the entry of strategy 1 only, whatever the bounding
    boxes, the other widgets and the configuration are. *)
Theorem strategy1_takes_precedence
    (annotation : Annotation.t) (config : MergedConfig) (w : World.t H)
    (name : string)
    (allAnnotations : list Annotation.t) (formFields : list FormField.t)
    (h1 h2 : H)
    (Hname : Annotation.formFieldName annotation = Some name)
    (Hnonempty : name <> "")
    (Hannotations :
       Instance.getAnnotations instance (Annotation.pageIndex annotation)
         (World.host w) = (Returned allAnnotations, h1))
    (Hfields : Instance.getFormFields instance h1 = (Returned formFields, h2))
    (Hwidget :
       exists widget,
         In widget allAnnotations /\
         Annotation.kind widget = WidgetAnnotation /\
         Annotation.formFieldName widget = Some name) :
  exists widget,
    Js.find (byName (Some name))
      (List.filter (isKind WidgetAnnotation) allAnnotations) = Some widget /\
    In widget allAnnotations /\
    Annotation.kind widget = WidgetAnnotation /\
    Annotation.formFieldName widget = Some name /\
    strategy1 annotation
      (List.filter (isKind WidgetAnnotation) allAnnotations) formFields w =
    (Returned (Some widget, Js.find (fieldByName (Some name)) formFields),
     logged w [strategy1Entry]) /\
    strategy2 annotation
      (List.filter (isKind WidgetAnnotation) allAnnotations) formFields config
      (Some widget, Js.find (fieldByName (Some name)) formFields) w =
    (Returned (Some widget, Js.find (fieldByName (Some name)) formFields), w) /\
    cleanup instance annotation config w =
    (deleteWidget instance (Some widget) ;;
     deleteFormField instance (Js.find (fieldByName (Some name)) formFields))
      (World.mk h2
         (World.console w ++
          [foundEntry (List.filter (isKind WidgetAnnotation) allAnnotations);
           strategy1Entry])).
Proof.
  destruct (@find_byName_widget name allAnnotations Hwidget) as [widget [F [I [K N]]]].
  assert (T : Js.truthy (Annotation.formFieldName annotation) = true).
  { rewrite Hname. destruct name; [congruence | reflexivity]. }
  exists widget. repeat split; auto.
  - unfold strategy1. rewrite T, Hname.
    fold (byName (Some name)). fold (fieldByName (Some name)).
    rewrite F. reflexivity.
  - rewrite cleanup_run, Hannotations, Hfields. cbv zeta.
    unfold selection. rewrite T, Hname, F. reflexivity.
Qed.

(** What the [try] body throws when the host's rejections can be
    classified, the catch of line 440 can classify. *)
Lemma cleanup_throws_classifiable
    (annotation : Annotation.t) (config : MergedConfig)
    (w w' : World.t H) (e : Thrown) :
  classifiableRejections instance ->
  cleanup instance annotation config w = (Thrown_ e, w') ->
  classifiable e.
Proof.
  intros [Ca [Cf Cd]]. rewrite cleanup_run.
  destruct (Instance.getAnnotations instance
              (Annotation.pageIndex annotation) (World.host w))
    as [[allAnnotations | e1] h1] eqn:Ha.
  2: { intros E. injection E as <- _. exact (Ca _ _ _ _ Ha). }
  destruct (Instance.getFormFields instance h1)
    as [[formFields | e2] h2] eqn:Hf.
  2: { intros E. injection E as <- _. exact (Cf _ _ _ Hf). }
  cbv zeta. unfold bind.
  destruct (fst (fst (selection annotation
                        (filter (isKind WidgetAnnotation) allAnnotations)
                        formFields config))) as [widget |].
  - rewrite deleteWidget_run. cbn [World.host World.console].
    destruct (Instance.delete instance (AnnotationEntity widget) h2)
      as [[[] | e3] h3] eqn:Hd.
    + intros E. exists false.
      exact (deleteFormField_throws_classifiable _ _ E).
    + intros E. injection E as <- _. exact (Cd _ _ _ _ Hd).
  - cbn [deleteWidget]. rewrite emit_run.
    intros E. exists false.
    exact (deleteFormField_throws_classifiable _ _ E).
Qed.

Lemma handleSignatureCreation_returns
    (annotation : Annotation.t) (config : MergedConfig) (w : World.t H) :
  classifiableRejections instance ->
  fst (handleSignatureCreation instance annotation config w) = Returned tt.
Proof.
  intros C. rewrite handleSignatureCreation_run.
  destruct (cleanup instance annotation config
              (settled instance (logged w [detected annotation])))
    as [[[] | error] w'] eqn:E; [reflexivity |].
  destruct (cleanup_throws_classifiable _ _ _ C E) as [isNotFound N].
  rewrite reportFailure_run, N. reflexivity.
Qed.

Lemma createAnnotationHandler_run
    (config : MergedConfig) (annotations : list Annotation.t) (w : World.t H) :
  classifiableRejections instance ->
  createAnnotationHandler instance config annotations w =
  (Returned tt, fold_left (processOne instance config) annotations w).
Proof.
  intros C. revert w. induction annotations as [| a rest IH]; intros w.
  - reflexivity.
  - cbn [createAnnotationHandler fold_left]. unfold bind, processOne at 2.
    destruct (isKind InkAnnotation a || isKind ImageAnnotation a).
    + pose proof (handleSignatureCreation_returns a config w C) as R.
      destruct (handleSignatureCreation instance a config w) as [r w'].
      simpl in R. subst r. apply IH.
    + apply IH.
Qed.


End CoordinatorProperties.

(** ** Scenarios *)

(** Scenario D, and C3 on it: [widgetSig2] overlaps the signature and its
    field is a signature field, so strategy 2 alone would pick it; the
    signature names ["Sig1"], and [widgetSig1] and [fieldSig1] are
    selected. *)
Example strategy2_alone_picks_the_overlapping_widget :
  firstOverlappingSignatureWidget (Annotation.boundingBox inkSig1)
    [fieldSig1; fieldSig2] (configProps DEFAULT_CONFIG)
    [widgetSig2; widgetSig1]
  = Some (widgetSig2, Some fieldSig2).
Proof. reflexivity. Qed.

Lemma strategy1_takes_precedence_scenario_D :
  exists widget,
    Js.find (byName (Some "Sig1"))
      (List.filter (isKind WidgetAnnotation) [widgetSig2; widgetSig1; inkSig1])
    = Some widget /\
    In widget [widgetSig2; widgetSig1; inkSig1] /\
    Annotation.kind widget = WidgetAnnotation /\
    Annotation.formFieldName widget = Some "Sig1" /\
    strategy1 inkSig1
      (List.filter (isKind WidgetAnnotation) [widgetSig2; widgetSig1; inkSig1])
      [fieldSig1; fieldSig2] (startIn (page true None)) =
    (Returned (Some widget,
               Js.find (fieldByName (Some "Sig1")) [fieldSig1; fieldSig2]),
     logged (startIn (page true None)) [strategy1Entry]) /\
    strategy2 inkSig1
      (List.filter (isKind WidgetAnnotation) [widgetSig2; widgetSig1; inkSig1])
      [fieldSig1; fieldSig2] (configProps DEFAULT_CONFIG)
      (Some widget, Js.find (fieldByName (Some "Sig1")) [fieldSig1; fieldSig2])
      (startIn (page true None)) =
    (Returned (Some widget,
               Js.find (fieldByName (Some "Sig1")) [fieldSig1; fieldSig2]),
     startIn (page true None)) /\
    cleanup MemoryHost.instance inkSig1 (configProps DEFAULT_CONFIG)
      (startIn (page true None)) =
    (deleteWidget MemoryHost.instance (Some widget) ;;
     deleteFormField MemoryHost.instance
       (Js.find (fieldByName (Some "Sig1")) [fieldSig1; fieldSig2]))
      (World.mk (page true None)
         (World.console (startIn (page true None)) ++
          [foundEntry
             (List.filter (isKind WidgetAnnotation)
                [widgetSig2; widgetSig1; inkSig1]);
           strategy1Entry])).
Proof.
  apply (@strategy1_takes_precedence MemoryHost.t MemoryHost.instance
           inkSig1 (configProps DEFAULT_CONFIG) (startIn (page true None))
           "Sig1" [widgetSig2; widgetSig1; inkSig1] [fieldSig1; fieldSig2]
           (page true None) (page true None)).
  - reflexivity.
  - discriminate.
  - reflexivity.
  - reflexivity.
  - exists widgetSig1. simpl. auto.
Defined.

Example scenario_D_run :
  handleSignatureCreation MemoryHost.instance inkSig1
    (configProps DEFAULT_CONFIG) (startIn (page true None)) =
  (Returned tt,
   World.mk
     (MemoryHost.mk [widgetSig2; inkSig1] [fieldSig2] true None)
     [console_log ["Signature detected:"; "InkAnnotation"];
      console_log ["Found 2 widget(s) on page"];
      console_log ["Strategy 1: Found widget by formFieldName"];
      console_log ["✓ Deleted widget annotation"];
      console_log ["ℹ Form field already deleted (cleaned up with widget)"]]).
Proof. vm_compute. reflexivity. Qed.

(** Scenario E: no form field name on the signature; strategy 2 selects the
    overlapping widget and its field. *)
Example scenario_E_run :
  handleSignatureCreation MemoryHost.instance imageNoName
    (configProps DEFAULT_CONFIG) (startIn (page false None)) =
  (Returned tt,
   World.mk
     (MemoryHost.mk [widgetSig1; inkSig1] [fieldSig1] false None)
     [console_log ["Signature detected:"; "ImageAnnotation"];
      console_log ["Found 2 widget(s) on page"];
      console_log
        ["Strategy 2: Found widget by overlap and signature field type"];
      console_log ["✓ Deleted widget annotation"];
      console_log ["✓ Deleted form field"]]).
Proof. vm_compute. reflexivity. Qed.

(** A batch on a host that refuses to delete form fields: the failure of
    the first cleanup is reported, and the second annotation is processed
    all the same. *)
Example refused_deletion_is_reported_and_batch_goes_on :
  createAnnotationHandler MemoryHost.instance (configProps DEFAULT_CONFIG)
    [inkSig1; widgetSig1; imageNoName]
    (startIn (page false (Some permissionDenied))) =
  (Returned tt,
   World.mk
     (MemoryHost.mk [inkSig1] [fieldSig1; fieldSig2] false
        (Some permissionDenied))
     [console_log ["Signature detected:"; "InkAnnotation"];
      console_log ["Found 2 widget(s) on page"];
      console_log ["Strategy 1: Found widget by formFieldName"];
      console_log ["✓ Deleted widget annotation"];
      console_error ["Error deleting widget/form field:"] permissionDenied;
      console_log ["Signature detected:"; "ImageAnnotation"];
      console_log ["Found 1 widget(s) on page"];
      console_log
        ["Strategy 2: Found widget by overlap and signature field type"];
      console_log ["✓ Deleted widget annotation"];
      console_error ["Error deleting widget/form field:"] permissionDenied]).
Proof. vm_compute. reflexivity. Qed.





(** Scenarios A, B and C. *)
Example scenario_A :
  option_map topLabelText
    (createSignatureRenderer fixedClock optionsAlice inkPlain)
  = Some (Some "By Alice").
Proof. reflexivity. Qed.

Example scenario_B :
  option_map topLabelText
    (createSignatureRenderer fixedClock optionsAlice inkBob)
  = Some (Some "By Bob").
Proof. reflexivity. Qed.

Example scenario_C :
  CurveResult.length (createTopCurve 200 DEFAULT_CONFIG) == 50.
Proof. reflexivity. Qed.

Lemma createSignatureRenderer_signer_name_scenario_B :
  exists overlay label,
    createSignatureRenderer fixedClock optionsAlice inkBob = Some overlay /\
    topLabelText overlay = Some label /\
    (forall s, provided (Some "Bob") s -> label = "By " ++ s) /\
    (forall s, notProvided (Some "Bob") -> provided (Some "Alice") s ->
               label = "By " ++ s) /\
    (notProvided (Some "Bob") -> notProvided (Some "Alice") ->
     label = "By " ++ "Nutrient").
Proof.
  apply (createSignatureRenderer_signer_name fixedClock optionsAlice
           (annotation := inkBob)).
  left. reflexivity.
Defined.

(** ** Merging a caller's configuration *)

(** The renderer's merge fills the five subtrees it spreads one by one:
    its result has every leaf defined exactly when the date and time
    options it ends up with are all there. *)
Lemma createSignatureRenderer_config_defined (options : Options.t) :
  everyLeafDefined (configProps (createSignatureRenderer_config options)) =
  dateTimeFormatDefined
    (fill (Config.dateTimeFormat DEFAULT_CONFIG)
       (Config.dateTimeFormat (fill emptyOverride (Options.config options)))).
Proof. reflexivity. Qed.

(** Each leaf of a subtree the renderer spreads is the caller's when the
    caller gave one, the default otherwise; shown on the two leaves the
    coordinator reads. *)
Lemma createSignatureRenderer_config_identifiers (options : Options.t) :
  let custom :=
    opt (Options.config options) (@Config.signatureIdentifiers _ _) in
  let merged :=
    Config.signatureIdentifiers (createSignatureRenderer_config options) in
  SignatureIdentifiers.typeCode merged =
    fill "S" (opt custom (@SignatureIdentifiers.typeCode _)) /\
  SignatureIdentifiers.namePattern merged =
    fill "SIGNATURE" (opt custom (@SignatureIdentifiers.namePattern _)).
Proof. destruct options as [user [custom |]]; split; reflexivity. Qed.

(** Without an override both merges give [DEFAULT_CONFIG]. *)
Lemma merge_without_override (user : option string) :
  createSignatureRenderer_config (Options.mk user None) = DEFAULT_CONFIG /\
  initializeSignatureDecorator_config (Options.mk user None)
  = configProps DEFAULT_CONFIG.
Proof. split; reflexivity. Qed.

(** C1 on the code: the claim does not hold at either merge.
    [initializeSignatureDecorator] spreads one level deep, so an override
    that gives [signatureIdentifiers.typeCode] alone leaves [namePattern]
    undefined, where the merge of [createSignatureRenderer] on the same
    override keeps the default ["SIGNATURE"]; and [createSignatureRenderer]
    does not spread [dateTimeFormat], so an override that gives [year]
    alone leaves [month] (and the rest) undefined. *)
Theorem merged_configuration_has_gaps :
  everyLeafDefined (initializeSignatureDecorator_config partialIdentifiersOptions)
  = false /\
  SignatureIdentifiers.namePattern
    (Config.signatureIdentifiers
       (initializeSignatureDecorator_config partialIdentifiersOptions)) = None /\
  SignatureIdentifiers.namePattern
    (Config.signatureIdentifiers
       (createSignatureRenderer_config partialIdentifiersOptions)) = "SIGNATURE" /\
  everyLeafDefined (configProps (createSignatureRenderer_config partialDateOptions))
  = false /\
  DateTimeFormat.month
    (Config.dateTimeFormat (createSignatureRenderer_config partialDateOptions))
  = None.
Proof. repeat split; reflexivity. Qed.

(** What the gap does to the coordinator set up by
    [initializeSignatureDecorator]: a text field named ["SIGNATURE_1"] is a
    signature field under the default marker, and no longer is one once the
    override has dropped the marker. *)
Example gap_changes_classification :
  isSignatureField (Some (FormField.mk (Some "TextFormField") (Some "SIGNATURE_1")))
    (configProps DEFAULT_CONFIG) = true /\
  isSignatureField (Some (FormField.mk (Some "TextFormField") (Some "SIGNATURE_1")))
    (initializeSignatureDecorator_config partialIdentifiersOptions) = false.
Proof. split; reflexivity. Qed.

(** ** Printing numbers *)

Example natToString_examples :
  natToString 0 = "0" /\ natToString 7 = "7" /\ natToString 10 = "10" /\
  natToString 123 = "123".
Proof. repeat split; reflexivity. Qed.

(** * Further properties of the decorator *)

(** ** Geometry *)

(** X1: a box with non-negative extents overlaps itself and every box it
    lies inside, in either argument order. *)
Theorem checkBoundingBoxOverlap_contained :
  (forall a : BoundingBox,
      0 <= width a -> 0 <= height a -> checkBoundingBoxOverlap a a = true) /\
  (forall a b : BoundingBox,
      0 <= width a -> 0 <= height a -> inside a b ->
      checkBoundingBoxOverlap a b = true /\
      checkBoundingBoxOverlap b a = true).
Proof.
  split.
  - intros a W Hh. apply overlap_true_iff.
    unfold intersects; simpl. repeat split; lra.
  - intros a b W Hh [I1 [I2 [I3 I4]]].
    split; apply overlap_true_iff; unfold intersects; simpl;
      repeat split; lra.
Qed.

Lemma checkBoundingBoxOverlap_contained_example :
  checkBoundingBoxOverlap (mkBoundingBox 10 10 5 5) (mkBoundingBox 0 0 100 100)
  = true /\
  checkBoundingBoxOverlap (mkBoundingBox 0 0 100 100) (mkBoundingBox 10 10 5 5)
  = true.
Proof.
  destruct checkBoundingBoxOverlap_contained as [_ C].
  apply C; unfold inside; simpl; repeat split; discriminate.
Defined.

(** ** Strategy 2 *)

Lemma firstOverlappingSignatureWidget_find
    (signatureBBox : BoundingBox) (formFields : list FormField.t)
    (config : MergedConfig) (widgets : list Annotation.t) :
  firstOverlappingSignatureWidget signatureBBox formFields config widgets =
  match List.find (passesStrategy2 signatureBBox formFields config) widgets with
  | Some widget =>
      Some (widget,
            Js.find
              (fun f => Js.strictEq (FormField.name f)
                                    (Annotation.formFieldName widget))
              formFields)
  | None => None
  end.
Proof.
  induction widgets as [| widget rest IH]; [reflexivity |].
  cbn [firstOverlappingSignatureWidget List.find]. unfold passesStrategy2 at 1.
  destruct (checkBoundingBoxOverlap signatureBBox (Annotation.boundingBox widget)
            && Js.truthy (Annotation.formFieldName widget)); simpl.
  - destruct (isSignatureField _ config); [reflexivity | exact IH].
  - exact IH.
Qed.

(** X3: what the loop of strategy 2 returns.  A widget it returns overlaps
    the signature, carries a form field name, comes with the form field of
    that name, which exists and is a signature field, and no widget before
    it in the list passes the three tests; it returns none exactly when no
    widget of the list passes them. *)
Theorem firstOverlappingSignatureWidget_spec
    (signatureBBox : BoundingBox) (formFields : list FormField.t)
    (config : MergedConfig) (widgets : list Annotation.t) :
  (forall widget ff,
      firstOverlappingSignatureWidget signatureBBox formFields config widgets
      = Some (widget, ff) ->
      exists (before after : list Annotation.t) (field : FormField.t)
             (name : string),
        widgets = (before ++ widget :: after)%list /\
        (forall earlier, In earlier before ->
           passesStrategy2 signatureBBox formFields config earlier = false) /\
        checkBoundingBoxOverlap signatureBBox (Annotation.boundingBox widget)
        = true /\
        Annotation.formFieldName widget = Some name /\ name <> "" /\
        ff = Some field /\ In field formFields /\
        FormField.name field = Some name /\
        isSignatureField (Some field) config = true) /\
  (firstOverlappingSignatureWidget signatureBBox formFields config widgets = None
   <-> forall widget, In widget widgets ->
         passesStrategy2 signatureBBox formFields config widget = false).
Proof.
  rewrite firstOverlappingSignatureWidget_find. split.
  - intros widget ff E.
    destruct (List.find (passesStrategy2 signatureBBox formFields config) widgets)
      as [found |] eqn:F; [| discriminate].
    injection E as -> <-.
    assert (P : passesStrategy2 signatureBBox formFields config widget = true)
      by (apply find_some in F; tauto).
    assert (D : exists before after : list Annotation.t,
               widgets = (before ++ widget :: after)%list /\
               forall earlier, In earlier before ->
                 passesStrategy2 signatureBBox formFields config earlier = false).
    { clear P. induction widgets as [| x rest IH]; [discriminate |].
      simpl in F.
      destruct (passesStrategy2 signatureBBox formFields config x) eqn:Px.
      - injection F as ->. exists [], rest. split; [reflexivity | intros ? []].
      - destruct (IH F) as [before [after [-> Hb]]].
        exists (x :: before), after. split; [reflexivity |].
        intros earlier [<- | I]; auto. }
    destruct D as [before [after [Ew Hb]]].
    unfold passesStrategy2 in P.
    apply andb_true_iff in P. destruct P as [P S].
    apply andb_true_iff in P. destruct P as [O T].
    destruct (Annotation.formFieldName widget) as [name |] eqn:N;
      [| discriminate].
    unfold Js.find in *.
    destruct (List.find
                (fun f => Js.strictEq (FormField.name f) (Some name)) formFields)
      as [field |] eqn:Ff; [| discriminate].
    apply find_some in Ff. destruct Ff as [If Nf].
    exists before, after, field, name. repeat split; auto.
    + intros ->. discriminate.
    + destruct (FormField.name field) as [n |]; simpl in Nf; [| discriminate].
      apply String.eqb_eq in Nf. now subst.
  - destruct (List.find (passesStrategy2 signatureBBox formFields config) widgets)
      as [found |] eqn:F.
    + split; [discriminate |]. intros A. apply find_some in F.
      destruct F as [I P]. rewrite (A _ I) in P. discriminate.
    + split; [| reflexivity]. intros _ widget I.
      exact (find_none _ _ F widget I).
Qed.

(** ** Runs of the coordinator *)

Section CoordinatorRuns.

Variable H : Type.
Variable instance : Instance.t H.

Lemma quiet_ret (A : Type) (a : A) : quiet (ret (H := H) a).
Proof. intros w. exists []. simpl. now rewrite app_nil_r. Qed.

Lemma quiet_throw (A : Type) (e : Thrown) : quiet (throw (H := H) (A := A) e).
Proof. intros w. exists []. simpl. now rewrite app_nil_r. Qed.

Lemma quiet_emit (entry : ConsoleEntry) :
  isDetectedEntry entry = false -> quiet (emit (H := H) entry).
Proof. intros N w. exists [entry]. simpl. now rewrite N. Qed.

Lemma quiet_await (A : Type) (call : H -> Result A * H) : quiet (await call).
Proof.
  intros w. exists []. unfold await. destruct (call (World.host w)).
  simpl. now rewrite app_nil_r.
Qed.

Lemma quiet_settle (ms : Z) : quiet (settle instance ms).
Proof. intros w. exists []. simpl. now rewrite app_nil_r. Qed.

Lemma quiet_bind (A B : Type) (m : M H A) (k : A -> M H B) :
  quiet m -> (forall a, quiet (k a)) -> quiet (bind m k).
Proof.
  intros Qm Qk w. unfold bind. destruct (Qm w) as [l1 [E1 F1]].
  destruct (m w) as [[a | e] w1]; simpl in E1.
  - destruct (Qk a w1) as [l2 [E2 F2]]. exists (l1 ++ l2)%list.
    rewrite E2, E1, app_assoc, filter_app, F1, F2. auto.
  - exists l1. simpl. auto.
Qed.

Lemma quiet_tryCatch (A : Type) (m : M H A) (handler : Thrown -> M H A) :
  quiet m -> (forall e, quiet (handler e)) -> quiet (tryCatch m handler).
Proof.
  intros Qm Qh w. unfold tryCatch. destruct (Qm w) as [l1 [E1 F1]].
  destruct (m w) as [[a | e] w1]; simpl in E1.
  - exists l1. simpl. auto.
  - destruct (Qh e w1) as [l2 [E2 F2]]. exists (l1 ++ l2)%list.
    rewrite E2, E1, app_assoc, filter_app, F1, F2. auto.
Qed.

Lemma quiet_evaluate (A : Type) (r : Result A) : quiet (evaluate (H := H) r).
Proof. intros w. exists []. simpl. now rewrite app_nil_r. Qed.

Lemma quiet_reportFailure (error : Thrown) : quiet (reportFailure (H := H) error).
Proof.
  unfold reportFailure.
  apply quiet_bind; [apply quiet_evaluate | intros isNotFound].
  destruct isNotFound; apply quiet_emit; reflexivity.
Qed.

Lemma quiet_cleanup (annotation : Annotation.t) (config : MergedConfig) :
  quiet (cleanup instance annotation config).
Proof.
  unfold cleanup.
  apply quiet_bind; [apply quiet_await | intros allAnnotations].
  apply quiet_bind; [apply quiet_await | intros formFields].
  apply quiet_bind; [apply quiet_emit; reflexivity | intros _].
  apply quiet_bind; [| intros found1; apply quiet_bind; [| intros found2]].
  - unfold strategy1. destruct (Js.truthy _); [| apply quiet_ret].
    apply quiet_bind; [| intros _; apply quiet_ret].
    destruct (isSome _); [apply quiet_emit; reflexivity | apply quiet_ret].
  - unfold strategy2. destruct (negb _); [| apply quiet_ret].
    destruct (firstOverlappingSignatureWidget _ _ _ _) as [[widget ff] |];
      [| apply quiet_ret].
    apply quiet_bind; [apply quiet_emit; reflexivity | intros _; apply quiet_ret].
  - apply quiet_bind; [| intros _].
    + unfold deleteWidget. destruct (fst found2);
        [| apply quiet_emit; reflexivity].
      apply quiet_bind; [apply quiet_await |].
      intros _; apply quiet_emit; reflexivity.
    + unfold deleteFormField. destruct (snd found2); [| apply quiet_ret].
      apply quiet_tryCatch.
      * apply quiet_bind; [apply quiet_await |].
        intros _; apply quiet_emit; reflexivity.
      * intros e.
        apply quiet_bind; [apply quiet_evaluate | intros isNotFound].
        destruct isNotFound;
          [apply quiet_emit; reflexivity | apply quiet_throw].
Qed.

Lemma handleSignatureCreation_console
    (annotation : Annotation.t) (config : MergedConfig) (w : World.t H) :
  exists l : list ConsoleEntry,
    World.console (snd (handleSignatureCreation instance annotation config w))
    = (World.console w ++ detected annotation :: l)%list /\
    List.filter isDetectedEntry l = [].
Proof.
  assert (Q : quiet (bind (settle instance 100)
                       (fun _ => tryCatch (cleanup instance annotation config)
                                   (reportFailure (H := H))))).
  { apply quiet_bind; [apply quiet_settle | intros _].
    apply quiet_tryCatch; [apply quiet_cleanup | apply quiet_reportFailure]. }
  destruct (Q (logged w [detected annotation])) as [l [E F]].
  exists l. split; [| exact F].
  unfold handleSignatureCreation. unfold bind at 1. rewrite emit_run.
  cbv beta iota. fold (detected annotation). rewrite E.
  unfold logged. cbn [World.console]. now rewrite <- app_assoc.
Qed.

(** The only exception that leaves [handleSignatureCreation] is the one
    the test of line 441 throws. *)
Lemma handleSignatureCreation_throws
    (annotation : Annotation.t) (config : MergedConfig) (w w' : World.t H)
    (t : Thrown) :
  handleSignatureCreation instance annotation config w = (Thrown_ t, w') ->
  t = includesTypeError.
Proof.
  rewrite handleSignatureCreation_run.
  destruct (cleanup instance annotation config
              (settled instance (logged w [detected annotation])))
    as [[[] | error] w1]; [discriminate |].
  rewrite reportFailure_run.
  destruct (isFormFieldNotFoundError error) as [isNotFound | t'] eqn:N;
    [discriminate |].
  intros E. injection E as <- _.
  now destruct (isFormFieldNotFoundError_throws _ N).
Qed.

(** X4: the console is only appended to, and a batch is announced
    faithfully.  When the handler returns, the entries it added contain
    one ["Signature detected:"] entry for each ink or image annotation of
    the batch, in the order of the batch, and none for the other
    annotations.  When it throws, it throws the exception of the test of
    line 441, and the entries contain one for each ink or image annotation
    up to the one whose cleanup threw, and none for those after it.  On a
    host whose rejections the test returns on, the handler returns. *)
Theorem createAnnotationHandler_announces
    (config : MergedConfig) (annotations : list Annotation.t) (w : World.t H) :
  (exists added : list ConsoleEntry,
      World.console (snd (createAnnotationHandler instance config annotations w))
      = (World.console w ++ added)%list /\
      match fst (createAnnotationHandler instance config annotations w) with
      | Returned _ =>
          List.filter isDetectedEntry added =
          List.map detected (List.filter isInkOrImage annotations)
      | Thrown_ t =>
          t = includesTypeError /\
          exists (before after : list Annotation.t) (a : Annotation.t),
            List.filter isInkOrImage annotations = (before ++ a :: after)%list /\
            List.filter isDetectedEntry added =
            List.map detected (before ++ [a])%list
      end) /\
  (classifiableRejections instance ->
   fst (createAnnotationHandler instance config annotations w) = Returned tt).
Proof.
  split.
  2: { intros C. now rewrite (createAnnotationHandler_run config annotations w C). }
  revert w. induction annotations as [| a rest IH]; intros w.
  - exists []. simpl. now rewrite app_nil_r.
  - assert (D : forall l, List.filter isDetectedEntry (detected a :: l)
                         = detected a :: List.filter isDetectedEntry l)
      by reflexivity.
    cbn [createAnnotationHandler List.filter]. unfold bind.
    fold (isInkOrImage a). destruct (isInkOrImage a).
    + destruct (handleSignatureCreation_console a config w) as [l [E F]].
      destruct (handleSignatureCreation instance a config w)
        as [[[] | t] w1] eqn:R; cbn [snd] in E.
      * destruct (IH w1) as [added [E' F']].
        exists (detected a :: l ++ added)%list. split.
        -- rewrite E', E, <- app_assoc. reflexivity.
        -- rewrite D, filter_app, F. cbn [app].
           destruct (fst (createAnnotationHandler instance config rest w1))
             as [u | t].
           ++ cbn [List.map]. now rewrite F'.
           ++ destruct F' as [T [before [after [x [S F']]]]].
              split; [exact T |].
              exists (a :: before), after, x. split.
              ** now rewrite S.
              ** cbn [app List.map]. now rewrite F'.
      * exists (detected a :: l)%list. cbn [fst snd].
        split; [exact E |].
        split; [exact (handleSignatureCreation_throws _ _ _ R) |].
        exists [], (List.filter isInkOrImage rest), a.
        split; [reflexivity |]. now rewrite D, F.
    + unfold ret. apply IH.
Qed.

(** X5: the handler on a batch in two parts, the second part run where the
    first one returned and not run when the first one threw, is the handler
    on the whole batch; and a batch without ink or image annotations leaves
    the host and the console as they are. *)
Theorem createAnnotationHandler_batches (config : MergedConfig) :
  (forall (first second : list Annotation.t) (w : World.t H),
      createAnnotationHandler instance config (first ++ second) w =
      match createAnnotationHandler instance config first w with
      | (Returned _, w1) => createAnnotationHandler instance config second w1
      | (Thrown_ t, w1) => (Thrown_ t, w1)
      end) /\
  (forall (annotations : list Annotation.t) (w : World.t H),
      List.forallb (fun a => negb (isInkOrImage a)) annotations = true ->
      createAnnotationHandler instance config annotations w = (Returned tt, w)).
Proof.
  split.
  - intros first second. induction first as [| a rest IH]; intros w.
    + reflexivity.
    + cbn [app createAnnotationHandler]. unfold bind.
      destruct (isKind InkAnnotation a || isKind ImageAnnotation a).
      * destruct (handleSignatureCreation instance a config w)
          as [[[] | t] w1]; [apply IH | reflexivity].
      * unfold ret. apply IH.
  - intros annotations w A.
    revert w. induction annotations as [| a rest IH]; intros w; [reflexivity |].
    simpl in A. apply andb_true_iff in A. destruct A as [Na A].
    cbn [createAnnotationHandler]. unfold bind. unfold isInkOrImage in Na.
    apply negb_true_iff in Na. rewrite Na. unfold ret. now apply IH.
Qed.

(** X6: when the created annotation names no form field and no widget
    passes the tests of strategy 2, the handler deletes nothing: it
    returns on the host as the two fetches left it and writes the warning
    of line 424. *)
Theorem nothing_selected_nothing_deleted
    (annotation : Annotation.t) (config : MergedConfig) (w : World.t H)
    (allAnnotations : list Annotation.t) (formFields : list FormField.t)
    (h1 h2 : H)
    (Hname : Js.truthy (Annotation.formFieldName annotation) = false)
    (Hannotations :
       Instance.getAnnotations instance (Annotation.pageIndex annotation)
         (Instance.elapse instance 100 (World.host w))
       = (Returned allAnnotations, h1))
    (Hfields : Instance.getFormFields instance h1 = (Returned formFields, h2))
    (Hnone :
       firstOverlappingSignatureWidget (Annotation.boundingBox annotation)
         formFields config
         (List.filter (isKind WidgetAnnotation) allAnnotations) = None) :
  handleSignatureCreation instance annotation config w =
  (Returned tt,
   World.mk h2
     (World.console w ++
      [detected annotation;
       foundEntry (List.filter (isKind WidgetAnnotation) allAnnotations);
       widgetNotFoundEntry])).
Proof.
  rewrite handleSignatureCreation_run, cleanup_run.
  cbn [settled logged World.host World.console].
  rewrite Hannotations, Hfields. cbv zeta.
  unfold selection. rewrite Hname, Hnone. cbn [fst snd].
  unfold bind, deleteWidget, deleteFormField, ret. rewrite emit_run.
  unfold logged. cbn [World.host World.console].
  rewrite <- !app_assoc. reflexivity.
Qed.

(** X7: the form field the annotation names is deleted even when no widget
    is: with a form field name on the annotation, no widget of that name,
    no widget passing the tests of strategy 2, and a form field of that
    name, the handler writes the warning of line 424 and then deletes the
    form field. *)
Theorem named_field_deleted_without_widget
    (annotation : Annotation.t) (config : MergedConfig) (w : World.t H)
    (name : string) (field : FormField.t)
    (allAnnotations : list Annotation.t) (formFields : list FormField.t)
    (h1 h2 h3 : H)
    (Hname : Annotation.formFieldName annotation = Some name)
    (Hnonempty : name <> "")
    (Hannotations :
       Instance.getAnnotations instance (Annotation.pageIndex annotation)
         (Instance.elapse instance 100 (World.host w))
       = (Returned allAnnotations, h1))
    (Hfields : Instance.getFormFields instance h1 = (Returned formFields, h2))
    (Hnowidget :
       Js.find (byName (Some name))
         (List.filter (isKind WidgetAnnotation) allAnnotations) = None)
    (Hnone :
       firstOverlappingSignatureWidget (Annotation.boundingBox annotation)
         formFields config
         (List.filter (isKind WidgetAnnotation) allAnnotations) = None)
    (Hfield : Js.find (fieldByName (Some name)) formFields = Some field)
    (Hdelete :
       Instance.delete instance (FormFieldEntity field) h2 = (Returned tt, h3)) :
  handleSignatureCreation instance annotation config w =
  (Returned tt,
   World.mk h3
     (World.console w ++
      [detected annotation;
       foundEntry (List.filter (isKind WidgetAnnotation) allAnnotations);
       widgetNotFoundEntry; fieldDeletedEntry])).
Proof.
  assert (T : Js.truthy (Annotation.formFieldName annotation) = true).
  { rewrite Hname. destruct name; [congruence | reflexivity]. }
  rewrite handleSignatureCreation_run, cleanup_run.
  cbn [settled logged World.host World.console].
  rewrite Hannotations, Hfields. cbv zeta.
  unfold selection. rewrite T, Hname, Hnowidget, Hnone, Hfield. cbn [fst snd].
  unfold bind at 1. unfold deleteWidget. rewrite emit_run.
  rewrite deleteFormField_run. cbn [logged World.host World.console].
  rewrite Hdelete. unfold logged. cbn [World.host World.console].
  rewrite <- !app_assoc. reflexivity.
Qed.

(** X8: a fetch that is rejected ends the cleanup before anything is
    deleted, on the host as the rejected call left it.  When the test of
    line 441 returns on the error, the handler returns, having written the
    entry of the [catch] (the informational entry when the test answers
    [true], the error report otherwise); when the test throws, its
    exception leaves the handler and the console has the entry of line 366
    only. *)
Theorem rejected_fetch_is_contained
    (annotation : Annotation.t) (config : MergedConfig) (w : World.t H) :
  (forall (e : Thrown) (h1 : H),
      Instance.getAnnotations instance (Annotation.pageIndex annotation)
        (Instance.elapse instance 100 (World.host w)) = (Thrown_ e, h1) ->
      handleSignatureCreation instance annotation config w =
      match isFormFieldNotFoundError e with
      | Returned isNotFound =>
          (Returned tt,
           World.mk h1
             (World.console w ++
              [detected annotation;
               if isNotFound then alreadyDeleted else failureReport e]))
      | Thrown_ typeError =>
          (Thrown_ typeError,
           World.mk h1 (World.console w ++ [detected annotation]))
      end) /\
  (forall (allAnnotations : list Annotation.t) (e : Thrown) (h1 h2 : H),
      Instance.getAnnotations instance (Annotation.pageIndex annotation)
        (Instance.elapse instance 100 (World.host w))
      = (Returned allAnnotations, h1) ->
      Instance.getFormFields instance h1 = (Thrown_ e, h2) ->
      handleSignatureCreation instance annotation config w =
      match isFormFieldNotFoundError e with
      | Returned isNotFound =>
          (Returned tt,
           World.mk h2
             (World.console w ++
              [detected annotation;
               if isNotFound then alreadyDeleted else failureReport e]))
      | Thrown_ typeError =>
          (Thrown_ typeError,
           World.mk h2 (World.console w ++ [detected annotation]))
      end).
Proof.
  split.
  - intros e h1 Ha. rewrite handleSignatureCreation_run, cleanup_run.
    cbn [settled logged World.host World.console]. rewrite Ha.
    rewrite reportFailure_run.
    destruct (isFormFieldNotFoundError e) as [isNotFound | t];
      [| reflexivity].
    unfold logged. cbn [World.host World.console].
    rewrite <- app_assoc. reflexivity.
  - intros allAnnotations e h1 h2 Ha Hf.
    rewrite handleSignatureCreation_run, cleanup_run.
    cbn [settled logged World.host World.console]. rewrite Ha, Hf.
    rewrite reportFailure_run.
    destruct (isFormFieldNotFoundError e) as [isNotFound | t];
      [| reflexivity].
    unfold logged. cbn [World.host World.console].
    rewrite <- app_assoc. reflexivity.
Qed.

End CoordinatorRuns.

Lemma rejected_fetch_is_contained_examples :
  handleSignatureCreation (rejectingAnnotations permissionDenied) inkSig1
    (configProps DEFAULT_CONFIG) (startIn (page false None))
  = (Returned tt,
     World.mk (page false None)
       [console_log ["Signature detected:"; "InkAnnotation"];
        console_error ["Error deleting widget/form field:"] permissionDenied])
  /\
  handleSignatureCreation (rejectingAnnotations numberMessage) inkSig1
    (configProps DEFAULT_CONFIG) (startIn (page false None))
  = (Thrown_ includesTypeError,
     World.mk (page false None)
       [console_log ["Signature detected:"; "InkAnnotation"]]).
Proof.
  split.
  - exact (proj1 (@rejected_fetch_is_contained MemoryHost.t
                    (rejectingAnnotations permissionDenied) inkSig1
                    (configProps DEFAULT_CONFIG) (startIn (page false None)))
             permissionDenied (page false None) eq_refl).
  - exact (proj1 (@rejected_fetch_is_contained MemoryHost.t
                    (rejectingAnnotations numberMessage) inkSig1
                    (configProps DEFAULT_CONFIG) (startIn (page false None)))
             numberMessage (page false None) eq_refl).
Defined.

Lemma nothing_selected_nothing_deleted_far_widget :
  handleSignatureCreation MemoryHost.instance imageNoName
    (configProps DEFAULT_CONFIG) (startIn pageFarWidget) =
  (Returned tt,
   World.mk pageFarWidget
     (World.console (startIn pageFarWidget) ++
      [detected imageNoName;
       foundEntry (List.filter (isKind WidgetAnnotation) [widgetSig1]);
       widgetNotFoundEntry])).
Proof.
  apply (@nothing_selected_nothing_deleted MemoryHost.t MemoryHost.instance
           imageNoName (configProps DEFAULT_CONFIG) (startIn pageFarWidget)
           [widgetSig1] [fieldSig1] pageFarWidget pageFarWidget);
    reflexivity.
Defined.

Lemma named_field_deleted_without_widget_orphan :
  handleSignatureCreation MemoryHost.instance inkSig1
    (configProps DEFAULT_CONFIG) (startIn pageOrphanField) =
  (Returned tt,
   World.mk (MemoryHost.mk [inkSig1] [] false None)
     (World.console (startIn pageOrphanField) ++
      [detected inkSig1;
       foundEntry (List.filter (isKind WidgetAnnotation) [inkSig1]);
       widgetNotFoundEntry; fieldDeletedEntry])).
Proof.
  apply (@named_field_deleted_without_widget MemoryHost.t MemoryHost.instance
           inkSig1 (configProps DEFAULT_CONFIG) (startIn pageOrphanField)
           "Sig1" fieldSig1 [inkSig1] [fieldSig1]
           pageOrphanField pageOrphanField
           (MemoryHost.mk [inkSig1] [] false None));
    try reflexivity.
  discriminate.
Defined.

(** ** The overlay *)

Lemma Math_max_spec (a b : Q) :
  a <= Js.Math_max a b /\ b <= Js.Math_max a b /\
  (Js.Math_max a b = a \/ Js.Math_max a b = b).
Proof.
  unfold Js.Math_max. destruct (Js.lt a b) eqn:L.
  - apply lt_spec in L. repeat split; auto; lra.
  - apply lt_false in L. repeat split; auto; lra.
Qed.

Lemma renderer_overlay
    (toLocaleString : DateTimeFormat.t -> string)
    (options : Options.t) (annotation : Annotation.t) :
  isSignatureAnnotation annotation ->
  let config := createSignatureRenderer_config options in
  let w := width (Annotation.boundingBox annotation) in
  let h := height (Annotation.boundingBox annotation) in
  let top := createTopCurve w config in
  let bottom := createBottomCurve h w config in
  createSignatureRenderer toLocaleString options annotation =
  Some (Overlay.mk
          (Wrapper.mk "signature-metadata-wrapper"
             (Text.fontFamily (Config.text config)) "none"
             [SvgNode
                (Svg.mk (Js.Math_max (w * 0.4) 80) (h + 50)
                   (Position.svgTopOffset (Config.position config))
                   (Position.svgLeftOffset (Config.position config))
                   [CurveResult.path top; CurveResult.path bottom]);
              LabelNode
                (createTopLabel
                   (Js.or
                      (Js.or
                         (CustomData.signerName
                            (fill emptyCustomData
                               (Annotation.customData annotation)))
                         (Options.loggedInUser options))
                      (Some (Defaults.signerName (Config.defaults config))))
                   (CurveResult.length top) config);
              LabelNode
                (createBottomLabel toLocaleString
                   (CurveResult.length bottom) w config)])
          true false).
Proof.
  intros S. cbv zeta.
  destruct (proj2 (renderer_overlay_iff toLocaleString options annotation) S)
    as [overlay E].
  revert E. unfold createSignatureRenderer.
  match goal with |- context [if ?c then _ else _] => destruct c end;
    [discriminate | reflexivity].
Qed.

(** X9: the layout of an overlay.  For an annotation the renderer
    decorates, the SVG element is 80 wide at least and at least 0.4 times
    the annotation's width (and is one of the two), and is 50 higher than
    the annotation; each label starts one text gap after the end of its
    curve, so no further right than the cap of that curve plus the gap;
    the bottom label shows the date printed under the merged date
    options. *)
Theorem overlay_layout
    (toLocaleString : DateTimeFormat.t -> string)
    (options : Options.t) (annotation : Annotation.t)
    (Hsig : isSignatureAnnotation annotation) :
  exists overlay svg topLabel bottomLabel,
    createSignatureRenderer toLocaleString options annotation = Some overlay /\
    overlayParts overlay = Some (svg, topLabel, bottomLabel) /\
    let config := createSignatureRenderer_config options in
    let w := width (Annotation.boundingBox annotation) in
    let h := height (Annotation.boundingBox annotation) in
    80 <= Svg.width svg /\ w * 0.4 <= Svg.width svg /\
    (Svg.width svg = 80 \/ Svg.width svg = w * 0.4) /\
    Svg.height svg = h + 50 /\
    Label.left topLabel =
      CurveResult.length (createTopCurve w config)
      + Text.gap (Config.text config) /\
    Label.left bottomLabel =
      CurveResult.length (createBottomCurve h w config)
      + Text.gap (Config.text config) /\
    Label.left topLabel <=
      Curve.topLengthMax (Config.curve config) + Text.gap (Config.text config) /\
    Label.left bottomLabel <=
      Curve.bottomLengthMax (Config.curve config)
      + Text.gap (Config.text config) /\
    Label.textContent bottomLabel =
      toLocaleString (Config.dateTimeFormat config).
Proof.
  pose proof (@renderer_overlay toLocaleString options annotation Hsig) as E.
  cbv zeta in E. eexists. eexists. eexists. eexists.
  split; [exact E |]. split; [reflexivity |]. cbv zeta.
  cbn [Svg.width Svg.height createTopLabel createBottomLabel Label.left
       Label.textContent createTopCurve createBottomCurve CurveResult.length
       getCurrentDateTime].
  set (w := width (Annotation.boundingBox annotation)).
  destruct (Math_max_spec (w * 0.4) 80) as [A [B C]].
  repeat split; auto.
  - destruct C; auto.
  - apply Qplus_le_l. apply Math_min_le_r.
  - apply Qplus_le_l. apply Math_min_le_r.
Qed.

Lemma overlay_layout_scenario_A :
  exists overlay svg topLabel bottomLabel,
    createSignatureRenderer fixedClock optionsAlice inkPlain = Some overlay /\
    overlayParts overlay = Some (svg, topLabel, bottomLabel) /\
    80 <= Svg.width svg /\ 150 * 0.4 <= Svg.width svg /\
    (Svg.width svg = 80 \/ Svg.width svg = 150 * 0.4) /\
    Svg.height svg = 50 + 50 /\
    Label.left topLabel =
      CurveResult.length (createTopCurve 150 DEFAULT_CONFIG) + 3 /\
    Label.left bottomLabel =
      CurveResult.length (createBottomCurve 50 150 DEFAULT_CONFIG) + 3 /\
    Label.left topLabel <= 50 + 3 /\
    Label.left bottomLabel <= 70 + 3 /\
    Label.textContent bottomLabel = "11/02/2026, 09:30:00 AM".
Proof.
  apply (overlay_layout fixedClock optionsAlice (annotation := inkPlain)).
  left. reflexivity.
Defined.

Lemma Math_min_bounds (a cap : Q) :
  0 <= a -> 0 <= cap ->
  0 <= Js.Math_min a cap /\ Js.Math_min a cap <= a.
Proof.
  intros A C. split; [| apply Math_min_le_l].
  unfold Js.Math_min. destruct (Js.lt cap a); assumption.
Qed.

(** X10: the curves stay inside the SVG element.  For an annotation of
    non-negative width and height, under a configuration whose two ratios
    lie between 0 and 0.4 and whose caps are not negative, every point of
    the two paths (end points and control points) lies in the viewport of
    the SVG element the renderer sizes. *)
Theorem curves_inside_viewport
    (toLocaleString : DateTimeFormat.t -> string)
    (options : Options.t) (annotation : Annotation.t)
    (Hsig : isSignatureAnnotation annotation)
    (Hw : 0 <= width (Annotation.boundingBox annotation))
    (Hh : 0 <= height (Annotation.boundingBox annotation))
    (Htop : 0 <= Curve.topLengthRatio
                   (Config.curve (createSignatureRenderer_config options)) <= 0.4)
    (Hbottom : 0 <= Curve.bottomLengthRatio
                      (Config.curve (createSignatureRenderer_config options))
               <= 0.4)
    (Htopmax : 0 <= Curve.topLengthMax
                      (Config.curve (createSignatureRenderer_config options)))
    (Hbottommax : 0 <= Curve.bottomLengthMax
                         (Config.curve (createSignatureRenderer_config options))) :
  exists overlay svg topLabel bottomLabel,
    createSignatureRenderer toLocaleString options annotation = Some overlay /\
    overlayParts overlay = Some (svg, topLabel, bottomLabel) /\
    forall path point,
      In path (Svg.children svg) -> In point (pathPoints path) ->
      inViewport svg point.
Proof.
  pose proof (@renderer_overlay toLocaleString options annotation Hsig) as E.
  cbv zeta in E. eexists. eexists. eexists. eexists.
  split; [exact E |]. split; [reflexivity |].
  set (config := createSignatureRenderer_config options) in *.
  set (w := width (Annotation.boundingBox annotation)) in *.
  set (h := height (Annotation.boundingBox annotation)) in *.
  destruct (Math_max_spec (w * 0.4) 80) as [A [B _]].
  assert (Tw : 0 <= w * Curve.topLengthRatio (Config.curve config) <= w * 0.4).
  { split; [apply Qmult_le_0_compat; tauto |].
    rewrite !(Qmult_comm w). apply Qmult_le_compat_r; tauto. }
  assert (Bw : 0 <= w * Curve.bottomLengthRatio (Config.curve config) <= w * 0.4).
  { split; [apply Qmult_le_0_compat; tauto |].
    rewrite !(Qmult_comm w). apply Qmult_le_compat_r; tauto. }
  destruct (@Math_min_bounds
              (w * Curve.topLengthRatio (Config.curve config))
              (Curve.topLengthMax (Config.curve config)))
    as [T0 T1]; [tauto | assumption |].
  destruct (@Math_min_bounds
              (w * Curve.bottomLengthRatio (Config.curve config))
              (Curve.bottomLengthMax (Config.curve config)))
    as [B0 B1]; [tauto | assumption |].
  intros path point Ipath Ipoint. unfold inViewport.
  cbn [Svg.children Svg.width Svg.height] in *.
  destruct Ipath as [<- | [<- | []]];
    cbn [createTopCurve createBottomCurve CurveResult.path pathPoints Path.d
         flat_map commandPoints app] in Ipoint;
    repeat (destruct Ipoint as [<- | Ipoint]); try contradiction;
    cbn [fst snd]; repeat split; lra.
Qed.

Lemma curves_inside_viewport_scenario_A :
  exists overlay svg topLabel bottomLabel,
    createSignatureRenderer fixedClock optionsAlice inkPlain = Some overlay /\
    overlayParts overlay = Some (svg, topLabel, bottomLabel) /\
    forall path point,
      In path (Svg.children svg) -> In point (pathPoints path) ->
      inViewport svg point.
Proof.
  apply (curves_inside_viewport fixedClock optionsAlice (annotation := inkPlain));
    try (left; reflexivity); try (split; discriminate); discriminate.
Defined.

(** ** The two merges compared *)

Lemma curveProps_defined (c : Curve.t Full) : curveDefined (curveProps c) = true.
Proof. reflexivity. Qed.

Lemma curve_given_complete (d : Curve.t Full) (o : Curve.t option) :
  curveDefined o = true -> curveProps (spreadCurve d (Some o)) = o.
Proof.
  destruct o as [[?|] [?|] [?|] [?|] [?|] [?|]]; simpl;
    intros E; try discriminate; reflexivity.
Qed.

Lemma text_given_complete (d : Text.t Full) (o : Text.t option) :
  textDefined o = true -> textProps (spreadText d (Some o)) = o.
Proof.
  destruct o as [[?|] [?|] [[[?|] [?|]]|] [?|]]; simpl;
    intros E; try discriminate; reflexivity.
Qed.

Lemma position_given_complete (d : Position.t Full) (o : Position.t option) :
  positionDefined o = true -> positionProps (spreadPosition d (Some o)) = o.
Proof.
  destruct o as [[?|] [?|] [?|] [?|]]; simpl;
    intros E; try discriminate; reflexivity.
Qed.

Lemma identifiers_given_complete
    (d : SignatureIdentifiers.t Full) (o : SignatureIdentifiers.t option) :
  signatureIdentifiersDefined o = true ->
  signatureIdentifiersProps (spreadSignatureIdentifiers d (Some o)) = o.
Proof.
  destruct o as [[?|] [?|]]; simpl; intros E; try discriminate; reflexivity.
Qed.

Lemma defaults_given_complete (d : Defaults.t Full) (o : Defaults.t option) :
  defaultsDefined o = true -> defaultsProps (spreadDefaults d (Some o)) = o.
Proof.
  destruct o as [[?|]]; simpl; intros E; try discriminate; reflexivity.
Qed.

Lemma textProps_defined (t : Text.t Full) : textDefined (textProps t) = true.
Proof. reflexivity. Qed.

(** X11: the two merges give the same configuration exactly when each of
    the five subtrees the caller gives has all its leaves (a caller who
    gives no configuration, or whole subtrees only, gets the same from
    both); otherwise the one-level merge of [initializeSignatureDecorator]
    lacks leaves that the merge of [createSignatureRenderer] has. *)
Theorem merges_agree_iff_given_subtrees_complete (options : Options.t) :
  configProps (createSignatureRenderer_config options)
  = initializeSignatureDecorator_config options
  <-> givenSubtreesComplete (fill emptyOverride (Options.config options)) = true.
Proof.
  destruct options as [user [o |]]; [| split; reflexivity].
  destruct o as [c t p s d f].
  unfold createSignatureRenderer_config, initializeSignatureDecorator_config,
    configProps, givenSubtreesComplete.
  cbn [Options.config fill opt emptyOverride Config.curve Config.text
       Config.position Config.signatureIdentifiers Config.defaults
       Config.dateTimeFormat whenGiven].
  split.
  - intros E.
    injection E as Ec Et Ep Es Ed.
    repeat (apply andb_true_iff; split).
    + destruct c as [c |]; [| reflexivity]. simpl in Ec. rewrite <- Ec.
      apply curveProps_defined.
    + destruct t as [t |]; [| reflexivity]. simpl in Et. rewrite <- Et.
      apply textProps_defined.
    + destruct p as [p |]; [| reflexivity]. simpl in Ep. rewrite <- Ep.
      reflexivity.
    + destruct s as [s |]; [| reflexivity]. simpl in Es. rewrite <- Es.
      reflexivity.
    + destruct d as [d |]; [| reflexivity]. simpl in Ed. rewrite <- Ed.
      reflexivity.
  - intros G. repeat (apply andb_true_iff in G; destruct G as [G ?]).
    f_equal.
    + destruct c as [c |]; [| reflexivity]. now apply curve_given_complete.
    + destruct t as [t |]; [| reflexivity]. now apply text_given_complete.
    + destruct p as [p |]; [| reflexivity]. now apply position_given_complete.
    + destruct s as [s |]; [| reflexivity].
      now apply identifiers_given_complete.
    + destruct d as [d |]; [| reflexivity]. now apply defaults_given_complete.
Qed.

(** X12: a complete configuration passed as the override comes back
    unchanged from both merges: every value the caller gives wins over the
    default. *)
Theorem complete_override_wins (user : option string) (c : CompleteConfig) :
  createSignatureRenderer_config (Options.mk user (Some (asOverride c))) = c /\
  initializeSignatureDecorator_config (Options.mk user (Some (asOverride c)))
  = configProps c.
Proof.
  destruct c as [[? ? ? ? ? ?] [? ? [? ?] ?] [? ? ? ?] [? ?] [?] ?].
  split; reflexivity.
Qed.

(** ** Edges of the classification *)

(** X13: what no configuration can change, and what a degenerate one
    does.  A form field whose type name contains ["Signature"] is a
    signature field under every configuration; with the empty string as
    marker every form field is one; with both identifiers missing, a field
    is one exactly when its type name contains ["Signature"] or its name
    contains the text ["undefined"]. *)
Theorem isSignatureField_edges (ff : FormField.t) (config : MergedConfig) :
  (contains (Js.orEmpty (FormField.constructor_name ff)) "Signature" ->
   isSignatureField (Some ff) config = true) /\
  (SignatureIdentifiers.namePattern (Config.signatureIdentifiers config)
   = Some "" ->
   isSignatureField (Some ff) config = true) /\
  (SignatureIdentifiers.typeCode (Config.signatureIdentifiers config) = None ->
   SignatureIdentifiers.namePattern (Config.signatureIdentifiers config) = None ->
   (isSignatureField (Some ff) config = true <->
    contains (Js.orEmpty (FormField.constructor_name ff)) "Signature" \/
    contains (Js.orEmpty (FormField.name ff)) "undefined")).
Proof.
  rewrite isSignatureField_true_iff. split; [| split].
  - auto.
  - intros P. right. right. rewrite P. simpl.
    exists "", (Js.orEmpty (FormField.name ff)). reflexivity.
  - intros Hcode Hpat. rewrite Hcode, Hpat. simpl. split.
    + intros [A | [B | C]]; auto. discriminate.
    + intros [A | C]; auto.
Qed.

Lemma isSignatureField_edges_missing_identifiers :
  isSignatureField (Some (FormField.mk (Some "TextFormField") (Some "undefined_1")))
    (initializeSignatureDecorator_config
       (Options.mk None
          (Some (Config.mk option option None None None
                   (Some (SignatureIdentifiers.mk option None None))
                   None None))))
  = true.
Proof.
  apply (proj2 (proj2 (isSignatureField_edges
                         (FormField.mk (Some "TextFormField") (Some "undefined_1"))
                         (initializeSignatureDecorator_config
                            (Options.mk None
                               (Some (Config.mk option option None None None
                                        (Some (SignatureIdentifiers.mk option
                                                 None None))
                                        None None))))))).
  - reflexivity.
  - reflexivity.
  - right. exists "", "_1". reflexivity.
Defined.

(** * Properties of the viewer component *)

(** ** Which files are converted *)

Lemma split_not_empty (sep : ascii) (s : string) : JsText.split sep s <> [].
Proof.
  destruct s as [| c rest]; simpl; [discriminate |].
  destruct (Ascii.eqb c sep); [discriminate |].
  destruct (JsText.split sep rest); discriminate.
Qed.

Lemma pop_cons (x : string) (rest : list string) :
  rest <> [] -> JsText.pop (x :: rest) = JsText.pop rest.
Proof. destruct rest; [congruence | reflexivity]. Qed.

Lemma split_dotFree (s : string) :
  dotFree s = true -> JsText.split "." s = [s].
Proof.
  induction s as [| c rest IH]; [reflexivity |].
  cbn [dotFree JsText.split]. intros D. apply andb_true_iff in D.
  destruct D as [N D]. apply negb_true_iff in N. rewrite N, (IH D). reflexivity.
Qed.

Lemma pop_split_dot (stem ext : string) :
  JsText.pop (JsText.split "." (stem ++ "." ++ ext)) =
  JsText.pop (JsText.split "." ext).
Proof.
  induction stem as [| c stem IH].
  - change ("" ++ "." ++ ext) with (String "." ext).
    cbn [JsText.split]. rewrite Ascii.eqb_refl.
    apply pop_cons. apply split_not_empty.
  - change (String c stem ++ "." ++ ext) with (String c (stem ++ "." ++ ext)).
    cbn [JsText.split].
    assert (L : exists first second others,
               JsText.split "." (stem ++ "." ++ ext) = first :: second :: others).
    { clear IH. induction stem as [| d stem IHs].
      - change ("" ++ "." ++ ext) with (String "." ext).
        cbn [JsText.split]. rewrite Ascii.eqb_refl.
        destruct (JsText.split "." ext) as [| x xs] eqn:E;
          [now apply split_not_empty in E | eauto].
      - change (String d stem ++ "." ++ ext) with (String d (stem ++ "." ++ ext)).
        cbn [JsText.split]. destruct IHs as [f [s2 [o E]]]. rewrite E.
        destruct (Ascii.eqb d "."); eauto. }
    destruct L as [first [second [others E]]].
    rewrite E in IH |- *. destruct (Ascii.eqb c "."); exact IH.
Qed.

Lemma requiresConversion_total (filename : string) :
  exists b, requiresConversion filename = Some b.
Proof.
  unfold requiresConversion.
  destruct (JsText.split "." filename) as [| x xs] eqn:E;
    [now apply split_not_empty in E |].
  assert (P : exists last, JsText.pop (x :: xs) = Some last).
  { clear E. revert x. induction xs as [| y ys IH]; intros x; [simpl; eauto |].
    rewrite pop_cons by discriminate. apply IH. }
  destruct P as [last ->]. eauto.
Qed.

Lemma requiresConversion_extension (stem ext : string) :
  dotFree ext = true ->
  requiresConversion (stem ++ "." ++ ext) =
  Some (JsText.arrayIncludes CONVERTIBLE_EXTENSIONS (JsText.toLowerCase ext)).
Proof.
  intros D. unfold requiresConversion.
  rewrite pop_split_dot, (split_dotFree _ D). reflexivity.
Qed.

(** X14: [requiresConversion] never fails, and looks only at what follows
    the last dot of the name, whatever its case: for [ext] without a dot,
    [stem.ext] needs conversion exactly when [ext] in lower case is one of
    the six convertible extensions; a name without any dot is taken whole
    as its extension. *)
Theorem requiresConversion_spec :
  (forall filename, exists b, requiresConversion filename = Some b) /\
  (forall stem ext,
      dotFree ext = true ->
      requiresConversion (stem ++ "." ++ ext) =
      Some (JsText.arrayIncludes CONVERTIBLE_EXTENSIONS (JsText.toLowerCase ext))) /\
  (forall name,
      dotFree name = true ->
      requiresConversion name =
      Some (JsText.arrayIncludes CONVERTIBLE_EXTENSIONS (JsText.toLowerCase name))) /\
  (forall stem stem' ext ext',
      dotFree ext = true -> dotFree ext' = true ->
      JsText.toLowerCase ext = JsText.toLowerCase ext' ->
      requiresConversion (stem ++ "." ++ ext) =
      requiresConversion (stem' ++ "." ++ ext')).
Proof.
  split; [| split; [| split]].
  - exact requiresConversion_total.
  - intros stem ext D. now apply requiresConversion_extension.
  - intros name D. unfold requiresConversion.
    rewrite (split_dotFree _ D). reflexivity.
  - intros stem stem' ext ext' D D' E.
    rewrite !requiresConversion_extension by assumption. now rewrite E.
Qed.

Lemma requiresConversion_examples :
  requiresConversion "scan.TIFF" = Some true /\
  requiresConversion "archive.tar.png" = Some true /\
  requiresConversion "png" = Some true /\
  requiresConversion "report.pdf" = Some false /\
  requiresConversion "photo." = Some false /\
  requiresConversion "photo.png.bak" = Some false.
Proof.
  destruct requiresConversion_spec as [_ [E [N _]]].
  refine (conj _ (conj _ (conj _ (conj _ (conj _ _))))).
  - apply (E "scan" "TIFF"). reflexivity.
  - apply (E "archive.tar" "png"). reflexivity.
  - apply (N "png"). reflexivity.
  - apply (E "report" "pdf"). reflexivity.
  - apply (E "photo" ""). reflexivity.
  - apply (E "photo.png" "bak"). reflexivity.
Defined.

(** X15: every type the file picker accepts is either [.pdf], imported as
    it is, or converted first: for each suffix of [SUPPORTED_FILE_TYPES]
    and every stem, [requiresConversion] answers [true] unless the suffix
    is [.pdf]. *)
Theorem accepted_types_are_pdf_or_converted (stem suffix : string) :
  In suffix (JsText.split "," SUPPORTED_FILE_TYPES) ->
  requiresConversion (stem ++ suffix) = Some (negb (String.eqb suffix ".pdf")).
Proof.
  intros I. simpl in I.
  repeat (destruct I as [<- | I];
          [ match goal with
            | |- requiresConversion (stem ++ String "." ?e) = _ =>
                exact (@requiresConversion_extension stem e eq_refl)
            end
          | ]).
  contradiction.
Qed.

Lemma accepted_types_are_pdf_or_converted_jpeg :
  requiresConversion ("holiday" ++ ".jpeg") = Some (negb (String.eqb ".jpeg" ".pdf")).
Proof.
  apply accepted_types_are_pdf_or_converted. simpl. tauto.
Defined.

(** ** The toolbar *)

Lemma customImportButton_facts :
  notImportDocument customImportButton = true /\
  isImportButton customImportButton = true.
Proof. split; reflexivity. Qed.

Lemma in_firstn (A : Type) (n : nat) (l : list A) (x : A) :
  In x (List.firstn n l) -> In x l.
Proof.
  intros I. rewrite <- (firstn_skipn n l). apply in_or_app. now left.
Qed.

Lemma in_skipn (A : Type) (n : nat) (l : list A) (x : A) :
  In x (List.skipn n l) -> In x l.
Proof.
  intros I. rewrite <- (firstn_skipn n l). apply in_or_app. now right.
Qed.

Lemma half_le (n : nat) : (n / 2 <= n)%nat.
Proof. apply Nat.Div0.div_le_upper_bound. lia. Qed.

(** X16: the toolbar the component builds.  With [filtered] the default
    items without those of type ["import-document"], in their order, the
    result has one item more; the import button stands at index
    [length filtered / 2], with as many items before it as after it, or
    one more after; taking it out gives [filtered] back; and no item of
    type ["import-document"] is left. *)
Theorem createCustomDocumentEditorToolbarItems_spec
    (defaults : list ToolbarItem.t) :
  let filtered := List.filter notImportDocument defaults in
  let middle := (List.length filtered / 2)%nat in
  let result := createCustomDocumentEditorToolbarItems defaults in
  List.length result = S (List.length filtered) /\
  List.nth_error result middle = Some customImportButton /\
  (List.firstn middle result ++ List.skipn (S middle) result)%list = filtered /\
  (middle <= List.length filtered - middle <= S middle)%nat /\
  (forall item, In item result -> ToolbarItem.type item <> "import-document").
Proof.
  cbv zeta. unfold createCustomDocumentEditorToolbarItems.
  set (filtered := List.filter notImportDocument defaults).
  set (middle := (List.length filtered / 2)%nat).
  assert (M : (middle <= List.length filtered)%nat) by apply half_le.
  assert (L : List.length (List.firstn middle filtered) = middle)
    by (apply firstn_length_le; exact M).
  split; [| split; [| split; [| split]]].
  - rewrite !length_app, L, length_skipn. simpl. lia.
  - rewrite nth_error_app2 by lia. rewrite L, Nat.sub_diag. reflexivity.
  - rewrite firstn_app, L, Nat.sub_diag, firstn_O, app_nil_r.
    rewrite firstn_firstn, Nat.min_id.
    rewrite skipn_app, L.
    replace (S middle - middle)%nat with 1%nat by lia.
    rewrite (skipn_all2 (n := S middle)) by lia.
    simpl. apply firstn_skipn.
  - pose proof (Nat.div_mod_eq (List.length filtered) 2) as D.
    pose proof (Nat.mod_upper_bound (List.length filtered) 2) as U.
    fold middle in D. lia.
  - intros item I. apply in_app_or in I. destruct I as [I | [<- | I]].
    + apply in_firstn in I. apply filter_In in I. destruct I as [_ N].
      unfold notImportDocument in N. apply negb_true_iff in N.
      now apply String.eqb_neq in N.
    + discriminate.
    + apply in_skipn in I. apply filter_In in I. destruct I as [_ N].
      unfold notImportDocument in N. apply negb_true_iff in N.
      now apply String.eqb_neq in N.
Qed.

Lemma updateImportButtonItems_other (isDisabled : bool) (title : string)
                                    (items : list ToolbarItem.t) :
  (forall item, In item items -> isImportButton item = false) ->
  updateImportButtonItems isDisabled title items = items.
Proof.
  intros N. unfold updateImportButtonItems.
  induction items as [| item rest IH]; [reflexivity |].
  simpl. rewrite (N item) by (left; reflexivity).
  f_equal. apply IH. intros x I. apply N. now right.
Qed.

Lemma updateImportButtonItems_twice
    (d1 d2 : bool) (t1 t2 : string) (items : list ToolbarItem.t) :
  updateImportButtonItems d2 t2 (updateImportButtonItems d1 t1 items) =
  updateImportButtonItems d2 t2 items.
Proof.
  unfold updateImportButtonItems. rewrite map_map. apply map_ext.
  intros item. unfold isImportButton at 2.
  destruct (Js.strictEq (ToolbarItem.id item) (Some IMPORT_BUTTON_ID)) eqn:E.
  - unfold isImportButton. cbn [ToolbarItem.id]. rewrite E. reflexivity.
  - unfold isImportButton. rewrite E. reflexivity.
Qed.

(** X17: [updateImportButtonState] on any list of items.  It keeps the
    number, the order, the types, the identifiers, the icons and the
    actions of the items; it leaves an item with another identifier as it
    is; an item with the identifier of the import button gets the given
    state and title; and of two updates in a row only the second
    counts. *)
Theorem updateImportButtonItems_spec
    (isDisabled : bool) (title : string) (items : list ToolbarItem.t) :
  List.map ToolbarItem.type (updateImportButtonItems isDisabled title items)
  = List.map ToolbarItem.type items /\
  List.map ToolbarItem.id (updateImportButtonItems isDisabled title items)
  = List.map ToolbarItem.id items /\
  List.map ToolbarItem.icon (updateImportButtonItems isDisabled title items)
  = List.map ToolbarItem.icon items /\
  List.map ToolbarItem.onPress (updateImportButtonItems isDisabled title items)
  = List.map ToolbarItem.onPress items /\
  (forall n item,
      List.nth_error items n = Some item ->
      exists item',
        List.nth_error (updateImportButtonItems isDisabled title items) n
        = Some item' /\
        (ToolbarItem.id item <> Some IMPORT_BUTTON_ID -> item' = item) /\
        (ToolbarItem.id item = Some IMPORT_BUTTON_ID ->
         ToolbarItem.disabled item' = Some isDisabled /\
         ToolbarItem.title item' = Some title)) /\
  (forall (before : bool) (title0 : string),
      updateImportButtonItems isDisabled title
        (updateImportButtonItems before title0 items)
      = updateImportButtonItems isDisabled title items).
Proof.
  assert (Maps : forall (A : Type) (f : ToolbarItem.t -> A),
             (forall item,
                 f (ToolbarItem.mk (ToolbarItem.type item) (ToolbarItem.id item)
                      (Some title) (ToolbarItem.icon item) (Some isDisabled)
                      (ToolbarItem.onPress item)) = f item) ->
             List.map f (updateImportButtonItems isDisabled title items)
             = List.map f items).
  { intros A f Hf. unfold updateImportButtonItems. rewrite map_map.
    apply map_ext. intros item. destruct (isImportButton item); auto. }
  split; [| split; [| split; [| split; [| split]]]];
    try (apply Maps; reflexivity).
  - intros n item E. unfold updateImportButtonItems.
    rewrite nth_error_map, E. simpl. eexists. split; [reflexivity |].
    unfold isImportButton.
    destruct (ToolbarItem.id item) as [i |] eqn:Ei; simpl.
    + destruct (String.eqb i IMPORT_BUTTON_ID) eqn:Es.
      * apply String.eqb_eq in Es. subst i. split; [congruence | auto].
      * apply String.eqb_neq in Es. split; [auto | congruence].
    + split; [auto | discriminate].
  - intros before title0. apply updateImportButtonItems_twice.
Qed.

(** X18: on the toolbar the component builds, when no default item bears
    the identifier of the import button, [updateImportButtonState] changes
    the import button and nothing else: the items before and after it are
    those of the built toolbar, and the button has the given state and
    title. *)
Theorem updateImportButtonItems_on_built_toolbar
    (isDisabled : bool) (title : string) (defaults : list ToolbarItem.t)
    (Hids : forall item, In item defaults -> isImportButton item = false) :
  let filtered := List.filter notImportDocument defaults in
  let middle := (List.length filtered / 2)%nat in
  updateImportButtonItems isDisabled title
    (createCustomDocumentEditorToolbarItems defaults)
  = (List.firstn middle filtered
     ++ [importButtonIn isDisabled title]
     ++ List.skipn middle filtered)%list.
Proof.
  cbv zeta. unfold createCustomDocumentEditorToolbarItems.
  set (filtered := List.filter notImportDocument defaults).
  set (middle := (List.length filtered / 2)%nat).
  assert (F : forall item, In item filtered -> isImportButton item = false).
  { intros item I. apply filter_In in I. apply Hids. tauto. }
  unfold updateImportButtonItems at 1. rewrite !map_app.
  fold (updateImportButtonItems isDisabled title (List.firstn middle filtered)).
  fold (updateImportButtonItems isDisabled title (List.skipn middle filtered)).
  rewrite !updateImportButtonItems_other.
  - reflexivity.
  - intros item I. apply F. eapply in_skipn; eauto.
  - intros item I. apply F. eapply in_firstn; eauto.
Qed.

Lemma updateImportButtonItems_on_built_toolbar_example :
  updateImportButtonItems true "Converting & Importing..."
    (createCustomDocumentEditorToolbarItems defaultItemsExample)
  = [cropItem; importButtonIn true "Converting & Importing...";
     rotateItem; removeItem].
Proof.
  apply (@updateImportButtonItems_on_built_toolbar true
           "Converting & Importing..." defaultItemsExample).
  intros item I. simpl in I.
  repeat (destruct I as [<- | I]; [reflexivity |]). contradiction.
Defined.

(** ** The import *)

Lemma withCreated_same (ui : Ui.t) : withCreated (Ui.created ui) ui = ui.
Proof. destruct ui; reflexivity. Qed.

Lemma existsb_appended (body : list DomNode.t) (node : DomNode.t) :
  List.existsb (sameNode node) (body ++ [node]) = true.
Proof.
  rewrite existsb_app. simpl. unfold sameNode. rewrite Nat.eqb_refl.
  now rewrite orb_true_r.
Qed.

Lemma filter_appended (body : list DomNode.t) (c : nat) (d : string) :
  Forall (fun n => (DomNode.id n < c)%nat) body ->
  List.filter (fun n => negb (sameNode (DomNode.mk c d) n))
    (body ++ [DomNode.mk c d]) = body.
Proof.
  intros F. rewrite filter_app. simpl. unfold sameNode at 2. simpl.
  rewrite Nat.eqb_refl. simpl. rewrite app_nil_r.
  induction F as [| n rest Hn F IH]; [reflexivity |].
  simpl. unfold sameNode at 1. simpl.
  assert (E : Nat.eqb c (DomNode.id n) = false) by (apply Nat.eqb_neq; lia).
  rewrite E. simpl. now rewrite IH.
Qed.

Lemma bodyKnown_withCreated (c : nat) (ui : Ui.t) :
  (Ui.created ui <= c)%nat -> bodyKnown ui -> bodyKnown (withCreated c ui).
Proof.
  unfold bodyKnown. intros L K. simpl.
  eapply Forall_impl; [| exact K]. simpl. intros n Hn. lia.
Qed.

Section ImportProperties.

Variable State : Type.
Variable Headless : Type.
Variable NutrientViewer : Sdk.t State Headless.
Variable VITE_lkey : option string.

(** The page after the temporary container has come and gone. *)
Lemma removeChild_appended (s : State) (ui : Ui.t) :
  bodyKnown ui ->
  removeChild (fst (appendHiddenDiv ui)) (Page.mk s (snd (appendHiddenDiv ui)))
  = (Returned tt, Page.mk s (withCreated (S (Ui.created ui)) ui)).
Proof.
  intros K. unfold removeChild, appendHiddenDiv.
  cbn [fst snd Page.ui Page.sdk Ui.body Ui.toolbarItems Ui.overlay Ui.created
       Ui.alerts Ui.timers Ui.interactionMode].
  rewrite existsb_appended, (filter_appended _ K). reflexivity.
Qed.

(** What [convertToPDF] leaves of the page, and what it returns. *)
Lemma convertToPDF_run (file : File.t) (p : Page.t State) :
  bodyKnown (Page.ui p) ->
  exists (r : Result File.t) (s : State) (c : nat),
    convertToPDF NutrientViewer VITE_lkey file p
    = (r, Page.mk s (withCreated c (Page.ui p))) /\
    (Ui.created (Page.ui p) <= c)%nat /\
    (forall converted,
        r = Returned converted ->
        File.name converted = "converted-" ++ File.name file ++ ".pdf" /\
        File.type converted = "application/pdf").
Proof.
  intros K. unfold convertToPDF. unfold taskBind at 1, taskAwait at 1.
  destruct (Sdk.arrayBuffer NutrientViewer file (Page.sdk p)) as [[buffer | e] s0].
  - cbn [Page.ui Page.sdk].
    destruct (appendHiddenDiv (Page.ui p)) as [node ui1] eqn:A.
    assert (R : forall s : State,
               removeChild node (Page.mk s ui1)
               = (Returned tt,
                  Page.mk s (withCreated (S (Ui.created (Page.ui p))) (Page.ui p)))).
    { intros s. pose proof (removeChild_appended s K) as R.
      rewrite A in R. exact R. }
    unfold taskFinally, taskBind, taskAwait, taskRet. cbn [Page.ui Page.sdk].
    destruct (Sdk.load NutrientViewer _ s0) as [[headless | e1] s1];
      [cbn [Page.ui Page.sdk];
       destruct (Sdk.exportPDF NutrientViewer headless s1) as [[pdf | e2] s2];
       [cbn [Page.ui Page.sdk];
        destruct (Sdk.unload NutrientViewer node s2) as [[[] | e3] s3] | ] | ];
      rewrite R; eexists; eexists; eexists;
      (split; [reflexivity | split; [lia |]]);
      intros converted E; try discriminate.
    injection E as <-. split; reflexivity.
  - exists (Thrown_ e), s0, (Ui.created (Page.ui p)).
    cbn [Page.ui]. rewrite withCreated_same.
    split; [reflexivity | split; [lia | discriminate]].
Qed.

(** X19: [convertToPDF] leaves the page as it found it, whether the
    conversion goes through or any of its calls is rejected: the children
    of the body are the same (the temporary container is gone), and so are
    the toolbar, the overlay, the alerts, the timers and the interaction
    mode; a file it returns is named ["converted-"], the name of the
    source, [".pdf"], and has the type ["application/pdf"]. *)
Theorem convertToPDF_restores_page (file : File.t) (p : Page.t State)
    (Hbody : bodyKnown (Page.ui p)) :
  let out := convertToPDF NutrientViewer VITE_lkey file p in
  Ui.body (Page.ui (snd out)) = Ui.body (Page.ui p) /\
  Ui.toolbarItems (Page.ui (snd out)) = Ui.toolbarItems (Page.ui p) /\
  Ui.overlay (Page.ui (snd out)) = Ui.overlay (Page.ui p) /\
  Ui.alerts (Page.ui (snd out)) = Ui.alerts (Page.ui p) /\
  Ui.timers (Page.ui (snd out)) = Ui.timers (Page.ui p) /\
  Ui.interactionMode (Page.ui (snd out)) = Ui.interactionMode (Page.ui p) /\
  bodyKnown (Page.ui (snd out)) /\
  (forall converted,
      fst out = Returned converted ->
      File.name converted = "converted-" ++ File.name file ++ ".pdf" /\
      File.type converted = "application/pdf").
Proof.
  cbv zeta. destruct (convertToPDF_run file p Hbody) as [r [s [c [E [L N]]]]].
  rewrite E. cbn [fst snd Page.ui].
  repeat (split; [reflexivity |]). split.
  - now apply bodyKnown_withCreated.
  - exact N.
Qed.

Lemma toggle_off_hidden (ui : Ui.t) :
  overlayHidden (toggleLoadingOverlay false None ui).
Proof.
  unfold overlayHidden, toggleLoadingOverlay.
  destruct (Ui.overlay ui) eqn:O; simpl; [reflexivity | now rewrite O].
Qed.

End ImportProperties.

Section ImportRuns.

Variable State : Type.
Variable Headless : Type.
Variable NutrientViewer : Sdk.t State Headless.
Variable VITE_lkey : option string.

Lemma toggle_keeps (show : bool) (message : option string) (ui : Ui.t) :
  Ui.toolbarItems (toggleLoadingOverlay show message ui) = Ui.toolbarItems ui /\
  Ui.body (toggleLoadingOverlay show message ui) = Ui.body ui /\
  Ui.created (toggleLoadingOverlay show message ui) = Ui.created ui /\
  Ui.alerts (toggleLoadingOverlay show message ui) = Ui.alerts ui /\
  Ui.timers (toggleLoadingOverlay show message ui) = Ui.timers ui /\
  Ui.interactionMode (toggleLoadingOverlay show message ui)
  = Ui.interactionMode ui.
Proof.
  unfold toggleLoadingOverlay. destruct (Ui.overlay ui); repeat split.
Qed.

Lemma importDocument_run (document : File.t) (p : Page.t State) :
  importDocument NutrientViewer document p =
  match Sdk.applyOperations NutrientViewer
          [importAfterLastPage
             (Sdk.totalPageCount NutrientViewer (Page.sdk p)) document]
          (Page.sdk p) with
  | (Returned _, s) => (Returned tt, Page.mk s (afterSuccess (Page.ui p)))
  | (Thrown_ e, s) => (Thrown_ e, Page.mk s (Page.ui p))
  end.
Proof.
  unfold importDocument. cbv zeta. unfold taskBind, taskAwait, onUi.
  destruct (Sdk.applyOperations NutrientViewer _ (Page.sdk p))
    as [[[] | e] s]; reflexivity.
Qed.

Lemma importFailed_run (p : Page.t State) :
  @importFailed State p = (Returned tt, Page.mk (Page.sdk p) (afterFailure (Page.ui p))).
Proof. reflexivity. Qed.

(** [handleDocumentImport] up to the conversion. *)
Lemma handleDocumentImport_start (file : File.t) (p : Page.t State) (b : bool) :
  requiresConversion (File.name file) = Some b ->
  handleDocumentImport NutrientViewer VITE_lkey file p =
  taskCatch
    (taskBind
       (if b then convertToPDF NutrientViewer VITE_lkey file else taskRet file)
       (importDocument NutrientViewer))
    (@importFailed State)
    (Page.mk (Page.sdk p) (whileImporting b (Page.ui p))).
Proof.
  intros E. unfold handleDocumentImport, importBody, taskCatch.
  unfold taskBind at 1. unfold onUi at 1. rewrite E.
  unfold taskBind at 1. unfold taskRet at 1.
  unfold taskBind at 1. unfold onUi at 1. reflexivity.
Qed.

(** The two ways [handleDocumentImport] ends. *)
Lemma handleDocumentImport_outcome (file : File.t) (p : Page.t State) :
  bodyKnown (Page.ui p) ->
  exists (s : State) (c : nat) (b : bool),
    (Ui.created (Page.ui p) <= c)%nat /\
    (handleDocumentImport NutrientViewer VITE_lkey file p
     = (Returned tt,
        Page.mk s (afterSuccess (withCreated c (whileImporting b (Page.ui p)))))
     \/
     handleDocumentImport NutrientViewer VITE_lkey file p
     = (Returned tt,
        Page.mk s (afterFailure (withCreated c (whileImporting b (Page.ui p)))))).
Proof.
  intros K.
  destruct (requiresConversion_total (File.name file)) as [b Eb].
  rewrite (handleDocumentImport_start file p Eb).
  set (ui1 := whileImporting b (Page.ui p)).
  assert (K1 : bodyKnown ui1 /\ Ui.created ui1 = Ui.created (Page.ui p)).
  { unfold ui1, whileImporting, bodyKnown.
    destruct (toggle_keeps true
                (Some (if b then "Converting document to PDF..."
                       else "Importing document..."))
                (updateImportButtonState true "Converting & Importing..."
                   (Page.ui p))) as [_ [Eb' [Ec _]]].
    rewrite Eb', Ec. split; [exact K | reflexivity]. }
  destruct K1 as [K1 C1].
  unfold taskCatch, taskBind. destruct b.
  - destruct (convertToPDF_run NutrientViewer VITE_lkey file
                (Page.mk (Page.sdk p) ui1) K1) as [r [s [c [E [L _]]]]].
    cbn [Page.ui] in E, L. rewrite E.
    destruct r as [converted | e].
    + rewrite importDocument_run. cbn [Page.ui Page.sdk].
      destruct (Sdk.applyOperations NutrientViewer _ s) as [[[] | e] s'];
        exists s', c, true; (split; [lia |]); [left | right]; reflexivity.
    + exists s, c, true. split; [lia |]. right. reflexivity.
  - unfold taskRet. rewrite importDocument_run. cbn [Page.ui Page.sdk].
    destruct (Sdk.applyOperations NutrientViewer _ (Page.sdk p))
      as [[[] | e] s'];
      exists s', (Ui.created ui1), false; rewrite withCreated_same;
      (split; [lia |]); [left | right]; reflexivity.
Qed.

Lemma afterSuccess_facts (ui : Ui.t) :
  Ui.toolbarItems (afterSuccess ui) = Ui.toolbarItems ui /\
  Ui.body (afterSuccess ui) = Ui.body ui /\
  Ui.created (afterSuccess ui) = Ui.created ui /\
  Ui.alerts (afterSuccess ui) = Ui.alerts ui /\
  Ui.timers (afterSuccess ui)
  = (Ui.timers ui ++ [Timer.mk 200 ReEnableImportButton])%list /\
  Ui.interactionMode (afterSuccess ui) = Some "DOCUMENT_EDITOR" /\
  overlayHidden (afterSuccess ui).
Proof.
  unfold afterSuccess, setTimeout, overlayHidden.
  cbn [Ui.toolbarItems Ui.body Ui.created Ui.alerts Ui.timers
       Ui.interactionMode Ui.overlay].
  destruct (toggle_keeps false None (enterDocumentEditor ui))
    as [A [B [C [D [E F]]]]].
  rewrite A, B, C, D, E, F. repeat split.
  apply toggle_off_hidden.
Qed.

Lemma afterFailure_facts (ui : Ui.t) :
  Ui.toolbarItems (afterFailure ui)
  = updateImportButtonItems false "Import Documents" (Ui.toolbarItems ui) /\
  Ui.body (afterFailure ui) = Ui.body ui /\
  Ui.created (afterFailure ui) = Ui.created ui /\
  Ui.alerts (afterFailure ui)
  = (Ui.alerts ui ++ ["Failed to import document. Please try again."])%list /\
  Ui.timers (afterFailure ui) = Ui.timers ui /\
  Ui.interactionMode (afterFailure ui) = Ui.interactionMode ui /\
  overlayHidden (afterFailure ui).
Proof.
  unfold afterFailure, updateImportButtonState, alert, overlayHidden.
  cbn [Ui.toolbarItems Ui.body Ui.created Ui.alerts Ui.timers
       Ui.interactionMode Ui.overlay].
  destruct (toggle_keeps false None ui) as [A [B [C [D [E F]]]]].
  rewrite A, B, C, D, E, F. repeat split.
  apply toggle_off_hidden.
Qed.

Lemma whileImporting_facts (b : bool) (c : nat) (ui : Ui.t) :
  let ui1 := withCreated c (whileImporting b ui) in
  Ui.toolbarItems ui1
  = updateImportButtonItems true "Converting & Importing..." (Ui.toolbarItems ui) /\
  Ui.body ui1 = Ui.body ui /\
  Ui.created ui1 = c /\
  Ui.alerts ui1 = Ui.alerts ui /\
  Ui.timers ui1 = Ui.timers ui /\
  Ui.interactionMode ui1 = Ui.interactionMode ui.
Proof.
  cbv zeta. unfold withCreated, whileImporting.
  cbn [Ui.toolbarItems Ui.body Ui.created Ui.alerts Ui.timers
       Ui.interactionMode Ui.overlay].
  destruct (toggle_keeps true
              (Some (if b then "Converting document to PDF..."
                     else "Importing document..."))
              (updateImportButtonState true "Converting & Importing..." ui))
    as [A [B [_ [D [E F]]]]].
  rewrite A, B, D, E, F. repeat split.
Qed.

(** X20: how an import ends, whatever the SDK does.
    [handleDocumentImport] returns; the children of the body are what
    they were; the loading overlay is hidden; and the page is in one of
    two states: the import went through (the document editor is on, the
    button is still disabled and a timer of 200 ms that enables it again
    is pending, no alert), or it failed (one alert more, the button
    enabled again under its title, no timer, the interaction mode
    untouched).  In the first state the timer's callback leaves the
    toolbar as a failed import does. *)
Theorem handleDocumentImport_ends (file : File.t) (p : Page.t State)
    (Hbody : bodyKnown (Page.ui p)) :
  let out := handleDocumentImport NutrientViewer VITE_lkey file p in
  let before := Page.ui p in
  let after := Page.ui (snd out) in
  fst out = Returned tt /\
  Ui.body after = Ui.body before /\
  bodyKnown after /\
  overlayHidden after /\
  (importedFrom before after \/ importFailedFrom before after) /\
  (importedFrom before after ->
   Ui.toolbarItems (runCallback ReEnableImportButton after)
   = updateImportButtonItems false "Import Documents" (Ui.toolbarItems before)).
Proof.
  cbv zeta.
  destruct (handleDocumentImport_outcome file p Hbody)
    as [s [c [b [L [E | E]]]]]; rewrite E; cbn [fst snd Page.ui].
  - destruct (afterSuccess_facts (withCreated c (whileImporting b (Page.ui p))))
      as [A [B [C [D [T [I O]]]]]].
    destruct (whileImporting_facts b c (Page.ui p)) as [A' [B' [C' [D' [T' I']]]]].
    cbv zeta in A', B', C', D', T', I'.
    rewrite A' in A. rewrite B' in B. rewrite C' in C. rewrite D' in D.
    rewrite T' in T.
    split; [reflexivity |]. split; [exact B |]. split.
    { unfold bodyKnown. rewrite B, C.
      eapply Forall_impl; [| exact Hbody]. simpl. intros n Hn. lia. }
    split; [exact O |]. split.
    { left. unfold importedFrom. auto. }
    intros _. unfold runCallback, updateImportButtonState.
    cbn [Ui.toolbarItems]. rewrite A. apply updateImportButtonItems_twice.
  - destruct (afterFailure_facts (withCreated c (whileImporting b (Page.ui p))))
      as [A [B [C [D [T [I O]]]]]].
    destruct (whileImporting_facts b c (Page.ui p)) as [A' [B' [C' [D' [T' I']]]]].
    cbv zeta in A', B', C', D', T', I'.
    rewrite A', updateImportButtonItems_twice in A. rewrite B' in B.
    rewrite C' in C. rewrite D' in D. rewrite T' in T. rewrite I' in I.
    split; [reflexivity |]. split; [exact B |]. split.
    { unfold bodyKnown. rewrite B, C.
      eapply Forall_impl; [| exact Hbody]. simpl. intros n Hn. lia. }
    split; [exact O |]. split.
    { right. unfold importFailedFrom. auto. }
    intros [A2 _]. unfold runCallback, updateImportButtonState.
    cbn [Ui.toolbarItems]. rewrite A. apply updateImportButtonItems_twice.
Qed.

(** X21: a file that needs no conversion is imported as it is, after the
    last page, and the SDK gets no other call: the one operation is
    [importDocument] of the file itself with [afterPageIndex] the page
    count minus one; if it is accepted the page ends in the state of a
    finished import, if it is rejected in the state of a failed one. *)
Theorem handleDocumentImport_without_conversion
    (file : File.t) (p : Page.t State)
    (Hpdf : requiresConversion (File.name file) = Some false) :
  handleDocumentImport NutrientViewer VITE_lkey file p =
  match Sdk.applyOperations NutrientViewer
          [ImportOperation.mk "importDocument"
             (Sdk.totalPageCount NutrientViewer (Page.sdk p) - 1) false file]
          (Page.sdk p) with
  | (Returned _, s) =>
      (Returned tt,
       Page.mk s (afterSuccess (whileImporting false (Page.ui p))))
  | (Thrown_ _, s) =>
      (Returned tt,
       Page.mk s (afterFailure (whileImporting false (Page.ui p))))
  end.
Proof.
  rewrite (handleDocumentImport_start file p Hpdf).
  unfold taskCatch, taskBind, taskRet. rewrite importDocument_run.
  cbn [Page.ui Page.sdk]. unfold importAfterLastPage.
  destruct (Sdk.applyOperations NutrientViewer _ (Page.sdk p))
    as [[[] | e] s]; reflexivity.
Qed.

(** X22: the calls of an import with conversion, in their order.  For a
    file that needs conversion, with every call accepted: the bytes of the
    file are read; a headless instance is loaded on them in a hidden
    container that was not on the page before; its export is taken; the
    container is unloaded; and the file imported after the last page is
    the export, named ["converted-"], the name of the source, [".pdf"].
    The page ends in the state of a finished import, with the container
    gone. *)
Theorem handleDocumentImport_with_conversion
    (file : File.t) (p : Page.t State)
    (buffer pdf : string) (headless : Headless)
    (s1 s2 s3 s4 s5 : State)
    (Hbody : bodyKnown (Page.ui p))
    (Hneeded : requiresConversion (File.name file) = Some true)
    (Hbuffer :
       Sdk.arrayBuffer NutrientViewer file (Page.sdk p) = (Returned buffer, s1))
    (Hload :
       Sdk.load NutrientViewer
         (LoadConfiguration.mk true
            (DomNode.mk (Ui.created (Page.ui p)) "none") buffer VITE_lkey) s1
       = (Returned headless, s2))
    (Hexport : Sdk.exportPDF NutrientViewer headless s2 = (Returned pdf, s3))
    (Hunload :
       Sdk.unload NutrientViewer
         (DomNode.mk (Ui.created (Page.ui p)) "none") s3 = (Returned tt, s4))
    (Himport :
       Sdk.applyOperations NutrientViewer
         [ImportOperation.mk "importDocument"
            (Sdk.totalPageCount NutrientViewer s4 - 1) false
            (File.mk ("converted-" ++ File.name file ++ ".pdf")
               "application/pdf" pdf)] s4
       = (Returned tt, s5)) :
  handleDocumentImport NutrientViewer VITE_lkey file p =
  (Returned tt,
   Page.mk s5
     (afterSuccess
        (withCreated (S (Ui.created (Page.ui p)))
           (whileImporting true (Page.ui p))))) /\
  ~ In (DomNode.mk (Ui.created (Page.ui p)) "none") (Ui.body (Page.ui p)).
Proof.
  split.
  - rewrite (handleDocumentImport_start file p Hneeded).
    assert (K1 : bodyKnown (whileImporting true (Page.ui p)) /\
                 Ui.created (whileImporting true (Page.ui p))
                 = Ui.created (Page.ui p) /\
                 Ui.body (whileImporting true (Page.ui p))
                 = Ui.body (Page.ui p)).
    { destruct (whileImporting_facts true
                  (Ui.created (whileImporting true (Page.ui p))) (Page.ui p))
        as [_ [B _]].
      cbv zeta in B. rewrite withCreated_same in B.
      unfold whileImporting at 2 3. unfold bodyKnown.
      destruct (toggle_keeps true (Some "Converting document to PDF...")
                  (updateImportButtonState true "Converting & Importing..."
                     (Page.ui p))) as [_ [Eb [Ec _]]].
      rewrite B. unfold whileImporting. rewrite Ec. auto. }
    destruct K1 as [K1 [C1 B1]].
    unfold taskCatch, taskBind at 1.
    unfold convertToPDF. unfold taskBind at 1, taskAwait at 1.
    cbn [Page.ui Page.sdk]. rewrite Hbuffer.
    pose proof (removeChild_appended s4 K1) as R.
    unfold appendHiddenDiv in R |- *. cbn [fst snd] in R.
    unfold taskFinally, taskBind, taskAwait, taskRet. cbn [Page.ui Page.sdk].
    rewrite C1 in R |- *. rewrite Hload. cbn [Page.ui Page.sdk].
    rewrite Hexport. cbn [Page.ui Page.sdk]. rewrite Hunload.
    cbn [Page.ui Page.sdk]. rewrite R.
    rewrite importDocument_run. cbn [Page.ui Page.sdk].
    unfold importAfterLastPage. rewrite Himport. reflexivity.
  - intros I. unfold bodyKnown in Hbody.
    rewrite Forall_forall in Hbody. specialize (Hbody _ I). simpl in Hbody. lia.
Qed.

End ImportRuns.

(** *** The import on the example page *)

Lemma freshUi_bodyKnown : bodyKnown freshUi.
Proof. unfold bodyKnown, freshUi. simpl. repeat constructor. Qed.

Lemma convertToPDF_restores_page_scan :
  let out := convertToPDF countingSdk None scanTiff (Page.mk 3%Z freshUi) in
  Ui.body (Page.ui (snd out)) = Ui.body freshUi /\
  Ui.toolbarItems (Page.ui (snd out)) = Ui.toolbarItems freshUi /\
  Ui.overlay (Page.ui (snd out)) = Ui.overlay freshUi /\
  Ui.alerts (Page.ui (snd out)) = Ui.alerts freshUi /\
  Ui.timers (Page.ui (snd out)) = Ui.timers freshUi /\
  Ui.interactionMode (Page.ui (snd out)) = Ui.interactionMode freshUi /\
  bodyKnown (Page.ui (snd out)) /\
  (forall converted,
      fst out = Returned converted ->
      File.name converted = "converted-" ++ "scan.TIFF" ++ ".pdf" /\
      File.type converted = "application/pdf").
Proof.
  apply (@convertToPDF_restores_page Z string countingSdk None scanTiff
           (Page.mk 3%Z freshUi)).
  exact freshUi_bodyKnown.
Defined.

Example convertToPDF_scan :
  fst (convertToPDF countingSdk None scanTiff (Page.mk 3%Z freshUi))
  = Returned (File.mk "converted-scan.TIFF.pdf" "application/pdf" "%PDFII*").
Proof. reflexivity. Qed.

Lemma handleDocumentImport_ends_empty_png :
  let out := handleDocumentImport countingSdk None emptyPng (Page.mk 3%Z freshUi) in
  let after := Page.ui (snd out) in
  fst out = Returned tt /\
  Ui.body after = Ui.body freshUi /\
  bodyKnown after /\
  overlayHidden after /\
  (importedFrom freshUi after \/ importFailedFrom freshUi after) /\
  (importedFrom freshUi after ->
   Ui.toolbarItems (runCallback ReEnableImportButton after)
   = updateImportButtonItems false "Import Documents" (Ui.toolbarItems freshUi)).
Proof.
  apply (@handleDocumentImport_ends Z string countingSdk None emptyPng
           (Page.mk 3%Z freshUi)).
  exact freshUi_bodyKnown.
Defined.

(** The export of the empty file is rejected: the import fails, the page
    count stays 3, the user is told, and the button is enabled again. *)
Example handleDocumentImport_empty_png_run :
  handleDocumentImport countingSdk None emptyPng (Page.mk 3%Z freshUi) =
  (Returned tt,
   Page.mk 3%Z
     (Ui.mk [cropItem; importButtonIn false "Import Documents";
             rotateItem; removeItem]
        (Some (LoadingOverlay.mk "none" "Converting document to PDF..."))
        [DomNode.mk 0 "block"] 2
        ["Failed to import document. Please try again."] [] None)).
Proof. reflexivity. Qed.

Lemma handleDocumentImport_without_conversion_pdf :
  handleDocumentImport countingSdk None
    (File.mk "report.pdf" "application/pdf" "%PDF-1.7") (Page.mk 3%Z freshUi) =
  (Returned tt,
   Page.mk 4%Z (afterSuccess (whileImporting false freshUi))).
Proof.
  apply (@handleDocumentImport_without_conversion Z string countingSdk None
           (File.mk "report.pdf" "application/pdf" "%PDF-1.7")
           (Page.mk 3%Z freshUi)).
  reflexivity.
Defined.

Lemma handleDocumentImport_with_conversion_scan :
  handleDocumentImport countingSdk None scanTiff (Page.mk 3%Z freshUi) =
  (Returned tt,
   Page.mk 4%Z (afterSuccess (withCreated 2 (whileImporting true freshUi)))) /\
  ~ In (DomNode.mk 1 "none") (Ui.body freshUi).
Proof.
  apply (@handleDocumentImport_with_conversion Z string countingSdk None
           scanTiff (Page.mk 3%Z freshUi) "II*" "%PDFII*" "II*"
           3%Z 3%Z 3%Z 3%Z 4%Z);
    try reflexivity.
  exact freshUi_bodyKnown.
Defined.

Example handleDocumentImport_scan_run :
  handleDocumentImport countingSdk None scanTiff (Page.mk 3%Z freshUi) =
  (Returned tt,
   Page.mk 4%Z
     (Ui.mk [cropItem; importButtonIn true "Converting & Importing...";
             rotateItem; removeItem]
        (Some (LoadingOverlay.mk "none" "Converting document to PDF..."))
        [DomNode.mk 0 "block"] 2 []
        [Timer.mk 200 ReEnableImportButton] (Some "DOCUMENT_EDITOR"))).
Proof. reflexivity. Qed.

Lemma createCustomDocumentEditorToolbarItems_example :
  createCustomDocumentEditorToolbarItems defaultItemsExample
  = [cropItem; customImportButton; rotateItem; removeItem].
Proof. reflexivity. Qed.

(** ** A run of strategy 2 *)

Section Strategy2Run.

Variable H : Type.
Variable instance : Instance.t H.


End Strategy2Run.

